(** * youtube_downloader: the format catalog, the selection resolver, the
    collision policy and the progress reporter of [downloader.py] (command-line
    surface) and [app.py] (browser surface), embedded as executable
    definitions, with the properties of the specification stated over them.

    Conventions of the embedding.
    - A Python [dict] with string keys is a [gmap string pyval]; [d.get(k, v)]
      is [dget d k v]; [d[k]] raises [KeyError] on a missing key.
    - Python scalars are [pyval]: [None], integers, floats and strings.  A float
      is idealised as the rational it denotes ([VFloat q]); the true division
      [a / b] is the exact quotient.  Rounding, infinities and NaN are outside
      the model.
    - A Python exception is a value of [exn]; code that may raise returns a
      [result]; code that also reads the keyboard, the clock or the file system,
      or writes to the screen, runs in the state-and-exception monad [M].
    - Text that is only shown to the user is kept as the structured value that
      is formatted ([out_event], [row], [text], ...), not as padded or
      localised text.
    - A string is the UTF-8 encoding of the Python [str].  Searching for and
      replacing ASCII characters, and comparing the lower-cased answer with
      [y] and [r], are the same on the bytes as on the text.  What [int(s)],
      [s.strip()] and [datetime.fromtimestamp(t)] do depends on the
      interpreter (its Unicode tables, its limit on the length of a numeral,
      the range of its platform's clock): they are taken from the
      [interpreter] of the run; [cpython_ascii] is the one used in the
      examples.
    - The file system is a finite map from path strings to file sizes;
      [os.path.join] is the POSIX one. *)

From Stdlib Require Import ZArith QArith Qminmax Qround String Ascii List Lia Bool.
From stdpp Require Import base option list gmap strings pretty.
Import ListNotations.

Open Scope string_scope.
Open Scope Z_scope.
Open Scope list_scope.

(** ** Python values, exceptions and dictionaries *)

Module Py.

Inductive pyval : Type :=
| VNone
| VInt (z : Z)
| VFloat (q : Q)
| VStr (s : string).

(** [StopScript] is Streamlit's [StopException], raised by [st.stop()]; it
    derives from [BaseException], so [except Exception] does not catch it. *)
Inductive exn : Type :=
| KeyError (k : string)
| TypeError
| ValueError
| IndexError
| UnboundLocalError (v : string)
| ZeroDivisionError
| EOFError
| OverflowError
| DownloadError (msg : string)
| StreamlitAPIException
| StopScript.

Definition is_Exception (e : exn) : bool :=
  match e with
  | StopScript => false
  | _ => true
  end.

Inductive result (A : Type) : Type :=
| Ok (a : A)
| Raise (e : exn).

Arguments Ok {A} a.
Arguments Raise {A} e.

#[global] Instance result_ret : MRet result := fun _ a => Ok a.
#[global] Instance result_bind : MBind result := fun _ _ f m =>
  match m with
  | Ok a => f a
  | Raise e => Raise e
  end.

Definition is_ok {A} (r : result A) : bool :=
  match r with
  | Ok _ => true
  | Raise _ => false
  end.

Abbreviation pydict := (gmap string pyval).

(** [d.get(k, default)] *)
Definition dget (d : pydict) (k : string) (default : pyval) : pyval :=
  match d !! k with
  | Some v => v
  | None => default
  end.

(** [d[k]] *)
Definition dindex (d : pydict) (k : string) : result pyval :=
  match d !! k with
  | Some v => Ok v
  | None => Raise (KeyError k)
  end.

(** Truth value of a scalar: [None], [0], [0.0] and [''] are false. *)
Definition truthy (v : pyval) : bool :=
  match v with
  | VNone => false
  | VInt z => negb (Z.eqb z 0)
  | VFloat q => negb (Qeq_bool q 0)
  | VStr s => negb (String.eqb s "")
  end.

(** [a or b] *)
Definition py_or (a b : pyval) : pyval := if truthy a then a else b.

(** [a == b] *)
Definition py_eq (a b : pyval) : bool :=
  match a, b with
  | VNone, VNone => true
  | VInt x, VInt y => Z.eqb x y
  | VInt x, VFloat q => Qeq_bool (inject_Z x) q
  | VFloat q, VInt y => Qeq_bool q (inject_Z y)
  | VFloat p, VFloat q => Qeq_bool p q
  | VStr s, VStr t => String.eqb s t
  | _, _ => false
  end.

(** The number a numeric value denotes; [None] for non-numbers. *)
Definition to_num (v : pyval) : option Q :=
  match v with
  | VInt z => Some (inject_Z z)
  | VFloat q => Some q
  | _ => None
  end.

(** [v > 0] : ordering a non-number against an integer is a [TypeError]. *)
Definition py_gt0 (v : pyval) : result bool :=
  match to_num v with
  | Some q => Ok (negb (Qle_bool q 0))
  | None => Raise TypeError
  end.

(** [a / b], true division. *)
Definition py_truediv (a b : pyval) : result Q :=
  match to_num a, to_num b with
  | Some x, Some y =>
      if Qeq_bool y 0 then Raise ZeroDivisionError else Ok (x / y)%Q
  | _, _ => Raise TypeError
  end.

(** [a // 60] and [a % 60] : integers stay integers, floats stay floats. *)
Definition py_floordiv60 (a : pyval) : result pyval :=
  match a with
  | VInt z => Ok (VInt (z / 60))
  | VFloat q => Ok (VFloat (inject_Z (Qfloor (q / 60))))
  | _ => Raise TypeError
  end.

Definition py_mod60 (a : pyval) : result pyval :=
  match a with
  | VInt z => Ok (VInt (z mod 60))
  | VFloat q => Ok (VFloat (q - 60 * inject_Z (Qfloor (q / 60))))
  | _ => Raise TypeError
  end.

Definition MiB : pyval := VInt (1024 * 1024).

(** [f"{v:<10}"] : a format specification is accepted by [str], [int] and
    [float], and is a [TypeError] for [None]. *)
Definition fmt_spec (v : pyval) : result pyval :=
  match v with
  | VNone => Raise TypeError
  | _ => Ok v
  end.

(** *** Strings *)

Fixpoint starts_with (p s : string) : bool :=
  match p, s with
  | EmptyString, _ => true
  | String a p', String b s' => Ascii.eqb a b && starts_with p' s'
  | String _ _, EmptyString => false
  end.

(** [sub in s] *)
Fixpoint contains (sub s : string) : bool :=
  starts_with sub s ||
  match s with
  | EmptyString => false
  | String _ s' => contains sub s'
  end.

(** [sub in v] for a value: only a string can be searched. *)
Definition py_in (sub : string) (v : pyval) : result bool :=
  match v with
  | VStr s => Ok (contains sub s)
  | _ => Raise TypeError
  end.

(** [s.replace(c, d)] for one-character [c] and [d]. *)
Fixpoint replace_char (c d : ascii) (s : string) : string :=
  match s with
  | EmptyString => EmptyString
  | String a s' => String (if Ascii.eqb a c then d else a) (replace_char c d s')
  end.

Definition lower_char (c : ascii) : ascii :=
  let n := nat_of_ascii c in
  if ((65 <=? n) && (n <=? 90))%nat then ascii_of_nat (n + 32) else c.

(** [s.lower()] *)
Fixpoint lower (s : string) : string :=
  match s with
  | EmptyString => EmptyString
  | String a s' => String (lower_char a) (lower s')
  end.

Definition is_space (c : ascii) : bool :=
  let n := nat_of_ascii c in
  ((9 <=? n) && (n <=? 13) || (28 <=? n) && (n <=? 32))%nat.

Fixpoint lstrip (s : string) : string :=
  match s with
  | EmptyString => EmptyString
  | String a s' => if is_space a then lstrip s' else s
  end.

Fixpoint rstrip (s : string) : string :=
  match s with
  | EmptyString => EmptyString
  | String a s' =>
      match rstrip s' with
      | EmptyString => if is_space a then EmptyString else String a EmptyString
      | r => String a r
      end
  end.

(** [s.strip()] *)
Definition strip (s : string) : string := rstrip (lstrip s).

Definition digit_of (c : ascii) : option Z :=
  let n := nat_of_ascii c in
  if ((48 <=? n) && (n <=? 57))%nat then Some (Z.of_nat (n - 48)) else None.

(** Decimal digits, with single underscores allowed between digits. *)
Fixpoint int_digits (s : string) (acc : Z) (after_digit : bool) : option Z :=
  match s with
  | EmptyString => if after_digit then Some acc else None
  | String c s' =>
      match digit_of c with
      | Some d => int_digits s' (10 * acc + d) true
      | None =>
          if Ascii.eqb c "_" && after_digit then int_digits s' acc false
          else None
      end
  end.

(** The white space that [int] skips around a numeral in ASCII text: the
    characters 9 to 13 and the blank.  (The characters 28 to 31, which
    [strip] removes, are not among them.) *)
Definition is_int_space (c : ascii) : bool :=
  let n := nat_of_ascii c in
  ((9 <=? n) && (n <=? 13) || (n =? 32))%nat.

Fixpoint int_lstrip (s : string) : string :=
  match s with
  | EmptyString => EmptyString
  | String a s' => if is_int_space a then int_lstrip s' else s
  end.

Fixpoint int_rstrip (s : string) : string :=
  match s with
  | EmptyString => EmptyString
  | String a s' =>
      match int_rstrip s' with
      | EmptyString => if is_int_space a then EmptyString else String a EmptyString
      | r => String a r
      end
  end.

(** CPython's [int(s)] on ASCII text: white space around, an optional sign,
    then digits; [None] stands for [ValueError]. *)
Definition int_ascii (s : string) : option Z :=
  match int_rstrip (int_lstrip s) with
  | String "-" s' => option_map Z.opp (int_digits s' 0 false)
  | String "+" s' => int_digits s' 0 false
  | s' => int_digits s' 0 false
  end.

(** *** The interpreter *)

(** The functions of the interpreter that the program calls and whose result
    is not fixed by the program's text: [int(s)] ([None] when it raises
    [ValueError], the one exception [int] raises on a [str]), [s.strip()],
    and whether [datetime.fromtimestamp(t)] accepts the number [t] (outside
    the range of the platform it raises [OverflowError], [OSError] or
    [ValueError], kept here as [OverflowError]). *)
Record interpreter : Type := {
  int_of_str : string → option Z;
  str_strip : string → string;
  fromtimestamp_ok : Q → bool
}.

(** [int(s)] *)
Definition py_int (py : interpreter) (s : string) : result Z :=
  match int_of_str py s with
  | Some z => Ok z
  | None => Raise ValueError
  end.

(** CPython on ASCII text, on a platform whose clock covers the years 1970 to
    9999. *)
Definition cpython_ascii : interpreter :=
  {| int_of_str := int_ascii;
     str_strip := strip;
     fromtimestamp_ok := fun t =>
       Qle_bool 0 t && Qle_bool t (inject_Z 253402214400) |}.

(** [os.path.join(a, b)] on POSIX. *)
Definition path_join (a b : string) : string :=
  if starts_with "/" b then b
  else if String.eqb a "" then b
  else if String.eqb (substring (String.length a - 1) 1 a) "/" then a +:+ b
  else a +:+ "/" +:+ b.

(** *** State and exceptions *)

Definition M (S A : Type) : Type := S → S * result A.

Definition ret {S A} (a : A) : M S A := fun s => (s, Ok a).

Definition bind {S A B} (m : M S A) (k : A → M S B) : M S B :=
  fun s =>
    match m s with
    | (s', Ok a) => k a s'
    | (s', Raise e) => (s', Raise e)
    end.

Definition raise {S A} (e : exn) : M S A := fun s => (s, Raise e).

Definition lift {S A} (r : result A) : M S A := fun s => (s, r).

Definition gets {S A} (f : S → A) : M S A := fun s => (s, Ok (f s)).

Definition modify {S} (f : S → S) : M S unit := fun s => (f s, Ok tt).

(** [try: body / except <catches> as e: handler(e)] *)
Definition try_except {S A} (catches : exn → bool) (body : M S A)
    (handler : exn → M S A) : M S A :=
  fun s =>
    match body s with
    | (s', Raise e) => if catches e then handler e s' else (s', Raise e)
    | r => r
    end.

Definition is_ValueError (e : exn) : bool :=
  match e with
  | ValueError => true
  | _ => false
  end.

(** [l[i]] for [0 <= i]. *)
Definition list_index {A} (l : list A) (i : Z) : result A :=
  match l !! Z.to_nat i with
  | Some a => Ok a
  | None => Raise IndexError
  end.

End Py.

Export Py.

Notation "x <- m ;; k" := (bind m (fun x => k))
  (at level 100, m at next level, right associativity).
Notation "m ;; k" := (bind m (fun _ => k))
  (at level 100, right associativity).

(** ** downloader.py *)

Module Downloader.

(** Text whose content is a formatted number: [MBytes mb] stands for
    [f"{mb:.1f}MB"], [MinSec t] for the minutes and seconds of the local time
    of the timestamp [t]. *)
Inductive text : Type :=
| Lit (s : string)
| MBytes (mb : Q)
| MinSec (timestamp : Q).

(** What the extraction collaborator returns for a URL: the [info] dictionary,
    reduced to the keys the program reads and that can make it fail.
    [info_title] is [None] when the key is absent; [info_duration] is
    [info.get('duration')], [VNone] when the key is absent; an absent
    ['formats'] is the empty list. *)
Record video_info : Type := {
  info_title : option string;
  info_duration : pyval;
  info_formats : list pydict
}.

(** [info.get('title', 'video').replace('/', '_').replace('\\', '_')]
    (downloader.py line 168, app.py line 190). *)
Definition sanitized_title (info : video_info) : string :=
  replace_char "\" "_" (replace_char "/" "_" (default "video" (info_title info))).

(** The [format_info] dictionary of [get_available_formats]. *)
Record format_info : Type := {
  format_id : pyval;
  ext : pyval;
  resolution : pyval;
  fps : pyval;
  filesize : text;
  has_video : bool;
  has_audio : bool
}.

(** The dictionary [{'title': ..., 'formats': ...}]. *)
Record catalog : Type := {
  title : string;
  formats : list format_info
}.

(** [f"{filesize/(1024*1024):.1f}MB" if filesize else "Unknown"] *)
Definition filesize_str (filesize : pyval) : result text :=
  if truthy filesize then mb ← py_truediv filesize MiB; mret (MBytes mb)
  else mret (Lit "Unknown").

(** One iteration of [for f in info.get('formats', [])], on the list built so
    far. *)
Definition format_step (formats : list format_info) (f : pydict)
  : result (list format_info) :=
  let format_id := dget f "format_id" (VStr "N/A") in
  let ext := dget f "ext" (VStr "N/A") in
  let resolution := dget f "resolution" (VStr "N/A") in
  let fps := dget f "fps" (VStr "N/A") in
  let filesize := dget f "filesize" VNone in
  filesize_str ← filesize_str filesize;
  let vcodec := dget f "vcodec" (VStr "N/A") in
  let acodec := dget f "acodec" (VStr "N/A") in
  if py_eq vcodec (VStr "none")
     && negb (negb (py_eq acodec (VStr "none")) && py_eq ext (VStr "mp3"))
  then mret formats
  else
    let format_info :=
      {| format_id := format_id;
         ext := ext;
         resolution := resolution;
         fps := fps;
         filesize := filesize_str;
         has_video := negb (py_eq vcodec (VStr "none"));
         has_audio := negb (py_eq acodec (VStr "none")) |} in
    mret (formats ++ [format_info]).

(** A [for] loop whose body may raise. *)
Fixpoint for_each {A B} (body : A → B → result A) (acc : A) (l : list B)
  : result A :=
  match l with
  | [] => Ok acc
  | b :: l' => acc' ← body acc b; for_each body acc' l'
  end.

(** [try: body / except Exception: handler] without state. *)
Definition catch {A} (body : result A) (handler : exn → result A) : result A :=
  match body with
  | Raise e => if is_Exception e then handler e else Raise e
  | r => r
  end.

(** [str(datetime.fromtimestamp(duration).strftime("%M:%S")) if duration
    else "Unknown"] (line 37): a duration that is true must be a number the
    platform's clock accepts. *)
Definition duration_str (py : interpreter) (duration : pyval) : result text :=
  if truthy duration then
    match to_num duration with
    | Some t => if fromtimestamp_ok py t then Ok (MinSec t) else Raise OverflowError
    | None => Raise TypeError
    end
  else Ok (Lit "Unknown").

(** [get_available_formats(url)], given the interpreter and the collaborator's
    [extract_info(url, download=False)].  The result is [None] when anything
    raised.  The console lines it prints (title, duration, views) are not
    kept, but the text of the duration is computed as the code does, since
    computing it can raise. *)
Definition get_available_formats (py : interpreter)
    (extract_info : string → result video_info) (url : string)
  : result (option catalog) :=
  catch
    (info ← extract_info url;
     let video_title := default "Unknown Title" (info_title info) in
     let duration := info_duration info in
     duration_str ← duration_str py duration;
     formats ← for_each format_step [] (info_formats info);
     mret (Some {| title := video_title; formats := formats |}))
    (fun _ => mret None).

(** *** The properties of a raw descriptor the filter looks at *)

Definition has_video_track (f : pydict) : bool :=
  negb (py_eq (dget f "vcodec" (VStr "N/A")) (VStr "none")).

Definition has_audio_track (f : pydict) : bool :=
  negb (py_eq (dget f "acodec" (VStr "N/A")) (VStr "none")).

Definition is_mp3 (f : pydict) : bool :=
  py_eq (dget f "ext" (VStr "N/A")) (VStr "mp3").

Definition kept (f : pydict) : bool :=
  has_video_track f || has_audio_track f && is_mp3 f.

(** The duration can be turned into text: it is absent, false, or a number
    the platform's clock accepts. *)
Definition duration_ok (py : interpreter) (info : video_info) : bool :=
  is_ok (duration_str py (info_duration info)).

(** The size field can be turned into text: it is absent, false, or a
    number. *)
Definition filesize_ok (f : pydict) : bool :=
  is_ok (filesize_str (dget f "filesize" VNone)).

(** The catalog entry of a raw descriptor. *)
Definition entry (f : pydict) : format_info :=
  {| format_id := dget f "format_id" (VStr "N/A");
     ext := dget f "ext" (VStr "N/A");
     resolution := dget f "resolution" (VStr "N/A");
     fps := dget f "fps" (VStr "N/A");
     filesize :=
       match filesize_str (dget f "filesize" VNone) with
       | Ok t => t
       | Raise _ => Lit "Unknown"
       end;
     has_video := has_video_track f;
     has_audio := has_audio_track f |}.

(** *** [display_formats_and_select]: the two lists *)

(** One iteration of [for fmt in formats] (lines 92-96). *)
Definition partition_step (acc : list format_info * list format_info)
    (fmt : format_info) : list format_info * list format_info :=
  let '(video_formats, audio_formats) := acc in
  if has_video fmt then (video_formats ++ [fmt], audio_formats)
  else if has_audio fmt && negb (has_video fmt)
       then (video_formats, audio_formats ++ [fmt])
       else (video_formats, audio_formats).

Definition partition_formats (formats : list format_info)
  : list format_info * list format_info :=
  foldl partition_step ([], []) formats.

Definition is_audio_only (fmt : format_info) : bool :=
  negb (has_video fmt) && has_audio fmt.


(** *** The command-line world *)

(** One printed line of the format table. *)
Record row : Type := {
  row_id : Z;
  row_format_id : pyval;
  row_resolution : pyval;
  row_fps : pyval;
  row_size : text;
  row_type : pyval;
  row_content : string
}.

(** The value of a key of [ydl_opts]. *)
Inductive optval : Type :=
| OBool (b : bool)
| OVal (v : pyval)
| OStr (s : string)
| OStrs (l : list string)
| OHook (name : string)
| OExtractAudio (preferredcodec : string) (preferredquality : pyval).

Abbreviation options := (gmap string optval).

Abbreviation filesystem := (gmap string Z).

(** What [print] writes, one constructor per message of the program. *)
Inductive out_event : Type :=
| OutTableHeader
| OutRow (r : row)
| OutSelected (selected_format : pyval)
| OutInvalidSelection
| OutInvalidInput
| OutNoFormatInfo
| OutDownloadingWith (format_id : pyval)
| OutOptions (format_id : pyval) (output_path : string) (force : bool)
| OutFileExists (potential_filename : string)
| OutNewName (timestamp : Z)
| OutSkipped
| OutDownloaded (info : pydict)
| OutSavedAs (filename : pyval)
| OutSuccess (video_title output_path : string)
| OutError (e : exn)
| OutProgress (percent speed eta : pyval)
| OutProcessing
| OutCreatedDir (output_dir : string)
| OutDirError (output_dir : string)
| OutUsingDefault (output_dir : string)
| OutSaveTo (output_dir : string)
| OutNoUrls
| OutProcessingUrl (url : string)
| OutSummary (success_count total : nat).

(** One run of the download collaborator: the progress events it pushes to the
    registered hook, the file system it leaves, and what the call returns
    (the [info] dictionary) or raises. *)
Record download_run : Type := {
  run_events : list pydict;
  run_fs : filesystem;
  run_outcome : result pydict
}.

(** The collaborators and the environment of one execution: the interpreter,
    [yt_dlp]'s [extract_info(url, download=False)] and its downloading call,
    whether [os.makedirs] succeeds, and [DEFAULT_SAVE_PATH]. *)
Record environment : Type := {
  python : interpreter;
  extract_info : string → result video_info;
  run_download : options → string → filesystem → download_run;
  makedirs_ok : string → bool;
  DEFAULT_SAVE_PATH : string
}.

Record cli_state : Type := {
  stdin : list string;
  stdout : list out_event;
  fs : filesystem;
  clock : Z;
  calls : list (string * options)
}.

Definition print (e : out_event) : M cli_state unit :=
  modify (fun s =>
    {| stdin := stdin s; stdout := stdout s ++ [e]; fs := fs s;
       clock := clock s; calls := calls s |}).

(** [input(prompt)] : the next line typed, [EOFError] when there is none. *)
Definition input : M cli_state string :=
  fun s =>
    match stdin s with
    | line :: rest =>
        ({| stdin := rest; stdout := stdout s; fs := fs s; clock := clock s;
            calls := calls s |}, Ok line)
    | [] => (s, Raise EOFError)
    end.

(** [os.path.exists(path)] *)
Definition path_exists (fs : filesystem) (path : string) : bool :=
  bool_decide (is_Some (fs !! path)).

Definition set_fs (fs' : filesystem) : M cli_state unit :=
  modify (fun s =>
    {| stdin := stdin s; stdout := stdout s; fs := fs'; clock := clock s;
       calls := calls s |}).

Definition record_call (url : string) (opts : options) : M cli_state unit :=
  modify (fun s =>
    {| stdin := stdin s; stdout := stdout s; fs := fs s; clock := clock s;
       calls := calls s ++ [(url, opts)] |}).

(** *** [display_formats_and_select] *)

(** The line printed for a video format (line 103). *)
Definition video_row (i : nat) (fmt : format_info) : result row :=
  let media_type := if has_audio fmt then "Video+Audio" else "Video" in
  fid ← fmt_spec (format_id fmt);
  res ← fmt_spec (resolution fmt);
  fps ← fmt_spec (fps fmt);
  ext ← fmt_spec (ext fmt);
  mret {| row_id := Z.of_nat i; row_format_id := fid; row_resolution := res;
          row_fps := fps; row_size := filesize fmt; row_type := ext;
          row_content := media_type |}.

(** The line printed for an audio format (line 109). *)
Definition audio_row (idx : nat) (fmt : format_info) : result row :=
  fid ← fmt_spec (format_id fmt);
  ext ← fmt_spec (ext fmt);
  mret {| row_id := Z.of_nat idx; row_format_id := fid;
          row_resolution := VStr "audio only"; row_fps := VStr "-";
          row_size := filesize fmt; row_type := ext;
          row_content := "Audio only" |}.

Definition best_row (best_idx : nat) : row :=
  {| row_id := Z.of_nat best_idx; row_format_id := VStr "best";
     row_resolution := VStr "best"; row_fps := VStr "auto";
     row_size := Lit "auto"; row_type := VStr "mp4";
     row_content := "Best quality" |}.

Definition best_audio_row (best_audio_idx : nat) : row :=
  {| row_id := Z.of_nat best_audio_idx; row_format_id := VStr "bestaudio";
     row_resolution := VStr "audio"; row_fps := VStr "auto";
     row_size := Lit "auto"; row_type := VStr "mp3";
     row_content := "Best audio" |}.

(** [for i, fmt in enumerate(l): print(line(i + offset, fmt))] *)
Fixpoint print_rows (line : nat → format_info → result row) (offset : nat)
    (l : list format_info) : M cli_state unit :=
  match l with
  | [] => ret tt
  | fmt :: l' =>
      r <- lift (line offset fmt) ;;
      print (OutRow r) ;;
      print_rows line (S offset) l'
  end.

Definition best_combined : pyval := VStr "best[ext=mp4]".
Definition best_audio : pyval := VStr "bestaudio[ext=mp3]/bestaudio".

(** Lines 118-145: read the selection and resolve it. *)
Definition select_format (py : interpreter)
    (formats video_formats audio_formats : list format_info)
  : M cli_state pyval :=
  let best_idx := Z.of_nat (length formats) in
  let best_audio_idx := best_idx + 1 in
  try_except is_ValueError
    (selection <- input ;;
     if String.eqb (str_strip py selection) "" then ret best_combined
     else
       idx <- lift (py_int py selection) ;;
       if (0 <=? idx) && (idx <? Z.of_nat (length video_formats)) then
         fmt <- lift (list_index video_formats idx) ;;
         let selected_format := format_id fmt in
         print (OutSelected selected_format) ;;
         ret selected_format
       else if (Z.of_nat (length video_formats) <=? idx)
               && (idx <? Z.of_nat (length formats)) then
         let audio_idx := idx - Z.of_nat (length video_formats) in
         fmt <- lift (list_index audio_formats audio_idx) ;;
         let selected_format := format_id fmt in
         print (OutSelected selected_format) ;;
         ret selected_format
       else if idx =? best_idx then ret best_combined
       else if idx =? best_audio_idx then ret best_audio
       else
         print OutInvalidSelection ;;
         ret best_combined)
    (fun _ =>
       print OutInvalidInput ;;
       ret best_combined).

(** [display_formats_and_select(formats_info)]; the result [VNone] is Python's
    [None]. *)
Definition display_formats_and_select (py : interpreter)
    (formats_info : option catalog) : M cli_state pyval :=
  match formats_info with
  | None => ret VNone
  | Some info =>
      let formats := formats info in
      print OutTableHeader ;;
      let '(video_formats, audio_formats) := partition_formats formats in
      print_rows video_row 0 video_formats ;;
      let offset := length video_formats in
      print_rows audio_row offset audio_formats ;;
      let best_idx := length formats in
      print (OutRow (best_row best_idx)) ;;
      let best_audio_idx := (best_idx + 1)%nat in
      print (OutRow (best_audio_row best_audio_idx)) ;;
      select_format py formats video_formats audio_formats
  end.

(** *** [yt_dlp_progress_hook] *)

Definition yt_dlp_progress_hook (d : pydict) : M cli_state unit :=
  status <- lift (dindex d "status") ;;
  if py_eq status (VStr "downloading") then
    let percent := dget d "_percent_str" (VStr "N/A") in
    let speed := dget d "_speed_str" (VStr "N/A") in
    let eta := dget d "_eta_str" (VStr "N/A") in
    print (OutProgress percent speed eta)
  else
    status <- lift (dindex d "status") ;;
    if py_eq status (VStr "finished") then print OutProcessing
    else ret tt.

(** *** [download_with_yt_dlp] *)

(** The collaborator calls the registered hook on each event, in order. *)
Fixpoint run_hooks {S} (hook : pydict → M S unit) (events : list pydict)
  : M S unit :=
  match events with
  | [] => ret tt
  | d :: events' => hook d ;; run_hooks hook events'
  end.

(** [ydl.extract_info(url, download=True)] under [YoutubeDL(ydl_opts)]. *)
Definition ydl_download (env : environment) (ydl_opts : options)
    (url : string) : M cli_state pydict :=
  record_call url ydl_opts ;;
  before <- gets fs ;;
  let run := run_download env ydl_opts url before in
  run_hooks yt_dlp_progress_hook (run_events run) ;;
  set_fs (run_fs run) ;;
  lift (run_outcome run).

(** [format_id and ('bestaudio' in format_id and 'mp3' in format_id)] *)
Definition mp3_requested (format_id : pyval) : result bool :=
  if truthy format_id then
    a ← py_in "bestaudio" format_id;
    if (a : bool) then py_in "mp3" format_id else mret false
  else mret false.

(** Lines 224-240: the download and the report. *)
Definition download_and_report (env : environment) (ydl_opts : options)
    (url video_title output_path : string) : M cli_state bool :=
  info <- ydl_download env ydl_opts url ;;
  print (OutDownloaded info) ;;
  (match info !! "_filename" with
   | Some filename => print (OutSavedAs filename)
   | None => ret tt
   end) ;;
  print (OutSuccess video_title output_path) ;;
  ret true.

(** Lines 174-193: [ydl_opts] as first built, then changed by [force]. *)
Definition base_opts (output_path : string) (format_id : pyval) (force : bool)
  : options :=
  let filename_template := "%(title)s.%(ext)s" in
  let ydl_opts : options :=
    <["format" := OVal format_id]>
    (<["format_sort" := OStrs ["res"; "ext"]]>
    (<["outtmpl" := OStr (path_join output_path filename_template)]>
    (<["progress_hooks" := OHook "yt_dlp_progress_hook"]>
    (<["quiet" := OBool false]>
    (<["no_warnings" := OBool false]>
    (<["noplaylist" := OBool true]> ∅)))))) in
  if force then <["overwrites" := OBool true]> ydl_opts
  else
    <["concurrent_fragment_downloads" := OVal (VInt 5)]>
    (<["outtmpl_na_placeholder" := OStr ""]>
    (<["continuedl" := OBool true]>
    (<["skip_download" := OBool false]> ydl_opts))).

(** Lines 196-201 and 262-267: the conversion to [mp3]. *)
Definition add_extract_audio (mp3 : bool) (preferredquality : string)
    (ydl_opts : options) : options :=
  if mp3 then
    <["postprocessors" := OExtractAudio "mp3" (VStr preferredquality)]> ydl_opts
  else ydl_opts.

(** Lines 163-240: everything after the format is known. *)
Definition download_format (env : environment) (url output_path : string)
    (format_id : pyval) (force : bool) : M cli_state bool :=
  print (OutDownloadingWith format_id) ;;
  info <- lift (extract_info env url) ;;
  let video_title := sanitized_title info in
  timestamp <- gets clock ;;
  let ydl_opts := base_opts output_path format_id force in
  mp3 <- lift (mp3_requested format_id) ;;
  let ydl_opts := add_extract_audio mp3 "192" ydl_opts in
  print (OutOptions format_id output_path force) ;;
  let potential_filename := path_join output_path (video_title +:+ ".mp4") in
  existing <- gets (fun s => path_exists (fs s) potential_filename) ;;
  if existing && negb force then
    print (OutFileExists potential_filename) ;;
    response <- input ;;
    let response := lower response in
    if String.eqb response "y" then
      download_and_report env (<["overwrites" := OBool true]> ydl_opts)
        url video_title output_path
    else if String.eqb response "r" then
      let renamed :=
        path_join output_path
          ("%(title)s_" +:+ pretty timestamp +:+ ".%(ext)s") in
      print (OutNewName timestamp) ;;
      download_and_report env (<["outtmpl" := OStr renamed]> ydl_opts)
        url video_title output_path
    else
      print OutSkipped ;;
      ret true
  else
    download_and_report env ydl_opts url video_title output_path.

(** [download_with_yt_dlp(url, output_path, format_id, auto_best, force)] *)
Definition download_with_yt_dlp (env : environment) (url output_path : string)
    (format_id : pyval) (auto_best force : bool) : M cli_state bool :=
  try_except is_Exception
    (if auto_best then
       download_format env url output_path best_combined force
     else if negb (truthy format_id) then
       formats_info <-
         lift (get_available_formats (python env) (extract_info env) url) ;;
       match formats_info with
       | None =>
           print OutNoFormatInfo ;;
           ret false
       | Some _ =>
           format_id <- display_formats_and_select (python env) formats_info ;;
           download_format env url output_path format_id force
       end
     else download_format env url output_path format_id force)
    (fun e =>
       print (OutError e) ;;
       ret false).

(** *** [main] *)

(** The parsed command line. *)
Record args : Type := {
  urls : list string;
  output : string;
  format : pyval;
  best : bool;
  force : bool
}.

(** [for url in urls] with the running [success_count] (lines 284-288). *)
Fixpoint process_urls (env : environment) (args : args) (output_dir : string)
    (urls : list string) (success_count : nat) : M cli_state nat :=
  match urls with
  | [] => ret success_count
  | url :: urls' =>
      print (OutProcessingUrl url) ;;
      ok <- download_with_yt_dlp env url output_dir (format args) (best args)
              (force args) ;;
      process_urls env args output_dir urls'
        (if ok then S success_count else success_count)
  end.

Definition main (env : environment) (args : args) : M cli_state unit :=
  let output_dir := output args in
  existing <- gets (fun s => path_exists (fs s) output_dir) ;;
  output_dir <-
    (if negb existing then
       if makedirs_ok env output_dir then
         here <- gets fs ;;
         set_fs (<[output_dir := 0]> here) ;;
         print (OutCreatedDir output_dir) ;;
         ret output_dir
       else
         print (OutDirError output_dir) ;;
         let output_dir := DEFAULT_SAVE_PATH env in
         print (OutUsingDefault output_dir) ;;
         ret output_dir
     else ret output_dir) ;;
  print (OutSaveTo output_dir) ;;
  urls <-
    (match urls args with
     | [] =>
         url <- input ;;
         ret (if String.eqb url "" then [] else [url])
     | urls => ret urls
     end) ;;
  match urls with
  | [] => print OutNoUrls
  | _ =>
      success_count <- process_urls env args output_dir urls 0%nat ;;
      if (1 <? length urls)%nat then
        print (OutSummary success_count (length urls))
      else ret tt
  end.

End Downloader.

(** ** app.py *)

Module App.

Import Downloader.

(** [st.session_state], with the three keys of lines 14-20. *)
Record session_state : Type := {
  file_decision_made : bool;
  file_decision : option string;
  new_filename : option string
}.

(** Lines 14-20: the state of a fresh session. *)
Definition initial_session : session_state :=
  {| file_decision_made := false; file_decision := None; new_filename := None |}.

Inductive speed_text : Type :=
| SpeedNA
| SpeedMBs (mbs : Q).

Inductive eta_text_value : Type :=
| EtaNA
| EtaMinSec (minutes seconds : pyval).

Inductive percent_value : Type :=
| PercentOf (percentage : Q)
| Percent100.

Inductive status_value : Type :=
| StatusDownloading (speed_str : speed_text)
| StatusProcessing.

Inductive size_value : Type :=
| SizeOfTotal (downloaded_mb total_mb percentage : Q)
| SizeUnknownTotal (downloaded_mb : Q)
| SizeEstimated (filesize_mb : Q).

(** The progress widgets of lines 270-280; [None] is an empty placeholder. *)
Record widgets : Type := {
  progress_bar : Q;
  percent_text : option percent_value;
  status_text : option status_value;
  file_size_text : option size_value;
  eta_text : option eta_text_value
}.

Definition fresh_widgets : widgets :=
  {| progress_bar := 0; percent_text := None; status_text := None;
     file_size_text := None; eta_text := None |}.

(** What the script writes on the page, one constructor per message. *)
Inductive ui_event : Type :=
| UiDirCreated (save_dir : string)
| UiDirError (save_dir : string)
| UiInvalidUrl
| UiNoVideoInfo
| UiTitle (video_title : string)
| UiTable (format_data : list row)
| UiProcessingError (e : exn)
| UiFileExists
| UiDecisionButtons
| UiRedownloading
| UiNewName (video_title : string)
| UiSkipped
| UiSuccess (file_type file_path : string) (file_size_mb : Q)
| UiAudioPlayer (file_path : string)
| UiNotFound (file_path : string)
| UiDownloadError (e : exn).

Record app_state : Type := {
  session : session_state;
  fs : filesystem;
  clock : Z;
  ui : list ui_event;
  page : widgets;
  prompt : option string;
  calls : list (string * options)
}.

Definition with_session (f : session_state → session_state) (s : app_state)
  : app_state :=
  {| session := f (session s); fs := fs s; clock := clock s; ui := ui s;
     page := page s; prompt := prompt s; calls := calls s |}.

Definition with_fs (fs' : filesystem) (s : app_state) : app_state :=
  {| session := session s; fs := fs'; clock := clock s; ui := ui s;
     page := page s; prompt := prompt s; calls := calls s |}.

Definition with_ui (f : list ui_event → list ui_event) (s : app_state)
  : app_state :=
  {| session := session s; fs := fs s; clock := clock s; ui := f (ui s);
     page := page s; prompt := prompt s; calls := calls s |}.

Definition with_page (f : widgets → widgets) (s : app_state) : app_state :=
  {| session := session s; fs := fs s; clock := clock s; ui := ui s;
     page := f (page s); prompt := prompt s; calls := calls s |}.

Definition with_prompt (p : option string) (s : app_state) : app_state :=
  {| session := session s; fs := fs s; clock := clock s; ui := ui s;
     page := page s; prompt := p; calls := calls s |}.

Definition with_call (url : string) (opts : options) (s : app_state)
  : app_state :=
  {| session := session s; fs := fs s; clock := clock s; ui := ui s;
     page := page s; prompt := prompt s; calls := calls s ++ [(url, opts)] |}.

Definition show (e : ui_event) : M app_state unit :=
  modify (with_ui (fun l => l ++ [e])).

(** *** The progress widgets *)

(** [progress_bar.progress(value)] : Streamlit refuses a value outside
    [0.0, 1.0]. *)
Definition set_progress (value : Q) : M app_state unit :=
  if Qle_bool 0 value && Qle_bool value 1 then
    modify (with_page (fun w =>
      {| progress_bar := value; percent_text := percent_text w;
         status_text := status_text w; file_size_text := file_size_text w;
         eta_text := eta_text w |}))
  else raise StreamlitAPIException.

Definition set_percent_text (v : option percent_value) : M app_state unit :=
  modify (with_page (fun w =>
    {| progress_bar := progress_bar w; percent_text := v;
       status_text := status_text w; file_size_text := file_size_text w;
       eta_text := eta_text w |})).

Definition set_status_text (v : option status_value) : M app_state unit :=
  modify (with_page (fun w =>
    {| progress_bar := progress_bar w; percent_text := percent_text w;
       status_text := v; file_size_text := file_size_text w;
       eta_text := eta_text w |})).

Definition set_file_size_text (v : option size_value) : M app_state unit :=
  modify (with_page (fun w =>
    {| progress_bar := progress_bar w; percent_text := percent_text w;
       status_text := status_text w; file_size_text := v;
       eta_text := eta_text w |})).

Definition set_eta_text (v : option eta_text_value) : M app_state unit :=
  modify (with_page (fun w =>
    {| progress_bar := progress_bar w; percent_text := percent_text w;
       status_text := status_text w; file_size_text := file_size_text w;
       eta_text := v |})).

(** [min(a, b)] : the first argument unless the second is smaller. *)
Definition py_min (a b : Q) : Q := if Qle_bool a b then a else b.

(** *** [streamlit_progress_hook] (lines 283-318) *)

(** Lines 289-294.  The result is the local variable [percentage]: [None]
    while it is unbound. *)
Definition report_percentage (downloaded_bytes total_bytes : pyval)
  : M app_state (option Q) :=
  positive <- lift (py_gt0 total_bytes) ;;
  if positive : bool then
    percentage <- lift (py_truediv downloaded_bytes total_bytes) ;;
    set_progress (py_min percentage 1) ;;
    set_percent_text (Some (PercentOf percentage)) ;;
    ret (Some percentage)
  else ret None.

(** Lines 296-311. *)
Definition report_details (d : pydict) (downloaded_bytes total_bytes : pyval)
    (percentage : option Q) : M app_state unit :=
  downloaded_mb <- lift (py_truediv downloaded_bytes MiB) ;;
  total_mb <-
    lift (if truthy total_bytes then py_truediv total_bytes MiB
          else Ok 0%Q) ;;
  let speed := dget d "speed" (VInt 0) in
  speed_str <-
    lift (if truthy speed then mbs ← py_truediv speed MiB; mret (SpeedMBs mbs)
          else mret SpeedNA) ;;
  let eta := dget d "eta" (VInt 0) in
  eta_str <-
    lift (if truthy eta then
            minutes ← py_floordiv60 eta;
            seconds ← py_mod60 eta;
            mret (EtaMinSec minutes seconds)
          else mret EtaNA) ;;
  set_status_text (Some (StatusDownloading speed_str)) ;;
  (if truthy total_bytes then
     match percentage with
     | Some percentage =>
         set_file_size_text
           (Some (SizeOfTotal downloaded_mb total_mb percentage))
     | None => raise (UnboundLocalError "percentage")
     end
   else set_file_size_text (Some (SizeUnknownTotal downloaded_mb))) ;;
  set_eta_text (Some eta_str).

Definition streamlit_progress_hook (d : pydict) : M app_state unit :=
  status <- lift (dindex d "status") ;;
  if py_eq status (VStr "downloading") then
    let downloaded_bytes := dget d "downloaded_bytes" (VInt 0) in
    let total_bytes :=
      py_or (dget d "total_bytes" VNone) (dget d "total_bytes_estimate" (VInt 0)) in
    percentage <- report_percentage downloaded_bytes total_bytes ;;
    report_details d downloaded_bytes total_bytes percentage
  else
    status <- lift (dindex d "status") ;;
    if py_eq status (VStr "finished") then
      set_progress 1 ;;
      set_percent_text (Some Percent100) ;;
      set_status_text (Some StatusProcessing) ;;
      set_file_size_text None ;;
      set_eta_text None
    else ret tt.

(** *** [download_with_streamlit] *)

(** The browser surface also asks the collaborator for the selected format
    ([YoutubeDL({'quiet': True, 'format': format_id})], line 326). *)
Record app_environment : Type := {
  env : environment;
  extract_selected : pyval → string → result video_info
}.

(** The callbacks of the three buttons (lines 205-216); [video_title] is the
    title captured when the buttons were drawn. *)
Definition on_redownload (s : app_state) : app_state :=
  with_session (fun st =>
    {| file_decision_made := true; file_decision := Some "redownload";
       new_filename := new_filename st |}) s.

Definition on_new_name (video_title : string) (s : app_state) : app_state :=
  with_session (fun st =>
    {| file_decision_made := true; file_decision := Some "new_name";
       new_filename := Some (video_title +:+ "_" +:+ pretty (clock s)) |}) s.

Definition on_skip (s : app_state) : app_state :=
  with_session (fun st =>
    {| file_decision_made := true; file_decision := Some "skip";
       new_filename := new_filename st |}) s.

(** Lines 240-242 and 246-248. *)
Definition reset_decision : M app_state unit :=
  modify (with_session (fun _ =>
    {| file_decision_made := false; file_decision := None;
       new_filename := None |})).

(** ['bestaudio' in format_id and 'mp3' in format_id] *)
Definition audio_extraction (format_id : pyval) : result bool :=
  a ← py_in "bestaudio" format_id;
  if (a : bool) then py_in "mp3" format_id else mret false.

(** [ydl.download([url])] under [YoutubeDL(ydl_opts)]. *)
Definition ydl_download (aenv : app_environment) (ydl_opts : options)
    (url : string) : M app_state unit :=
  modify (with_call url ydl_opts) ;;
  before <- gets fs ;;
  let run := run_download (env aenv) ydl_opts url before in
  run_hooks streamlit_progress_hook (run_events run) ;;
  modify (with_fs (run_fs run)) ;;
  _ <- lift (run_outcome run) ;;
  ret tt.

(** Lines 323-341: the estimate, under a bare [except]. *)
Definition estimate_file_size (aenv : app_environment) (url : string)
    (format_id : pyval) : M app_state unit :=
  try_except (fun _ => true)
    (info <- lift (extract_selected aenv format_id url) ;;
     let selected_format :=
       List.find (fun fmt => py_eq (dget fmt "format_id" VNone) format_id)
         (info_formats info) in
     match selected_format with
     | Some fmt =>
         if negb (bool_decide (dom fmt = ∅)) && truthy (dget fmt "filesize" VNone)
         then
           filesize_mb <- lift (py_truediv (dget fmt "filesize" VNone) MiB) ;;
           set_file_size_text (Some (SizeEstimated filesize_mb))
         else ret tt
     | None => ret tt
     end)
    (fun _ => ret tt).

(** Lines 348-367: the check made once the collaborator has returned. *)
Definition final_check (output_path : string) (format_id : pyval)
    (video_title : string) : M app_state unit :=
  mp3 <- lift (audio_extraction format_id) ;;
  let '(file_path, file_type) :=
    if mp3 : bool then (path_join output_path (video_title +:+ ".mp3"), "Audio")
    else (path_join output_path (video_title +:+ ".mp4"), "Video") in
  here <- gets fs ;;
  match here !! file_path with
  | Some size =>
      let file_size_mb := (inject_Z size / inject_Z (1024 * 1024))%Q in
      show (UiSuccess file_type file_path file_size_mb) ;;
      if String.eqb file_type "Audio" then show (UiAudioPlayer file_path)
      else ret tt
  | None => show (UiNotFound file_path)
  end.

(** Lines 250-259: [ydl_opts] as first built. *)
Definition base_opts (output_path : string) (format_id : pyval) (force : bool)
    (concurrent_fragments : Z) (video_title : string) : options :=
  <["format" := OVal format_id]>
  (<["outtmpl" := OStr (path_join output_path (video_title +:+ ".%(ext)s"))]>
  (<["quiet" := OBool false]>
  (<["no_warnings" := OBool false]>
  (<["noplaylist" := OBool true]>
  (<["overwrites" := OBool force]>
  (<["concurrent_fragment_downloads" := OVal (VInt concurrent_fragments)]>
     ∅)))))).

(** Lines 250-367: the download and the final check. *)
Definition download_and_verify (aenv : app_environment)
    (url output_path : string) (format_id : pyval) (force : bool)
    (concurrent_fragments : Z) (audio_quality : string) (video_title : string)
  : M app_state unit :=
  let ydl_opts :=
    base_opts output_path format_id force concurrent_fragments video_title in
  mp3 <- lift (audio_extraction format_id) ;;
  let ydl_opts := add_extract_audio mp3 audio_quality ydl_opts in
  modify (with_page (fun _ => fresh_widgets)) ;;
  let ydl_opts : options :=
    <["progress_hooks" := OHook "streamlit_progress_hook"]> ydl_opts in
  estimate_file_size aenv url format_id ;;
  ydl_download aenv ydl_opts url ;;
  final_check output_path format_id video_title.

(** [download_with_streamlit(url, output_path, format_id, force,
    concurrent_fragments, audio_quality)] *)
Definition download_with_streamlit (aenv : app_environment)
    (url output_path : string) (format_id : pyval) (force : bool)
    (concurrent_fragments : Z) (audio_quality : string) : M app_state unit :=
  try_except is_Exception
    (info <- lift (extract_info (env aenv) url) ;;
     let video_title := sanitized_title info in
     let potential_filename := path_join output_path (video_title +:+ ".mp4") in
     let potential_filename_audio :=
       path_join output_path (video_title +:+ ".mp3") in
     file_exists <-
       gets (fun s => path_exists (fs s) potential_filename
                      || path_exists (fs s) potential_filename_audio) ;;
     made <- gets (fun s => file_decision_made (session s)) ;;
     (if file_exists && negb force && negb made then
        show UiFileExists ;;
        show UiDecisionButtons ;;
        modify (with_prompt (Some video_title)) ;;
        raise StopScript
      else ret tt) ;;
     made <- gets (fun s => file_decision_made (session s)) ;;
     if made : bool then
       decision <- gets (fun s => file_decision (session s)) ;;
       if bool_decide (decision = Some "redownload") then
         let force := true in
         show UiRedownloading ;;
         reset_decision ;;
         download_and_verify aenv url output_path format_id force
           concurrent_fragments audio_quality video_title
       else if bool_decide (decision = Some "new_name") then
         renamed <- gets (fun s => new_filename (session s)) ;;
         let video_title := default "None" renamed in
         show (UiNewName video_title) ;;
         reset_decision ;;
         download_and_verify aenv url output_path format_id force
           concurrent_fragments audio_quality video_title
       else if bool_decide (decision = Some "skip") then
         show UiSkipped ;;
         reset_decision
       else
         reset_decision ;;
         download_and_verify aenv url output_path format_id force
           concurrent_fragments audio_quality video_title
     else
       download_and_verify aenv url output_path format_id force
         concurrent_fragments audio_quality video_title)
    (fun e => show (UiDownloadError e)).

(** *** [main] of the browser surface *)

(** The widget values of one script run. [selected_format_idx] is [None] while
    the select box is at its default; [download_clicked] is the value of
    [st.button("Download")]. *)
Record page_inputs : Type := {
  url : string;
  save_dir : string;
  create_dir_clicked : bool;
  force_download : bool;
  concurrent_fragments : Z;
  audio_quality : string;
  selected_format_idx : option nat;
  download_clicked : bool
}.

(** The rows of [format_data] (lines 91-116); every cell is the value whose
    [str()] is stored. *)
Definition table_video_row (i : nat) (fmt : format_info) : row :=
  {| row_id := Z.of_nat i; row_format_id := format_id fmt;
     row_resolution := resolution fmt; row_fps := fps fmt;
     row_size := filesize fmt; row_type := ext fmt;
     row_content := if has_audio fmt then "Video+Audio" else "Video" |}.

Definition table_audio_row (idx : nat) (fmt : format_info) : row :=
  {| row_id := Z.of_nat idx; row_format_id := format_id fmt;
     row_resolution := VStr "audio only"; row_fps := VStr "-";
     row_size := filesize fmt; row_type := ext fmt;
     row_content := "Audio only" |}.

(** [[line(i + offset, fmt) for i, fmt in enumerate(l)]] *)
Fixpoint enumerate_rows (line : nat → format_info → row) (offset : nat)
    (l : list format_info) : list row :=
  match l with
  | [] => []
  | fmt :: l' => line offset fmt :: enumerate_rows line (S offset) l'
  end.

(** Lines 83-137. *)
Definition format_table (formats : list format_info) : list row :=
  let video_formats := List.filter has_video formats in
  let audio_formats :=
    List.filter (fun f => negb (has_video f) && has_audio f) formats in
  enumerate_rows table_video_row 0 video_formats
  ++ enumerate_rows table_audio_row (length video_formats) audio_formats
  ++ [best_row (length formats)]
  ++ [best_audio_row (length formats + 1)].

(** Lines 162-172. *)
Definition selected_format_id (formats : list format_info)
    (selected_format_idx : nat) : result pyval :=
  let video_formats := List.filter has_video formats in
  let audio_formats :=
    List.filter (fun f => negb (has_video f) && has_audio f) formats in
  if (selected_format_idx =? length formats)%nat then Ok best_combined
  else if (selected_format_idx =? length formats + 1)%nat then Ok best_audio
  else if (selected_format_idx <? length video_formats)%nat then
    fmt ← list_index video_formats (Z.of_nat selected_format_idx);
    mret (format_id fmt)
  else
    let audio_idx :=
      Z.of_nat selected_format_idx - Z.of_nat (length video_formats) in
    fmt ← list_index audio_formats audio_idx;
    mret (format_id fmt).

(** One execution of the script body, [main()]. *)
Definition main (aenv : app_environment) (inp : page_inputs)
  : M app_state unit :=
  let save_dir := save_dir inp in
  existing <- gets (fun s => path_exists (fs s) save_dir) ;;
  (if negb existing && create_dir_clicked inp then
     if makedirs_ok (env aenv) save_dir then
       here <- gets fs ;;
       modify (with_fs (<[save_dir := 0]> here)) ;;
       show (UiDirCreated save_dir)
     else show (UiDirError save_dir)
   else ret tt) ;;
  let url := url inp in
  let is_youtube := contains "youtube.com" url || contains "youtu.be" url in
  (if negb (String.eqb url "") && negb is_youtube then show UiInvalidUrl
   else ret tt) ;;
  if negb (String.eqb url "") && is_youtube then
    try_except is_Exception
      (formats_info <-
         lift (get_available_formats (python (env aenv)) (extract_info (env aenv))
                 url) ;;
       match formats_info with
       | None => show UiNoVideoInfo
       | Some formats_info =>
           show (UiTitle (title formats_info)) ;;
           let formats := formats formats_info in
           let format_data := format_table formats in
           show (UiTable format_data) ;;
           let selected :=
             match selected_format_idx inp with
             | Some i => if (i <? length format_data)%nat then i
                         else length formats
             | None => length formats
             end in
           format_id <- lift (selected_format_id formats selected) ;;
           if download_clicked inp then
             download_with_streamlit aenv url save_dir format_id
               (force_download inp) (concurrent_fragments inp)
               (audio_quality inp)
           else ret tt
       end)
      (fun e => show (UiProcessingError e))
  else ret tt.

(** *** The session: script runs driven by the user *)

(** What the user does between two script runs.  [Interact] is any widget
    interaction other than a click on a decision button (typing a URL,
    clicking Download, ...): the script is run with the widget values given.
    [Decide] is a click on one of the three buttons drawn at lines 219-224:
    Streamlit runs the button's callback and then the script; in that run
    [st.button("Download")] is false, a button being true only in the run
    its own click starts. *)
Inductive choice : Type :=
| Redownload
| NewName
| Skip.

Inductive user_action : Type :=
| Interact (inp : page_inputs)
| Decide (c : choice) (inp : page_inputs).

(** A script run draws the page anew. *)
Definition run_script (aenv : app_environment) (inp : page_inputs)
    (s : app_state) : app_state :=
  fst (main aenv inp (with_prompt None (with_ui (fun _ => []) s))).

Definition no_download (inp : page_inputs) : page_inputs :=
  {| url := url inp; save_dir := save_dir inp;
     create_dir_clicked := create_dir_clicked inp;
     force_download := force_download inp;
     concurrent_fragments := concurrent_fragments inp;
     audio_quality := audio_quality inp;
     selected_format_idx := selected_format_idx inp;
     download_clicked := false |}.

Definition callback (c : choice) (video_title : string) (s : app_state)
  : app_state :=
  match c with
  | Redownload => on_redownload s
  | NewName => on_new_name video_title s
  | Skip => on_skip s
  end.

Definition step (aenv : app_environment) (s : app_state) (a : user_action)
  : app_state :=
  match a with
  | Interact inp => run_script aenv inp s
  | Decide c inp =>
      match prompt s with
      | Some video_title =>
          run_script aenv (no_download inp) (callback c video_title s)
      | None => s
      end
  end.

Definition run_session (aenv : app_environment) (s : app_state)
    (actions : list user_action) : app_state :=
  foldl (step aenv) s actions.

End App.

(** ** Vocabulary of the statements and sample data *)

Section CommandLineVocabulary.

Import Downloader.

(** *** Predicates of the statements *)

(** The entry has a video track or an audio track. *)
Definition has_track (fmt : format_info) : bool := has_video fmt || has_audio fmt.

(** The row of a video-capable entry, by its last column. *)
Definition is_video_row (r : row) : Prop :=
  row_content r = "Video" ∨ row_content r = "Video+Audio".

(** The row of an audio-only entry. *)
Definition is_audio_row (r : row) : Prop := row_content r = "Audio only".

(** No displayed field of the entry is [None]. *)
Definition printable (fmt : format_info) : bool :=
  if has_video fmt then is_ok (video_row 0 fmt) else is_ok (audio_row 0 fmt).

(** The state after [es] has been printed. *)
Definition printed (es : list out_event) (s : cli_state) : cli_state :=
  {| stdin := stdin s; stdout := stdout s ++ es; fs := fs s; clock := clock s;
     calls := calls s |}.

(** The [overwrites] option as the collaborator reads it. *)
Definition overwrites (opts : options) : bool :=
  match opts !! "overwrites" with
  | Some (OBool b) => b
  | _ => false
  end.

(** Only the screen changed. *)
Definition only_printed (s s' : cli_state) : Prop :=
  stdin s' = stdin s ∧ fs s' = fs s ∧ clock s' = clock s ∧ calls s' = calls s.

(** Neither the files, nor the clock, nor the list of calls changed. *)
Definition no_call (s s' : cli_state) : Prop :=
  fs s' = fs s ∧ clock s' = clock s ∧ calls s' = calls s.

(** A computation that only reads the keyboard and prints. *)
Definition quiet {A} (m : M cli_state A) : Prop := ∀ s, no_call s (m s).1.

(** Lines 150-161 of [download_with_yt_dlp], started in [s0], end in [s] with
    the format [fid]: it is the best-combined expression under [--best], the
    format of [--format] when there is one, and otherwise what the user
    selects in the menu. *)
Definition format_known (env : environment) (url : string) (format_id : pyval)
    (auto_best : bool) (s0 : cli_state) (fid : pyval) (s : cli_state) : Prop :=
  (auto_best = true ∧ fid = best_combined ∧ s = s0)
  ∨ (auto_best = false ∧ truthy format_id = true ∧ fid = format_id ∧ s = s0)
  ∨ (auto_best = false ∧ truthy format_id = false
     ∧ ∃ cat,
         get_available_formats (python env) (extract_info env) url
         = Ok (Some cat)
         ∧ display_formats_and_select (python env) (Some cat) s0 = (s, Ok fid)).

(** *** Sample descriptors, videos and collaborators *)

Definition opus_webm : pydict :=
  <["format_id" := VStr "251"]>
  (<["ext" := VStr "webm"]>
  (<["vcodec" := VStr "none"]>
  (<["acodec" := VStr "opus"]> ∅))).

Definition avc_mp4 : pydict :=
  <["format_id" := VStr "137"]>
  (<["ext" := VStr "mp4"]>
  (<["resolution" := VStr "1920x1080"]>
  (<["fps" := VInt 30]>
  (<["filesize" := VInt 10485760]>
  (<["vcodec" := VStr "avc1.640028"]>
  (<["acodec" := VStr "none"]> ∅)))))).

Definition plain_mp3 : pydict :=
  <["format_id" := VStr "mp3-128"]>
  (<["ext" := VStr "mp3"]>
  (<["vcodec" := VStr "none"]>
  (<["acodec" := VStr "mp3"]> ∅))).

Definition storyboard : pydict :=
  <["format_id" := VStr "sb0"]>
  (<["ext" := VStr "mhtml"]>
  (<["vcodec" := VStr "none"]>
  (<["acodec" := VStr "none"]> ∅))).

Definition song_info : video_info :=
  {| info_title := Some "Song"; info_duration := VInt 215;
     info_formats := [opus_webm; avc_mp4; storyboard; plain_mp3] |}.

(** The catalog built from [song_info]. *)
Definition song_catalog : catalog :=
  {| title := "Song"; formats := [entry avc_mp4; entry plain_mp3] |}.

(** A terminal on which [lines] are typed. *)
Definition typed (lines : list string) : cli_state :=
  {| stdin := lines; stdout := []; fs := ∅; clock := 1700000000; calls := [] |}.

Definition song_a : video_info :=
  {| info_title := Some "Song A"; info_duration := VInt 215;
     info_formats := [avc_mp4; plain_mp3] |}.

Definition song_b : video_info :=
  {| info_title := Some "Song B"; info_duration := VNone;
     info_formats := [avc_mp4] |}.

Definition sample_extract (url : string) : result video_info :=
  if String.eqb url "https://youtu.be/a" then Ok song_a
  else if String.eqb url "https://youtu.be/b" then Ok song_b
  else Raise (DownloadError "Video unavailable").

Definition halfway : pydict :=
  <["status" := VStr "downloading"]>
  (<["downloaded_bytes" := VInt 5242880]>
  (<["total_bytes" := VInt 10485760]>
  (<["speed" := VInt 2097152]>
  (<["eta" := VInt 65]> ∅)))).

Definition finished : pydict := <["status" := VStr "finished"]> ∅.

(** A collaborator that saves whatever it downloads under [name]. *)
Definition saves_as (name : string) (opts : options) (url : string)
    (fs : filesystem) : download_run :=
  {| run_events := [halfway; finished];
     run_fs := <[name := 10485760]> fs;
     run_outcome := Ok (<["ext" := VStr "webm"]> ∅) |}.

Definition sample_env (name : string) : environment :=
  {| python := cpython_ascii;
     extract_info := sample_extract;
     run_download := saves_as name;
     makedirs_ok := fun _ => true;
     DEFAULT_SAVE_PATH := "/home/u/Downloads" |}.

Definition sample_state (lines : list string) (files : filesystem) : cli_state :=
  {| stdin := lines; stdout := []; fs := files; clock := 1700000000; calls := [] |}.

Definition sample_browser (name : string) : App.app_environment :=
  {| App.env := sample_env name;
     App.extract_selected := fun _ url => sample_extract url |}.

Definition fresh_session (files : filesystem) : App.app_state :=
  {| App.session := App.initial_session; App.fs := files;
     App.clock := 1700000000; App.ui := []; App.page := App.fresh_widgets;
     App.prompt := None; App.calls := [] |}.

Definition menu_once : args :=
  {| urls := ["https://youtu.be/a"]; output := "/dl"; format := VNone;
     best := false; force := false |}.

Definition best_twice : args :=
  {| urls := ["https://youtu.be/a"; "https://youtu.be/a"]; output := "/dl";
     format := VNone; best := true; force := false |}.

End CommandLineVocabulary.

Section BrowserVocabulary.

Import Downloader App.

(** Only the progress widgets changed. *)
Definition only_page (s s' : app_state) : Prop :=
  session s' = session s ∧ App.fs s' = App.fs s ∧ App.clock s' = App.clock s
  ∧ ui s' = ui s ∧ prompt s' = prompt s ∧ App.calls s' = App.calls s.

(** A computation that changes nothing but the progress widgets. *)
Definition page_only {A} (m : M app_state A) : Prop :=
  ∀ s, only_page s (m s).1.

(** [ydl_opts] as given to the collaborator by the browser surface. *)
Definition browser_opts (output_path : string) (format_id : pyval)
    (force : bool) (concurrent_fragments : Z) (audio_quality video_title : string)
    (mp3 : bool) : options :=
  <["progress_hooks" := OHook "streamlit_progress_hook"]>
    (add_extract_audio mp3 audio_quality
       (App.base_opts output_path format_id force concurrent_fragments video_title)).

Definition is_file_exists (e : out_event) : bool :=
  match e with
  | OutFileExists _ => true
  | _ => false
  end.

(** The page with [url] typed and Download clicked, every other widget at its
    default. *)
Definition clicking (url : string) : page_inputs :=
  {| url := url; save_dir := "/dl"; create_dir_clicked := false;
     force_download := false; concurrent_fragments := 5; audio_quality := "192";
     selected_format_idx := None; download_clicked := true |}.

(** What the final check writes for a given file system. *)
Definition final_report (output_path f video_title : string) (files : filesystem)
  : list ui_event :=
  let mp3 := contains "bestaudio" f && contains "mp3" f in
  let file_path :=
    path_join output_path (video_title +:+ (if mp3 then ".mp3" else ".mp4")) in
  match files !! file_path with
  | Some size =>
      UiSuccess (if mp3 then "Audio" else "Video") file_path
        (inject_Z size / inject_Z (1024 * 1024))
      :: (if mp3 then [UiAudioPlayer file_path] else [])
  | None => [UiNotFound file_path]
  end.

(** The byte counters as the hook reads them (lines 286-287). *)
Definition downloaded_of (d : pydict) : pyval := dget d "downloaded_bytes" (VInt 0).

Definition total_of (d : pydict) : pyval :=
  py_or (dget d "total_bytes" VNone) (dget d "total_bytes_estimate" (VInt 0)).

(** A number that is not negative. *)
Definition is_count (v : pyval) : bool :=
  match to_num v with
  | Some q => Qle_bool 0 q
  | None => false
  end.

Definition number_or_none (v : pyval) : bool :=
  match v with
  | VStr _ => false
  | _ => true
  end.

(** Every field that is present holds what the collaborator documents: the
    byte counters are numbers that are not negative ([total_bytes] may also be
    [None]); the speed and the remaining time are numbers or [None]. *)
Definition well_formed (d : pydict) : bool :=
  is_count (downloaded_of d) && is_count (total_of d)
  && number_or_none (dget d "speed" (VInt 0))
  && number_or_none (dget d "eta" (VInt 0)).

(** The number a value denotes, 0 for a value that is none. *)
Definition num (v : pyval) : Q := default 0%Q (to_num v).

Definition MiBq : Q := inject_Z (1024 * 1024).

(** The bar and the percentage are left as they are. *)
Definition keeps_bar {A} (m : M app_state A) : Prop :=
  ∀ s, progress_bar (page (m s).1) = progress_bar (page s)
       ∧ percent_text (page (m s).1) = percent_text (page s).

Definition has_status (name : string) (d : pydict) : bool :=
  match d !! "status" with
  | Some (VStr status) => String.eqb status name
  | _ => false
  end.

Definition is_downloading (d : pydict) : bool := has_status "downloading" d.

Definition is_finished (d : pydict) : bool := has_status "finished" d.

(** An event the collaborator may push. *)
Definition reportable (d : pydict) : bool :=
  is_downloading d && well_formed d || is_finished d.

End BrowserVocabulary.

Section FurtherVocabulary.

Import Downloader.

(** The collaborators raise nothing but ordinary exceptions (subclasses of
    [Exception]). *)
Definition law_abiding (env : environment) : Prop :=
  (∀ url e, extract_info env url = Raise e → is_Exception e = true)
  ∧ (∀ opts url files e,
       run_outcome (run_download env opts url files) = Raise e →
       is_Exception e = true).

(** A pure step that raises nothing but ordinary exceptions. *)
Definition ordinary {A} (r : result A) : Prop :=
  ∀ e, r = Raise e → is_Exception e = true.

(** A computation that raises nothing but ordinary exceptions. *)
Definition contained {S A} (m : M S A) : Prop :=
  ∀ s s' e, m s = (s', Raise e) → is_Exception e = true.

(** A computation that always returns. *)
Definition returns {S A} (m : M S A) : Prop :=
  ∀ s, ∃ s' a, m s = (s', Ok a).

(** The file-name template of the options is a relative one, joined to
    [output_dir]. *)
Definition saves_under (output_dir : string) (opts : options) : Prop :=
  ∃ template,
    starts_with "/" template = false
    ∧ opts !! "outtmpl" = Some (OStr (path_join output_dir template)).

(** A computation that calls the collaborator's download at most once, and
    then for [url] and with a template in [output_dir]. *)
Definition one_call_at_most {A} (url output_dir : string) (m : M cli_state A)
  : Prop :=
  ∀ s, calls (m s).1 = calls s
       ∨ ∃ opts, calls (m s).1 = calls s ++ [(url, opts)]
                 ∧ saves_under output_dir opts.

End FurtherVocabulary.

Section FurtherBrowserVocabulary.

Import Downloader App.

(** The test of lines 66 and 69 on the URL typed. *)
Definition is_youtube (url : string) : bool :=
  contains "youtube.com" url || contains "youtu.be" url.

(** The state in which [download_with_streamlit] stops for a decision: the
    warning and the three buttons are on the page, and the buttons' callbacks
    hold [video_title]. *)
Definition asking (video_title : string) (s : app_state) : app_state :=
  with_prompt (Some video_title)
    (with_ui (fun l => l ++ [UiFileExists; UiDecisionButtons]) s).

(** No download was started, no decision was recorded or consumed, no button
    was drawn and the progress widgets are as they were. *)
Definition untouched (s s' : app_state) : Prop :=
  App.calls s' = App.calls s ∧ session s' = session s ∧ prompt s' = prompt s
  ∧ page s' = page s.

(** The script is stopped at the decision buttons: they are the last thing on
    the page, their callbacks are armed, and nothing was downloaded or
    decided on the way. *)
Definition waiting (s s' : app_state) : Prop :=
  is_Some (prompt s') ∧ App.calls s' = App.calls s ∧ session s' = session s
  ∧ last (ui s') = Some UiDecisionButtons.

(** A computation that starts no download and leaves the session, the
    buttons and the progress widgets alone. *)
Definition idle {A} (m : M app_state A) : Prop := ∀ s, untouched s (m s).1.

(** A computation that lets out nothing but ordinary exceptions and the stop
    at the decision buttons. *)
Definition stops_to_wait {A} (m : M app_state A) : Prop :=
  ∀ s s' e, m s = (s', Raise e) →
    is_Exception e = true ∨ (e = StopScript ∧ waiting s s').

(** A computation that lets out nothing but the stop at the decision
    buttons. *)
Definition only_stops_to_wait {A} (m : M app_state A) : Prop :=
  ∀ s s' e, m s = (s', Raise e) → e = StopScript ∧ waiting s s'.

(** A session in which a decision is pending. *)
Definition decided (decision : string) (renamed : option string)
    (files : filesystem) : app_state :=
  {| session := {| file_decision_made := true; file_decision := Some decision;
                   new_filename := renamed |};
     App.fs := files; App.clock := 1700000000; ui := []; page := fresh_widgets;
     prompt := None; App.calls := [] |}.

(** A collaborator whose download raises [e], with no event and no file. *)
Definition fails_with (e : exn) (opts : options) (url : string)
    (files : filesystem) : download_run :=
  {| run_events := []; run_fs := files; run_outcome := Raise e |}.

Definition failing_browser (e : exn) : app_environment :=
  {| env := {| python := cpython_ascii; extract_info := sample_extract;
               run_download := fails_with e;
               makedirs_ok := fun _ => false;
               DEFAULT_SAVE_PATH := "/home/u/Downloads" |};
     extract_selected := fun _ url => sample_extract url |}.

End FurtherBrowserVocabulary.

Example py_int_plain : py_int cpython_ascii " 12 " = Ok 12.
Proof. reflexivity. Qed.

Example py_int_negative : py_int cpython_ascii "-1" = Ok (-1).
Proof. reflexivity. Qed.

Example py_int_underscore : py_int cpython_ascii "1_000" = Ok 1000.
Proof. reflexivity. Qed.

Example py_int_letters : py_int cpython_ascii "abc" = Raise ValueError.
Proof. reflexivity. Qed.

Example py_int_trailing_underscore : py_int cpython_ascii "1_" = Raise ValueError.
Proof. reflexivity. Qed.

(** The character 28 is white space for [strip] and not for [int]. *)
Example py_int_file_separator :
  py_int cpython_ascii (String (ascii_of_nat 28) "1") = Raise ValueError
  ∧ strip (String (ascii_of_nat 28) "1") = "1".
Proof. split; reflexivity. Qed.

Example strip_blank : strip "   " = "".
Proof. reflexivity. Qed.

Example path_join_plain : path_join "/home/u/Downloads" "Title.mp4" = "/home/u/Downloads/Title.mp4".
Proof. reflexivity. Qed.

(** ** The format catalog *)

Section Catalog.

Import Downloader.

Lemma format_step_entry acc f :
  filesize_ok f = true →
  format_step acc f = Ok (if kept f then acc ++ [entry f] else acc).
Proof.
  unfold filesize_ok, format_step, entry, kept, has_video_track,
    has_audio_track, is_mp3.
  destruct (filesize_str (dget f "filesize" VNone)) as [t|e]; [|discriminate].
  intros _. cbn.
  destruct (py_eq (dget f "vcodec" (VStr "N/A")) (VStr "none")),
    (py_eq (dget f "acodec" (VStr "N/A")) (VStr "none")),
    (py_eq (dget f "ext" (VStr "N/A")) (VStr "mp3")); reflexivity.
Qed.

Lemma for_each_format_step raw : ∀ acc,
  forallb filesize_ok raw = true →
  for_each format_step acc raw = Ok (acc ++ map entry (List.filter kept raw)).
Proof.
  induction raw as [|f raw IH]; intros acc H; cbn in *.
  - by rewrite app_nil_r.
  - apply andb_prop in H as [Hf Hraw].
    rewrite (format_step_entry acc f Hf). cbn.
    destruct (kept f); cbn; rewrite IH by done; [|done].
    by rewrite <- app_assoc.
Qed.

Lemma partition_formats_acc formats : ∀ vs as_,
  foldl partition_step (vs, as_) formats =
  (vs ++ List.filter has_video formats, as_ ++ List.filter is_audio_only formats).
Proof.
  induction formats as [|fmt formats IH]; intros vs as_;
    cbn [foldl List.filter].
  - by rewrite !app_nil_r.
  - assert (Hao : is_audio_only fmt = negb (has_video fmt) && has_audio fmt)
      by reflexivity.
    rewrite Hao. unfold partition_step at 2.
    destruct (has_video fmt), (has_audio fmt); cbn [negb andb];
      rewrite IH, <- ?app_assoc; reflexivity.
Qed.

Lemma partition_formats_filter formats :
  partition_formats formats =
  (List.filter has_video formats, List.filter is_audio_only formats).
Proof. apply (partition_formats_acc formats [] []). Qed.

Lemma filter_map_entry (p : format_info → bool) (q : pydict → bool) raw :
  (∀ f, p (entry f) = q f) →
  List.filter p (map entry raw) = map entry (List.filter q raw).
Proof.
  intros Hpq. induction raw as [|f raw IH]; cbn; [done|].
  rewrite Hpq. destruct (q f); cbn; by rewrite IH.
Qed.

Lemma filter_filter_bool {A} (p q : A → bool) (l : list A) :
  List.filter p (List.filter q l) = List.filter (fun x => q x && p x) l.
Proof.
  induction l as [|x l IH]; cbn; [done|].
  destruct (q x); cbn; [destruct (p x)|]; by rewrite IH.
Qed.

Lemma kept_lengths (l : list pydict) :
  (length (List.filter has_video_track l)
   + length (List.filter
               (fun f => negb (has_video_track f) && has_audio_track f && is_mp3 f) l)
   = length (List.filter kept l))%nat.
Proof.
  unfold kept. induction l as [|f l IH]; cbn; [done|].
  destruct (has_video_track f), (has_audio_track f), (is_mp3 f); cbn; lia.
Qed.

(** A loop that ends normally met no size field it could not format. *)
Lemma for_each_format_step_ok raw : ∀ acc l,
  for_each format_step acc raw = Ok l → forallb filesize_ok raw = true.
Proof.
  induction raw as [|f raw IH]; intros acc l H; cbn in *; [done|].
  destruct (filesize_ok f) eqn:Hf.
  - rewrite (format_step_entry acc f Hf) in H. cbn in H. eauto.
  - exfalso. unfold filesize_ok in Hf. unfold format_step in H.
    destruct (filesize_str (dget f "filesize" VNone)); [done|]. by cbn in H.
Qed.

Lemma kept_entry f : has_video (entry f) || has_audio (entry f) = true ↔
  has_video_track f || has_audio_track f = true.
Proof. reflexivity. Qed.

(** What [get_available_formats] returns when it returns a catalog. *)
Lemma get_available_formats_Some py extract url cat :
  get_available_formats py extract url = Ok (Some cat) →
  ∃ info, extract url = Ok info
    ∧ duration_ok py info = true
    ∧ forallb filesize_ok (info_formats info) = true
    ∧ cat = {| title := default "Unknown Title" (info_title info);
               formats := map entry (List.filter kept (info_formats info)) |}.
Proof.
  unfold get_available_formats, duration_ok.
  destruct (extract url) as [info|e]; cbn.
  - destruct (duration_str py (info_duration info)) as [t|e] eqn:Hd; cbn;
      [|by destruct (is_Exception e)].
    destruct (for_each format_step [] (info_formats info)) as [l|e] eqn:Hl; cbn.
    + intros [= <-]. exists info. pose proof (for_each_format_step_ok _ _ _ Hl) as Hok.
      rewrite for_each_format_step in Hl by done. cbn in Hl.
      injection Hl as <-. by rewrite Hd.
    + by destruct (is_Exception e).
  - by destruct (is_Exception e).
Qed.

(** What the builder returns when nothing raises. *)
Lemma get_available_formats_built py extract url info :
  extract url = Ok info →
  duration_ok py info = true →
  forallb filesize_ok (info_formats info) = true →
  get_available_formats py extract url
  = Ok (Some {| title := default "Unknown Title" (info_title info);
               formats := map entry (List.filter kept (info_formats info)) |}).
Proof.
  intros Hex Hduration Hok. unfold get_available_formats, duration_ok in *.
  rewrite Hex. cbn.
  destruct (duration_str py (info_duration info)); [|discriminate]. cbn.
  rewrite for_each_format_step by done. reflexivity.
Qed.

(** C1: the builder leaves out a descriptor that has a decodable audio track.
    The collaborator lists one audio-only stream, Opus in a [webm] container;
    nothing raises, and the catalog that is returned is empty: the test of
    line 56 keeps an audio-only descriptor only when its container is [mp3],
    where the comment of line 55 says "unless audio-only". *)
Theorem audio_only_webm_is_dropped :
  has_video_track opus_webm = false
  ∧ has_audio_track opus_webm = true
  ∧ get_available_formats cpython_ascii
      (fun _ =>
         Ok {| info_title := Some "Song"; info_duration := VInt 215;
               info_formats := [opus_webm] |})
      "https://youtu.be/x"
    = Ok (Some {| title := "Song"; formats := [] |}).
Proof. repeat split; vm_compute; reflexivity. Qed.

(** X28: what the test of lines 55-57 keeps, as the code stands: when nothing
    raises (the duration and every size can be turned into text), the
    catalog holds, in the collaborator's order, the descriptors that have a
    video track, or have an audio track in an [mp3] container.  The two lists
    of [display_formats_and_select] are the video-capable entries and the
    audio-only entries, each in the collaborator's order, and together they
    are the whole catalog. *)
Theorem catalog_keeps_video_and_mp3_audio
    (py : interpreter) (extract : string → result video_info) (url : string)
    (info : video_info) :
  extract url = Ok info →
  duration_ok py info = true →
  forallb filesize_ok (info_formats info) = true →
  ∃ cat,
    get_available_formats py extract url = Ok (Some cat)
    ∧ formats cat = map entry (List.filter kept (info_formats info))
    ∧ (∀ f, kept f = false ↔
         has_video_track f = false
         ∧ (has_audio_track f = false ∨ is_mp3 f = false))
    ∧ partition_formats (formats cat)
      = (map entry (List.filter has_video_track (info_formats info)),
         map entry
           (List.filter
              (fun f => negb (has_video_track f) && has_audio_track f && is_mp3 f)
              (info_formats info)))
    ∧ (length (partition_formats (formats cat)).1
       + length (partition_formats (formats cat)).2
       = length (formats cat))%nat.
Proof.
  intros Hex Hduration Hok.
  exists {| title := default "Unknown Title" (info_title info);
            formats := map entry (List.filter kept (info_formats info)) |}.
  pose proof (get_available_formats_built py extract url info Hex Hduration Hok)
    as Hget.
  assert (Hpart : partition_formats (map entry (List.filter kept (info_formats info)))
      = (map entry (List.filter has_video_track (info_formats info)),
         map entry
           (List.filter
              (fun f => negb (has_video_track f) && has_audio_track f && is_mp3 f)
              (info_formats info)))).
  { rewrite partition_formats_filter.
    rewrite (filter_map_entry has_video has_video_track) by done.
    rewrite (filter_map_entry is_audio_only
               (fun f => negb (has_video_track f) && has_audio_track f)) by done.
    rewrite !filter_filter_bool. f_equal; f_equal; apply List.filter_ext;
      intros f; unfold kept;
      destruct (has_video_track f), (has_audio_track f), (is_mp3 f); reflexivity. }
  split; [done|]. cbn [formats]. split; [done|]. split.
  - intros f. unfold kept.
    destruct (has_video_track f), (has_audio_track f), (is_mp3 f); cbn;
      intuition congruence.
  - split; [done|]. rewrite Hpart. cbn [fst snd]. rewrite !length_map.
    apply kept_lengths.
Qed.

Lemma catalog_keeps_video_and_mp3_audio_witness :
  ∃ cat,
    get_available_formats cpython_ascii (fun _ => Ok song_info)
      "https://youtu.be/x" = Ok (Some cat)
    ∧ formats cat = [entry avc_mp4; entry plain_mp3].
Proof.
  destruct (catalog_keeps_video_and_mp3_audio cpython_ascii
              (fun _ => Ok song_info) "https://youtu.be/x" song_info)
    as (cat & Hget & Hformats & _).
  - reflexivity.
  - vm_compute. reflexivity.
  - vm_compute. reflexivity.
  - exists cat. split; [exact Hget|]. rewrite Hformats. reflexivity.
Defined.

End Catalog.

(** ** The selection resolver *)

Section Selection.

Import Downloader.

Lemma partition_lengths (formats : list format_info) :
  forallb has_track formats = true →
  (length (List.filter has_video formats)
   + length (List.filter is_audio_only formats) = length formats)%nat.
Proof.
  unfold has_track, is_audio_only.
  induction formats as [|fmt formats IH]; cbn; [done|].
  intros [Hf Hrest]%andb_prop. specialize (IH Hrest).
  destruct (has_video fmt), (has_audio fmt); cbn in *; try discriminate; lia.
Qed.

Lemma built_catalog_has_tracks py extract url cat :
  get_available_formats py extract url = Ok (Some cat) →
  forallb has_track (formats cat) = true.
Proof.
  intros (info & _ & _ & _ & ->)%get_available_formats_Some. cbn [formats].
  induction (info_formats info) as [|f l IH]; cbn; [done|].
  destruct (kept f) eqn:Hk; cbn; [|done].
  rewrite IH, andb_true_r. unfold has_track. cbn. unfold kept in Hk.
  destruct (has_video_track f), (has_audio_track f); cbn in *; done.
Qed.

Lemma py_int_raises py s e : py_int py s = Raise e → e = ValueError.
Proof. unfold py_int. destruct (int_of_str py s); [done|]. by intros [= <-]. Qed.






(** When no line can be read, [input] raises [EOFError], which the handler of
    [ValueError] does not catch. *)
Example select_format_end_of_input :
  (select_format cpython_ascii (formats song_catalog)
     (partition_formats (formats song_catalog)).1
     (partition_formats (formats song_catalog)).2 (typed [])).2
  = Raise EOFError.
Proof. vm_compute. reflexivity. Qed.

End Selection.

(** ** The displayed table *)

Section Display.

Import Downloader.

Lemma printed_nil s : printed [] s = s.
Proof. destruct s. unfold printed. cbn. by rewrite app_nil_r. Qed.

Lemma printed_printed es es' s : printed es' (printed es s) = printed (es ++ es') s.
Proof. unfold printed. cbn. by rewrite app_assoc. Qed.

Lemma print_printed e s : print e s = (printed [e] s, Ok tt).
Proof. reflexivity. Qed.

Lemma enumerate_rows_length line offset l :
  length (App.enumerate_rows line offset l) = length l.
Proof. revert offset. induction l as [|f l IH]; intros o; cbn; [done|]. by rewrite IH. Qed.

Lemma enumerate_rows_ids line offset l :
  (∀ i f, row_id (line i f) = Z.of_nat i) →
  map row_id (App.enumerate_rows line offset l)
  = map Z.of_nat (seq offset (length l)).
Proof.
  intros Hid. revert offset. induction l as [|f l IH]; intros o; cbn; [done|].
  by rewrite Hid, IH.
Qed.

Lemma enumerate_rows_format_ids line offset l :
  (∀ i f, row_format_id (line i f) = format_id f) →
  map row_format_id (App.enumerate_rows line offset l) = map format_id l.
Proof.
  intros Hid. revert offset. induction l as [|f l IH]; intros o; cbn; [done|].
  by rewrite Hid, IH.
Qed.

Lemma enumerate_rows_Forall (P : row → Prop) line offset l :
  (∀ i f, P (line i f)) → Forall P (App.enumerate_rows line offset l).
Proof.
  intros HP. revert offset. induction l as [|f l IH]; intros o; cbn; constructor; auto.
Qed.

Lemma video_row_table i fmt :
  is_ok (video_row 0 fmt) = true → video_row i fmt = Ok (App.table_video_row i fmt).
Proof.
  unfold video_row, App.table_video_row.
  destruct (format_id fmt), (resolution fmt), (fps fmt), (ext fmt); cbn;
    solve [discriminate | reflexivity].
Qed.

Lemma audio_row_table i fmt :
  is_ok (audio_row 0 fmt) = true → audio_row i fmt = Ok (App.table_audio_row i fmt).
Proof.
  unfold audio_row, App.table_audio_row.
  destruct (format_id fmt), (ext fmt); cbn; solve [discriminate | reflexivity].
Qed.

Lemma print_rows_table line line' offset l s :
  Forall (fun f => ∀ i, line i f = Ok (line' i f)) l →
  print_rows line offset l s
  = (printed (map OutRow (App.enumerate_rows line' offset l)) s, Ok tt).
Proof.
  intros Hl. revert offset s.
  induction Hl as [|f l Hf _ IH]; intros o s; cbn.
  - by rewrite printed_nil.
  - unfold bind, lift. rewrite Hf. cbn. fold (printed [OutRow (line' o f)] s).
    rewrite IH, printed_printed. reflexivity.
Qed.

Lemma printable_video formats :
  forallb printable formats = true →
  Forall (fun f => ∀ i, video_row i f = Ok (App.table_video_row i f))
    (List.filter has_video formats).
Proof.
  induction formats as [|f l IH]; cbn; [constructor|].
  intros [Hf Hl]%andb_prop. unfold printable in Hf.
  destruct (has_video f); auto. constructor; auto.
  intros i. by apply video_row_table.
Qed.

Lemma printable_audio formats :
  forallb printable formats = true →
  Forall (fun f => ∀ i, audio_row i f = Ok (App.table_audio_row i f))
    (List.filter is_audio_only formats).
Proof.
  induction formats as [|f l IH]; cbn; [constructor|].
  intros [Hf Hl]%andb_prop. unfold printable in Hf. unfold is_audio_only at 1.
  destruct (has_video f); cbn; auto. destruct (has_audio f); auto.
  constructor; auto. intros i. by apply audio_row_table.
Qed.

(** Whatever is typed, the selection prints no table row. *)
Lemma select_format_output py formats video audio s :
  ∃ tail,
    stdout (select_format py formats video audio s).1 = stdout s ++ tail
    ∧ ∀ r, OutRow r ∉ tail.
Proof.
  unfold select_format, try_except, bind, input, lift.
  destruct (stdin s) as [|line rest]; cbn.
  { exists []. rewrite app_nil_r. split; [done|]. intros r Hr. inversion Hr. }
  destruct (String.eqb (str_strip py line) ""); cbn.
  { exists []. rewrite app_nil_r. split; [done|]. intros r Hr. inversion Hr. }
  destruct (py_int py line) as [idx|e] eqn:Hint; cbn.
  - repeat match goal with
           | |- context [if ?b then _ else _] => destruct b; cbn
           | |- context [list_index ?l ?i] => destruct (list_index l i); cbn
           end;
      (eexists; split; [try reflexivity; symmetry; apply app_nil_r|]);
      intros r Hr; repeat (inversion Hr; subst; clear Hr; try rename H1 into Hr).
  - rewrite (py_int_raises _ _ _ Hint). cbn. eexists. split; [reflexivity|].
    intros r Hr. inversion Hr as [|? ? ? Hr']; subst. inversion Hr'.
Qed.

(** The order of the table.  For a catalog built by [get_available_formats],
    the table of the browser surface is the rows of the video-capable entries,
    then the rows of the audio-only entries, then the best-combined row and
    the best-audio row, in that order; the identifiers shown are the positions
    0, 1, 2, ...; and the command-line surface, when no displayed field is
    [None], prints the same rows in the same order and no row after them. *)
Lemma displayed_order_video_audio_best
    (py : interpreter) (extract : string → result video_info) (url : string)
    (cat : catalog) :
  get_available_formats py extract url = Ok (Some cat) →
  ∃ V A,
    App.format_table (formats cat)
    = V ++ A ++ [best_row (length (formats cat));
                 best_audio_row (length (formats cat) + 1)]
    ∧ Forall is_video_row V
    ∧ Forall is_audio_row A
    ∧ map row_format_id V = map format_id (List.filter has_video (formats cat))
    ∧ map row_format_id A = map format_id (List.filter is_audio_only (formats cat))
    ∧ (length V + length A = length (formats cat))%nat
    ∧ map row_id (App.format_table (formats cat))
      = map Z.of_nat (seq 0 (length (formats cat) + 2))
    ∧ ∀ s, forallb printable (formats cat) = true →
        ∃ tail,
          stdout (display_formats_and_select py (Some cat) s).1
          = stdout s ++ OutTableHeader
              :: map OutRow (App.format_table (formats cat)) ++ tail
          ∧ ∀ r, OutRow r ∉ tail.
Proof.
  intros Hcat.
  pose proof (partition_lengths _ (built_catalog_has_tracks _ _ _ _ Hcat)) as Hlen.
  set (formats := formats cat) in *.
  exists (App.enumerate_rows App.table_video_row 0 (List.filter has_video formats)),
    (App.enumerate_rows App.table_audio_row
       (length (List.filter has_video formats))
       (List.filter is_audio_only formats)).
  split; [reflexivity|].
  split.
  { apply enumerate_rows_Forall. intros i f. unfold is_video_row. cbn.
    destruct (has_audio f); auto. }
  split; [by apply enumerate_rows_Forall|].
  split; [by apply enumerate_rows_format_ids|].
  split; [by apply enumerate_rows_format_ids|].
  split; [by rewrite !enumerate_rows_length|].
  split.
  { unfold App.format_table. fold formats.
    change (List.filter (fun f => negb (has_video f) && has_audio f) formats)
      with (List.filter is_audio_only formats).
    rewrite !map_app, !enumerate_rows_ids by done. cbn [map best_row best_audio_row row_id].
    rewrite <- Hlen at 3. rewrite <- Nat.add_assoc, !seq_app, !map_app. cbn.
    rewrite Hlen. do 3 f_equal. f_equal. lia. }
  intros s Hprint.
  destruct (select_format_output py formats (List.filter has_video formats)
              (List.filter is_audio_only formats)
              (printed (OutTableHeader
                 :: map OutRow (App.format_table formats)) s))
    as (tail & Htail & Hrows).
  exists tail. split; [|done].
  unfold display_formats_and_select. fold formats.
  rewrite partition_formats_filter.
  unfold bind at 1. rewrite print_printed.
  unfold bind at 1.
  rewrite (print_rows_table video_row App.table_video_row) by by apply printable_video.
  unfold bind at 1.
  rewrite (print_rows_table audio_row App.table_audio_row) by by apply printable_audio.
  unfold bind at 1. rewrite print_printed.
  unfold bind at 1. rewrite print_printed.
  rewrite !printed_printed.
  match goal with
  | |- stdout (select_format _ _ _ _ (printed ?es _)).1 = _ =>
      replace es with (OutTableHeader :: map OutRow (App.format_table formats))
  end.
  - rewrite Htail. unfold printed. cbn [stdout].
    symmetry. apply (List.app_assoc (stdout s) (OutTableHeader :: _) tail).
  - unfold App.format_table. rewrite !map_app. reflexivity.
Qed.

(** C8: on the command line the two synthesized rows are not shown for every
    catalog of the builder.  The collaborator lists a video stream whose frame
    rate is [None] and an [mp3] stream; the builder keeps both.  The browser
    surface, which turns every field into text with [str], shows the four
    rows in order.  The command line prints the header, then the format
    specification of line 103 raises [TypeError] on the [None]: no row is
    printed, the best-combined and best-audio rows included, and
    [download_with_yt_dlp] reports the error and returns [False] without
    calling the collaborator. *)
Theorem none_field_stops_the_command_line_table :
  let raw := [<["fps" := VNone]> avc_mp4; plain_mp3] in
  let info :=
    {| info_title := Some "Song A"; info_duration := VInt 215;
       info_formats := raw |} in
  let cat := {| title := "Song A"; formats := map entry raw |} in
  let shown := display_formats_and_select cpython_ascii (Some cat) (typed ["0"]) in
  let env :=
    {| python := cpython_ascii; extract_info := fun _ => Ok info;
       run_download := saves_as "/dl/Song A.mp4"; makedirs_ok := fun _ => true;
       DEFAULT_SAVE_PATH := "/home/u/Downloads" |} in
  let run :=
    download_with_yt_dlp env "https://youtu.be/a" "/dl" VNone false false
      (typed ["0"]) in
  get_available_formats cpython_ascii (fun _ => Ok info) "https://youtu.be/a"
  = Ok (Some cat)
  ∧ map row_content (App.format_table (formats cat))
    = ["Video"; "Audio only"; "Best quality"; "Best audio"]
  ∧ shown.2 = Raise TypeError
  ∧ stdout shown.1 = [OutTableHeader]
  ∧ run.2 = Ok false
  ∧ stdout run.1 = [OutTableHeader; OutError TypeError]
  ∧ calls run.1 = [].
Proof. repeat split; vm_compute; reflexivity. Qed.

End Display.

(** ** The command-line download *)

Section CommandLine.

Import Downloader.

Lemma only_printed_refl s : only_printed s s.
Proof. done. Qed.

Lemma only_printed_trans s1 s2 s3 :
  only_printed s1 s2 → only_printed s2 s3 → only_printed s1 s3.
Proof. unfold only_printed. intros (?&?&?&?) (?&?&?&?). repeat split; congruence. Qed.

Lemma only_printed_print e s : only_printed s (print e s).1.
Proof. done. Qed.

Lemma yt_dlp_progress_hook_frame d s :
  only_printed s (yt_dlp_progress_hook d s).1.
Proof.
  unfold yt_dlp_progress_hook, bind, lift.
  destruct (dindex d "status") as [status|e]; cbn; [|done].
  destruct (py_eq status (VStr "downloading")); cbn; [done|].
  destruct (py_eq status (VStr "finished")); done.
Qed.

Lemma run_hooks_frame events : ∀ s,
  only_printed s (run_hooks yt_dlp_progress_hook events s).1.
Proof.
  induction events as [|d events IH]; intros s; cbn; [done|].
  unfold bind. pose proof (yt_dlp_progress_hook_frame d s) as Hd.
  destruct (yt_dlp_progress_hook d s) as [s1 [[]|e]]; cbn in *; [|done].
  eapply only_printed_trans; [exact Hd|apply IH].
Qed.

(** The collaborator is called once, with the options given, and the keyboard
    and the clock are left alone. *)
Lemma ydl_download_calls env opts url s :
  let s' := (ydl_download env opts url s).1 in
  calls s' = calls s ++ [(url, opts)] ∧ stdin s' = stdin s ∧ clock s' = clock s.
Proof.
  unfold ydl_download, bind, record_call, modify, gets, set_fs, lift. cbn.
  match goal with
  | |- context [run_hooks _ ?ev ?s0] =>
      pose proof (run_hooks_frame ev s0) as Hh;
      destruct (run_hooks yt_dlp_progress_hook ev s0) as [s1 [[]|e]]
  end; cbn in *; destruct Hh as (?&?&?&?); cbn in *.
  all: done.
Qed.

Lemma download_and_report_calls env opts url video_title output_path s :
  let s' := (download_and_report env opts url video_title output_path s).1 in
  calls s' = calls s ++ [(url, opts)] ∧ stdin s' = stdin s ∧ clock s' = clock s.
Proof.
  unfold download_and_report, bind.
  pose proof (ydl_download_calls env opts url s) as Hd.
  destruct (ydl_download env opts url s) as [s1 [info|e]]; cbn in *; [|done].
  destruct (info !! "_filename"); cbn; done.
Qed.

Lemma download_format_proceeds env url output_path format_id force s info mp3 :
  extract_info env url = Ok info →
  mp3_requested format_id = Ok mp3 →
  path_exists (fs s) (path_join output_path (sanitized_title info +:+ ".mp4"))
    && negb force = false →
  download_format env url output_path format_id force s
  = download_and_report env
      (add_extract_audio mp3 "192" (base_opts output_path format_id force))
      url (sanitized_title info) output_path
      (printed [OutDownloadingWith format_id;
                OutOptions format_id output_path force] s).
Proof.
  intros Hinfo Hmp3 Hfree.
  unfold download_format, bind, print, modify, lift, gets.
  rewrite Hinfo, Hmp3. cbn -[path_join base_opts add_extract_audio].
  fold (sanitized_title info). rewrite Hfree.
  unfold printed. cbn. by rewrite <- app_assoc.
Qed.

Lemma base_opts_overwrites output_path format_id force mp3 quality :
  overwrites (add_extract_audio mp3 quality (base_opts output_path format_id force))
  = force.
Proof. destruct mp3, force; reflexivity. Qed.


Lemma base_opts_outtmpl output_path format_id force mp3 quality :
  add_extract_audio mp3 quality (base_opts output_path format_id force) !! "outtmpl"
  = Some (OStr (path_join output_path "%(title)s.%(ext)s")).
Proof. destruct mp3, force; reflexivity. Qed.


Lemma mp3_requested_text f : ∃ mp3, mp3_requested (VStr f) = Ok mp3.
Proof.
  unfold mp3_requested. destruct (truthy (VStr f)); cbn; [|eauto].
  destruct (contains "bestaudio" f); cbn; eauto.
Qed.

Lemma no_call_trans s1 s2 s3 : no_call s1 s2 → no_call s2 s3 → no_call s1 s3.
Proof. unfold no_call. intros (?&?&?) (?&?&?). repeat split; congruence. Qed.

Lemma quiet_bind {A B} (m : M cli_state A) (k : A → M cli_state B) :
  quiet m → (∀ a, quiet (k a)) → quiet (bind m k).
Proof.
  intros Hm Hk s. unfold bind. specialize (Hm s).
  destruct (m s) as [s1 [a|e]]; cbn [fst] in *; [|done].
  eapply no_call_trans; [exact Hm|apply Hk].
Qed.

Lemma quiet_ret {A} (a : A) : quiet (ret a).
Proof. by intros s. Qed.

Lemma quiet_lift {A} (r : result A) : quiet (lift r).
Proof. by intros s. Qed.

Lemma quiet_print e : quiet (print e).
Proof. by intros s. Qed.

Lemma quiet_input : quiet input.
Proof. intros s. unfold input. by destruct (stdin s). Qed.

Lemma quiet_try_except {A} catches (m : M cli_state A) h :
  quiet m → (∀ e, quiet (h e)) → quiet (try_except catches m h).
Proof.
  intros Hm Hh s. unfold try_except. specialize (Hm s).
  destruct (m s) as [s1 [a|e]]; cbn [fst] in *; [done|].
  destruct (catches e); [|done].
  eapply no_call_trans; [exact Hm|apply Hh].
Qed.

Ltac quiet :=
  repeat first
    [ apply quiet_ret
    | apply quiet_lift
    | apply quiet_print
    | apply quiet_input
    | apply quiet_bind; [|intros ?]
    | apply quiet_try_except; [|intros ?]
    | match goal with
      | |- quiet (if ?b then _ else _) => destruct b
      | |- quiet (match ?x with _ => _ end) => destruct x
      end ].

Lemma quiet_print_rows line offset l : quiet (print_rows line offset l).
Proof.
  revert offset. induction l as [|fmt l IH]; intros offset; cbn; [apply quiet_ret|].
  apply quiet_bind; [apply quiet_lift|intros r].
  apply quiet_bind; [apply quiet_print|intros _]. apply IH.
Qed.

(** The menu neither touches the files nor calls the collaborator. *)
Lemma quiet_display py formats_info :
  quiet (display_formats_and_select py formats_info).
Proof.
  unfold display_formats_and_select. destruct formats_info as [info|];
    [|apply quiet_ret].
  destruct (partition_formats (formats info)) as [video_formats audio_formats].
  apply quiet_bind; [apply quiet_print|intros _].
  apply quiet_bind; [apply quiet_print_rows|intros _].
  apply quiet_bind; [apply quiet_print_rows|intros _].
  apply quiet_bind; [apply quiet_print|intros _].
  apply quiet_bind; [apply quiet_print|intros _].
  unfold select_format. quiet.
Qed.

Lemma format_known_no_call env url format_id auto_best s0 fid s :
  format_known env url format_id auto_best s0 fid s → no_call s0 s.
Proof.
  intros [(_ & _ & ->)|[(_ & _ & _ & ->)|(_ & _ & cat & _ & Hmenu)]]; [done..|].
  pose proof (quiet_display (python env) (Some cat) s0) as Hq.
  by rewrite Hmenu in Hq.
Qed.

(** Once the format is known, [download_with_yt_dlp] is [download_format]
    under the handler. *)
Lemma download_with_yt_dlp_known env url output_path format_id auto_best force
    s0 fid s :
  format_known env url format_id auto_best s0 fid s →
  download_with_yt_dlp env url output_path format_id auto_best force s0
  = try_except is_Exception (download_format env url output_path fid force)
      (fun e => print (OutError e) ;; ret false) s.
Proof.
  unfold download_with_yt_dlp.
  intros [(-> & -> & ->)|[(-> & Htruthy & -> & ->)|(-> & Hfalsy & cat & Hcat & Hmenu)]].
  - reflexivity.
  - by rewrite Htruthy.
  - rewrite Hfalsy. unfold try_except, bind, lift. cbn [negb].
    rewrite Hcat, Hmenu. reflexivity.
Qed.






(** Two URLs, both skipped: the summary line reads "2 of 2". *)
Example two_skips_reported_as_two_successes :
  last (stdout (main (sample_env "/dl/Song A.mp4") best_twice
                  (sample_state ["n"; "N"] (<["/dl" := 0]> (<["/dl/Song A.mp4" := 1]> ∅)))).1)
  = Some (OutSummary 2 2).
Proof. vm_compute. reflexivity. Qed.

(** One URL skipped, the next one not resolved: "1 of 2". *)
Example one_skip_one_failure_reported_as_one_success :
  last (stdout (main (sample_env "/dl/Song A.mp4")
                  {| urls := ["https://youtu.be/a"; "https://youtu.be/gone"];
                     output := output best_twice; format := format best_twice;
                     best := best best_twice; force := force best_twice |}
                  (sample_state ["n"] (<["/dl" := 0]> (<["/dl/Song A.mp4" := 1]> ∅)))).1)
  = Some (OutSummary 1 2).
Proof. vm_compute. reflexivity. Qed.

End CommandLine.

(** ** The browser surface *)

Section Browser.

Import Downloader App.

Lemma only_page_trans s1 s2 s3 :
  only_page s1 s2 → only_page s2 s3 → only_page s1 s3.
Proof.
  unfold only_page. intros (?&?&?&?&?&?) (?&?&?&?&?&?). repeat split; congruence.
Qed.

Lemma page_only_bind {A B} (m : M app_state A) (k : A → M app_state B) :
  page_only m → (∀ a, page_only (k a)) → page_only (bind m k).
Proof.
  intros Hm Hk s. unfold bind. specialize (Hm s).
  destruct (m s) as [s1 [a|e]]; cbn in *; [|done].
  eapply only_page_trans; [exact Hm|apply Hk].
Qed.

Lemma page_only_ret {A} (a : A) : page_only (ret a).
Proof. by intros s. Qed.

Lemma page_only_lift {A} (r : result A) : page_only (lift r).
Proof. by intros s. Qed.

Lemma page_only_raise {A} (e : exn) : page_only (raise (A:=A) e).
Proof. by intros s. Qed.

Lemma page_only_with_page f : page_only (modify (with_page f)).
Proof. by intros s. Qed.

Lemma page_only_set_progress v : page_only (set_progress v).
Proof.
  unfold set_progress. destruct (Qle_bool 0 v && Qle_bool v 1);
    [apply page_only_with_page|apply page_only_raise].
Qed.

Lemma page_only_try_except {A} catches (m : M app_state A) h :
  page_only m → (∀ e, page_only (h e)) → page_only (try_except catches m h).
Proof.
  intros Hm Hh s. unfold try_except. specialize (Hm s).
  destruct (m s) as [s1 [a|e]]; cbn in *; [done|].
  destruct (catches e); [|done].
  eapply only_page_trans; [exact Hm|apply Hh].
Qed.

Ltac page_only :=
  repeat first
    [ apply page_only_ret
    | apply page_only_lift
    | apply page_only_raise
    | apply page_only_set_progress
    | apply page_only_with_page
    | apply page_only_bind; [|intros ?]
    | apply page_only_try_except; [|intros ?]
    | match goal with
      | |- page_only (if ?b then _ else _) => destruct b
      | |- page_only (match ?x with _ => _ end) => destruct x
      end ].

Lemma page_only_report_percentage downloaded_bytes total_bytes :
  page_only (report_percentage downloaded_bytes total_bytes).
Proof. unfold report_percentage, set_percent_text. page_only. Qed.

Lemma page_only_report_details d downloaded_bytes total_bytes percentage :
  page_only (report_details d downloaded_bytes total_bytes percentage).
Proof.
  unfold report_details, set_status_text, set_file_size_text, set_eta_text.
  page_only.
Qed.

Lemma page_only_hook d : page_only (streamlit_progress_hook d).
Proof.
  unfold streamlit_progress_hook, set_percent_text, set_status_text,
    set_file_size_text, set_eta_text.
  page_only;
    first [apply page_only_report_percentage|apply page_only_report_details].
Qed.

Lemma page_only_run_hooks events : page_only (run_hooks streamlit_progress_hook events).
Proof.
  induction events as [|d events IH]; cbn; [apply page_only_ret|].
  apply page_only_bind; [apply page_only_hook|by intros _].
Qed.

Lemma page_only_estimate aenv url format_id :
  page_only (estimate_file_size aenv url format_id).
Proof. unfold estimate_file_size, set_file_size_text. page_only. Qed.

(** The estimate never raises: its [except] is bare. *)
Lemma estimate_file_size_returns aenv url format_id s :
  (estimate_file_size aenv url format_id s).2 = Ok tt.
Proof.
  unfold estimate_file_size, try_except.
  match goal with |- context [bind ?m ?k s] => destruct (bind m k s) as [s1 [[]|e]] end;
    reflexivity.
Qed.

Lemma ydl_download_effect aenv opts url s :
  let s' := (App.ydl_download aenv opts url s).1 in
  App.calls s' = App.calls s ++ [(url, opts)]
  ∧ session s' = session s ∧ prompt s' = prompt s ∧ ui s' = ui s.
Proof.
  unfold App.ydl_download, bind, modify, gets, lift. cbn.
  match goal with
  | |- context [run_hooks _ ?ev ?s0] =>
      pose proof (page_only_run_hooks ev s0) as Hh;
      destruct (run_hooks streamlit_progress_hook ev s0) as [s1 [[]|e]]
  end; cbn in *; destruct Hh as (?&?&?&?&?&?); cbn in *.
  - match goal with |- context [run_outcome ?r] => destruct (run_outcome r) end;
      cbn; done.
  - done.
Qed.

Lemma final_check_effect output_path format_id video_title s :
  let s' := (final_check output_path format_id video_title s).1 in
  App.calls s' = App.calls s ∧ session s' = session s ∧ prompt s' = prompt s
  ∧ App.fs s' = App.fs s.
Proof.
  unfold final_check, bind, lift, gets, show, modify.
  destruct (audio_extraction format_id) as [[]|e]; cbn; [| |done].
  - destruct (App.fs s !! _); cbn; done.
  - destruct (App.fs s !! _); cbn; done.
Qed.

Lemma browser_opts_overwrites output_path format_id force cf aq video_title mp3 :
  browser_opts output_path format_id force cf aq video_title mp3 !! "overwrites"
  = Some (OBool force).
Proof. destruct mp3; reflexivity. Qed.

Lemma browser_opts_outtmpl output_path format_id force cf aq video_title mp3 :
  browser_opts output_path format_id force cf aq video_title mp3 !! "outtmpl"
  = Some (OStr (path_join output_path (video_title +:+ ".%(ext)s"))).
Proof. destruct mp3; reflexivity. Qed.

Lemma download_and_verify_effect aenv url output_path format_id force cf aq
    video_title mp3 s :
  audio_extraction format_id = Ok mp3 →
  let s' := (download_and_verify aenv url output_path format_id force cf aq
               video_title s).1 in
  App.calls s'
  = App.calls s
    ++ [(url, browser_opts output_path format_id force cf aq video_title mp3)]
  ∧ session s' = session s ∧ prompt s' = prompt s.
Proof.
  intros Hmp3 s'. subst s'.
  destruct (download_and_verify aenv url output_path format_id force cf aq
              video_title s) as [s' r] eqn:Hrun.
  cbn [fst]. revert Hrun.
  unfold download_and_verify. unfold bind at 1, lift.
  rewrite Hmp3. unfold bind at 1, modify.
  fold (browser_opts output_path format_id force cf aq video_title mp3).
  unfold bind at 1.
  match goal with
  | |- context [estimate_file_size aenv url format_id ?s0] =>
      pose proof (page_only_estimate aenv url format_id s0) as He;
      pose proof (estimate_file_size_returns aenv url format_id s0) as Hr;
      destruct (estimate_file_size aenv url format_id s0) as [s1 r1]
  end.
  cbn in Hr. subst r1. destruct He as (Hs1 & _ & _ & _ & Hp1 & Hc1). cbn in *.
  unfold bind.
  pose proof (ydl_download_effect aenv
                (browser_opts output_path format_id force cf aq video_title mp3)
                url s1) as (Hc2 & Hs2 & Hp2 & _).
  destruct (App.ydl_download aenv _ url s1) as [s2 [[]|e]]; cbn [fst] in *.
  - pose proof (final_check_effect output_path format_id video_title s2)
      as (Hc3 & Hs3 & Hp3 & _).
    intros Hrun. rewrite Hrun in *. cbn [fst] in *. repeat split; congruence.
  - intros [= <- <-]. repeat split; congruence.
Qed.

Lemma audio_extraction_text f :
  audio_extraction (VStr f) = Ok (contains "bestaudio" f && contains "mp3" f).
Proof. unfold audio_extraction. cbn. by destruct (contains "bestaudio" f). Qed.


End Browser.

(** ** The collision policy *)

Section Collision.

Import Downloader App.





(** C4 on the command line: with [mp3] extraction requested and the [mp3]
    file already there, no collision is seen: nothing is asked, and the
    collaborator is called with the extraction to [mp3].  The browser surface,
    on the same target, stops and asks. *)
Theorem command_line_misses_existing_mp3 :
  let files : filesystem := <["/dl/Song A.mp3" := 4096]> ∅ in
  let run :=
    download_with_yt_dlp (sample_env "/dl/Song A.mp3") "https://youtu.be/a" "/dl"
      best_audio false false (sample_state ["n"] files) in
  let asked :=
    download_with_streamlit (sample_browser "/dl/Song A.mp3") "https://youtu.be/a"
      "/dl" best_audio false 5 "192" (fresh_session files) in
  path_exists files "/dl/Song A.mp3" = true
  ∧ run.2 = Ok true
  ∧ existsb is_file_exists (stdout run.1) = false
  ∧ stdin run.1 = ["n"]
  ∧ map (fun c => (c.1, c.2 !! "postprocessors")) (Downloader.calls run.1)
    = [("https://youtu.be/a", Some (OExtractAudio "mp3" (VStr "192")))]
  ∧ asked.2 = Raise StopScript
  ∧ ui asked.1 = [UiFileExists; UiDecisionButtons]
  ∧ App.calls asked.1 = [].
Proof. repeat split; vm_compute; reflexivity. Qed.

(** A pending decision is cleared by the call that acts on it. *)
Lemma pending_decision_is_cleared aenv url output_path f force cf aq s info :
  extract_info (env aenv) url = Ok info →
  file_decision_made (session s) = true →
  session (download_with_streamlit aenv url output_path (VStr f) force cf aq s).1
  = initial_session.
Proof.
  intros Hinfo Hmade.
  destruct (download_with_streamlit aenv url output_path (VStr f) force cf aq s)
    as [s' r] eqn:Hrun.
  cbn [fst]. revert Hrun.
  unfold download_with_streamlit, try_except.
  unfold bind at 1, lift. rewrite Hinfo. fold (sanitized_title info).
  unfold bind at 1, gets.
  unfold bind at 1. rewrite Hmade, !andb_false_r.
  unfold bind at 1. cbn [ret].
  unfold bind at 1. cbn [gets]. rewrite Hmade.
  unfold bind at 1. cbn [gets].
  assert (Hdv : ∀ frc title s0,
    session s0 = initial_session →
    ∀ s1 r1,
      match download_and_verify aenv url output_path (VStr f) frc cf aq title s0 with
      | (s2, Raise e) =>
          if is_Exception e then show (UiDownloadError e) s2 else (s2, Raise e)
      | r => r
      end = (s1, r1) →
      session s1 = initial_session).
  { intros frc title s0 Hs0 s1 r1.
    pose proof (download_and_verify_effect aenv url output_path (VStr f) frc cf aq
                  title _ s0 (audio_extraction_text f)) as (_ & Hs & _).
    destruct (download_and_verify aenv url output_path (VStr f) frc cf aq title s0)
      as [s2 [[]|e]]; cbn [fst] in *.
    - intros [= <- <-]. congruence.
    - destruct (is_Exception e); cbn; intros [= <- <-]; cbn; congruence. }
  destruct (bool_decide (file_decision (session s) = Some "redownload")).
  { unfold bind at 1, show, modify. unfold bind at 1, reset_decision, modify.
    apply Hdv. reflexivity. }
  destruct (bool_decide (file_decision (session s) = Some "new_name")).
  { unfold bind at 1, gets. unfold bind at 1, show, modify.
    unfold bind at 1, reset_decision, modify. apply Hdv. reflexivity. }
  destruct (bool_decide (file_decision (session s) = Some "skip")).
  { unfold bind, show, reset_decision, modify. cbn. intros [= <- <-]. reflexivity. }
  unfold bind at 1, reset_decision, modify. apply Hdv. reflexivity.
Qed.

(** C5 on the browser surface: the user asks for Song A, which exists, and
    answers Skip (or "new name"); the run that follows the answer does not
    enter [download_with_streamlit], so the answer stays in the session; the
    next download, of Song B, which does not exist, is the one that acts on
    it: it is skipped (or saved under Song A's new name).  Only then is the
    decision cleared. *)
Theorem decision_leaks_to_the_next_download :
  let files : filesystem := <["/dl" := 0]> (<["/dl/Song A.mp4" := 1]> ∅) in
  let browser := sample_browser "/dl/out" in
  let a := "https://youtu.be/a" in
  let b := "https://youtu.be/b" in
  let asked := run_session browser (fresh_session files) [Interact (clicking a)] in
  let decided :=
    run_session browser (fresh_session files)
      [Interact (clicking a); Decide Skip (clicking a)] in
  let final :=
    run_session browser (fresh_session files)
      [Interact (clicking a); Decide Skip (clicking a); Interact (clicking b)] in
  let renamed :=
    run_session browser (fresh_session files)
      [Interact (clicking a); Decide NewName (clicking a); Interact (clicking b)] in
  prompt asked = Some "Song A"
  ∧ session decided
    = {| file_decision_made := true; file_decision := Some "skip";
         new_filename := None |}
  ∧ App.calls decided = []
  ∧ path_exists files "/dl/Song B.mp4" = false
  ∧ path_exists files "/dl/Song B.mp3" = false
  ∧ last (ui final) = Some UiSkipped
  ∧ App.calls final = []
  ∧ session final = initial_session
  ∧ map (fun c => (c.1, c.2 !! "outtmpl")) (App.calls renamed)
    = [(b, Some (OStr "/dl/Song A_1700000000.%(ext)s"))].
Proof. repeat split; vm_compute; reflexivity. Qed.

End Collision.

(** ** The check after the download *)

Section FinalCheck.

Import Downloader App.

Lemma final_check_report output_path f video_title s :
  final_check output_path (VStr f) video_title s
  = (with_ui (fun l => l ++ final_report output_path f video_title (App.fs s)) s,
     Ok tt).
Proof.
  unfold final_check, final_report, bind, lift.
  rewrite audio_extraction_text.
  destruct (contains "bestaudio" f && contains "mp3" f); cbn -[path_join];
    destruct (App.fs s !! _); cbn -[path_join]; try reflexivity.
  unfold show, modify, with_ui. cbn -[path_join]. by rewrite <- app_assoc.
Qed.

(** X29: on the browser surface, once the collaborator's call has returned,
    the expected path ([mp3] when the extraction to [mp3] was
    requested, [mp4] otherwise) is looked up: when a file is there, success is
    shown with its size in MiB; when none is, a warning naming the path is
    shown; in both cases the function returns normally. *)
Theorem browser_checks_the_expected_path
    (aenv : app_environment) (url output_path f : string) (force : bool)
    (concurrent_fragments : Z) (audio_quality video_title : string)
    (s s2 : app_state) :
  App.ydl_download aenv
    (browser_opts output_path (VStr f) force concurrent_fragments audio_quality
       video_title (contains "bestaudio" f && contains "mp3" f))
    url
    (estimate_file_size aenv url (VStr f)
       (with_page (fun _ => fresh_widgets) s)).1
  = (s2, Ok tt) →
  download_and_verify aenv url output_path (VStr f) force concurrent_fragments
    audio_quality video_title s
  = (with_ui
       (fun l => l ++ final_report output_path f video_title (App.fs s2)) s2,
     Ok tt).
Proof.
  intros Hcall. unfold download_and_verify.
  unfold bind at 1, lift. rewrite audio_extraction_text.
  unfold bind at 1, modify.
  fold (browser_opts output_path (VStr f) force concurrent_fragments audio_quality
          video_title (contains "bestaudio" f && contains "mp3" f)).
  unfold bind at 1.
  pose proof (estimate_file_size_returns aenv url (VStr f)
                (with_page (fun _ => fresh_widgets) s)) as Hest.
  destruct (estimate_file_size aenv url (VStr f)
              (with_page (fun _ => fresh_widgets) s)) as [s1 r1].
  cbn [fst snd] in *. subst r1.
  unfold bind. rewrite Hcall. apply final_check_report.
Qed.

Lemma browser_checks_the_expected_path_witness :
  ui (download_and_verify (sample_browser "/dl/Song A.webm") "https://youtu.be/a"
        "/dl" (VStr "137") false 5 "192" "Song A" (fresh_session ∅)).1
  = [UiNotFound "/dl/Song A.mp4"].
Proof.
  rewrite (browser_checks_the_expected_path (sample_browser "/dl/Song A.webm")
             "https://youtu.be/a" "/dl" "137" false 5 "192" "Song A"
             (fresh_session ∅)
             (App.ydl_download (sample_browser "/dl/Song A.webm")
                (browser_opts "/dl" (VStr "137") false 5 "192" "Song A" false)
                "https://youtu.be/a"
                (estimate_file_size (sample_browser "/dl/Song A.webm")
                   "https://youtu.be/a" (VStr "137")
                   (with_page (fun _ => fresh_widgets) (fresh_session ∅))).1).1).
  - vm_compute. reflexivity.
  - vm_compute. reflexivity.
Defined.

(** C7: the command line makes no final check.  The collaborator returns
    after saving under another name than the expected one; the command line
    reports success and returns [True] although nothing is at the expected
    path, and shows no size.  The browser surface, for the same download,
    looks the expected path up and shows the warning that names it. *)
Theorem command_line_reports_success_without_a_file :
  let run :=
    download_with_yt_dlp (sample_env "/dl/Song A.webm") "https://youtu.be/a" "/dl"
      (VStr "137") false false (sample_state [] ∅) in
  let page :=
    download_with_streamlit (sample_browser "/dl/Song A.webm")
      "https://youtu.be/a" "/dl" (VStr "137") false 5 "192" (fresh_session ∅) in
  run.2 = Ok true
  ∧ map fst (Downloader.calls run.1) = ["https://youtu.be/a"]
  ∧ last (stdout run.1) = Some (OutSuccess "Song A" "/dl")
  ∧ path_exists (Downloader.fs run.1) "/dl/Song A.mp4" = false
  ∧ path_exists (Downloader.fs run.1) "/dl/Song A.mp3" = false
  ∧ page.2 = Ok tt
  ∧ last (ui page.1) = Some (UiNotFound "/dl/Song A.mp4").
Proof. repeat split; vm_compute; reflexivity. Qed.

End FinalCheck.

(** ** The progress reporter *)

Section Progress.

Import Downloader App.

Lemma py_min_Qmin a b : py_min a b = Qmin a b.
Proof.
  unfold py_min, Qmin, GenericMinMax.gmin.
  destruct (Qle_bool a b) eqn:Hle.
  - apply Qle_bool_iff in Hle. apply Qle_alt in Hle.
    destruct (a ?= b)%Q eqn:Hc; try reflexivity. exfalso. by apply Hle.
  - destruct (a ?= b)%Q eqn:Hc; [| |reflexivity]; exfalso.
    + apply Qeq_alt in Hc. assert (Hle' : (a <= b)%Q) by (rewrite Hc; apply Qle_refl).
      apply Qle_bool_iff in Hle'. congruence.
    + apply Qlt_alt in Hc. apply Qlt_le_weak, Qle_bool_iff in Hc. congruence.
Qed.

Lemma py_min_le_1 a : (py_min a 1 <= 1)%Q.
Proof. rewrite py_min_Qmin. apply Q.le_min_r. Qed.

Lemma py_min_nonneg a : (0 <= a)%Q → (0 <= py_min a 1)%Q.
Proof. intros Ha. rewrite py_min_Qmin. apply Q.min_glb; [done|discriminate]. Qed.

Lemma quotient_nonneg a t : (0 <= a)%Q → (0 < t)%Q → (0 <= a / t)%Q.
Proof.
  intros Ha Ht. unfold Qdiv. apply Qmult_le_0_compat; [done|].
  apply Qlt_le_weak, Qinv_lt_0_compat, Ht.
Qed.

Lemma Qeq_bool_pos t : (0 < t)%Q → Qeq_bool t 0 = false.
Proof.
  intros Ht. destruct (Qeq_bool t 0) eqn:H; [|done].
  apply Qeq_bool_iff in H. rewrite H in Ht. by apply Qlt_irrefl in Ht.
Qed.

Lemma Qle_bool_pos t : (0 < t)%Q → Qle_bool t 0 = false.
Proof.
  intros Ht. destruct (Qle_bool t 0) eqn:H; [|done].
  apply Qle_bool_iff in H. by apply Qlt_not_le in Ht.
Qed.

Lemma truthy_number v q : to_num v = Some q → truthy v = negb (Qeq_bool q 0).
Proof.
  destruct v as [|z|p|]; cbn; intros [= <-]; [|done].
  f_equal. unfold Qeq_bool, inject_Z. cbn. by rewrite Z.mul_1_r.
Qed.

Lemma set_progress_in_range v s :
  (0 <= v)%Q → (v <= 1)%Q →
  set_progress v s
  = (with_page (fun w =>
       {| progress_bar := v; percent_text := percent_text w;
          status_text := status_text w; file_size_text := file_size_text w;
          eta_text := eta_text w |}) s, Ok tt).
Proof.
  intros H0%Qle_bool_iff H1%Qle_bool_iff. unfold set_progress.
  by rewrite H0, H1.
Qed.

(** Lines 289-294 when the total is positive. *)
Lemma report_percentage_positive downloaded_bytes total_bytes a t s :
  to_num downloaded_bytes = Some a → (0 <= a)%Q →
  to_num total_bytes = Some t → (0 < t)%Q →
  report_percentage downloaded_bytes total_bytes s
  = (with_page (fun w =>
       {| progress_bar := py_min (a / t) 1;
          percent_text := Some (PercentOf (a / t));
          status_text := status_text w; file_size_text := file_size_text w;
          eta_text := eta_text w |}) s, Ok (Some (a / t)%Q)).
Proof.
  intros Ha Ha0 Ht Ht0. unfold report_percentage, bind, lift, py_gt0, py_truediv.
  rewrite Ha, Ht, (Qle_bool_pos t Ht0), (Qeq_bool_pos t Ht0). cbn [negb].
  rewrite set_progress_in_range;
    [reflexivity|by apply py_min_nonneg, quotient_nonneg|apply py_min_le_1].
Qed.

(** Lines 289-294 when the total is zero: nothing is shown. *)
Lemma report_percentage_unknown downloaded_bytes total_bytes t s :
  to_num total_bytes = Some t → Qle_bool t 0 = true →
  report_percentage downloaded_bytes total_bytes s = (s, Ok None).
Proof.
  intros Ht Ht0. unfold report_percentage, bind, lift, py_gt0.
  by rewrite Ht, Ht0.
Qed.

Lemma keeps_bar_bind {A B} (m : M app_state A) (k : A → M app_state B) :
  keeps_bar m → (∀ a, keeps_bar (k a)) → keeps_bar (bind m k).
Proof.
  intros Hm Hk s. unfold bind. specialize (Hm s).
  destruct (m s) as [s1 [a|e]]; cbn [fst] in *; [|done].
  destruct (Hk a s1) as [H1 H2]. destruct Hm as [H3 H4]. split; congruence.
Qed.

Lemma keeps_bar_lift {A} (r : result A) : keeps_bar (lift r).
Proof. by intros s. Qed.

Lemma keeps_bar_raise {A} (e : exn) : keeps_bar (raise (A:=A) e).
Proof. by intros s. Qed.

Lemma keeps_bar_report_details d downloaded_bytes total_bytes percentage :
  keeps_bar (report_details d downloaded_bytes total_bytes percentage).
Proof.
  unfold report_details.
  repeat first
    [ apply keeps_bar_lift
    | apply keeps_bar_raise
    | apply keeps_bar_bind; [|intros ?]
    | by intros s
    | match goal with
      | |- keeps_bar (if ?b then _ else _) => destruct b
      | |- keeps_bar (match ?x with _ => _ end) => destruct x
      end ].
Qed.

(** C10: in the browser surface's hook, for a downloading event whose byte
    count is a number that is not negative and whose total is positive, the
    value given to the progress bar is [min(downloaded / total, 1.0)], which
    is at most 1 whatever the byte count; this holds whatever the other
    fields of the event are. *)
Theorem progress_bar_is_capped (d : pydict) (s : app_state) (a t : Q) :
  d !! "status" = Some (VStr "downloading") →
  to_num (downloaded_of d) = Some a →
  (0 <= a)%Q →
  to_num (total_of d) = Some t →
  (0 < t)%Q →
  progress_bar (page (streamlit_progress_hook d s).1) = Qmin (a / t) 1
  ∧ (progress_bar (page (streamlit_progress_hook d s).1) <= 1)%Q.
Proof.
  intros Hstatus Ha Ha0 Ht Ht0.
  assert (Hbar : progress_bar (page (streamlit_progress_hook d s).1)
                 = py_min (a / t) 1).
  { unfold streamlit_progress_hook, bind at 1, lift, dindex. rewrite Hstatus.
    cbn [py_eq String.eqb Ascii.eqb Bool.eqb andb].
    fold (downloaded_of d) (total_of d). unfold bind.
    rewrite (report_percentage_positive _ _ a t s Ha Ha0 Ht Ht0).
    match goal with
    | |- context [report_details d ?x ?y ?p ?s0] =>
        destruct (keeps_bar_report_details d x y p s0) as [-> _]
    end.
    reflexivity. }
  rewrite Hbar. split; [apply py_min_Qmin|apply py_min_le_1].
Qed.

Lemma progress_bar_is_capped_witness :
  progress_bar
    (page (streamlit_progress_hook
             (<["status" := VStr "downloading"]>
              (<["downloaded_bytes" := VInt 300]>
              (<["total_bytes" := VInt 200]> ∅)))
             (fresh_session ∅)).1)
  = Qmin (inject_Z 300 / inject_Z 200) 1.
Proof.
  apply (progress_bar_is_capped
           (<["status" := VStr "downloading"]>
            (<["downloaded_bytes" := VInt 300]>
            (<["total_bytes" := VInt 200]> ∅)))
           (fresh_session ∅) (inject_Z 300) (inject_Z 200)).
  - reflexivity.
  - reflexivity.
  - discriminate.
  - reflexivity.
  - reflexivity.
Defined.

Lemma speed_text_ok v :
  number_or_none v = true →
  ∃ st,
    (if truthy v then mbs ← py_truediv v MiB; mret (SpeedMBs mbs)
     else mret SpeedNA) = Ok st
    ∧ (truthy v = false → st = SpeedNA).
Proof.
  destruct v as [|z|q|x]; cbn [number_or_none]; [| | |discriminate]; intros _.
  - exists SpeedNA. done.
  - destruct (truthy (VInt z)); [|exists SpeedNA; done].
    eexists. split; [reflexivity|discriminate].
  - destruct (truthy (VFloat q)); [|exists SpeedNA; done].
    eexists. split; [reflexivity|discriminate].
Qed.

Lemma eta_text_ok v :
  number_or_none v = true →
  ∃ et,
    (if truthy v then
       minutes ← py_floordiv60 v;
       seconds ← py_mod60 v;
       mret (EtaMinSec minutes seconds)
     else mret EtaNA) = Ok et
    ∧ (truthy v = false → et = EtaNA).
Proof.
  destruct v as [|z|q|x]; cbn [number_or_none]; [| | |discriminate]; intros _.
  - exists EtaNA. done.
  - destruct (truthy (VInt z)); [|exists EtaNA; done].
    eexists. split; [reflexivity|discriminate].
  - destruct (truthy (VFloat q)); [|exists EtaNA; done].
    eexists. split; [reflexivity|discriminate].
Qed.

Lemma truediv_MiB v q : to_num v = Some q → py_truediv v MiB = Ok (q / MiBq)%Q.
Proof. intros Hv. unfold py_truediv. rewrite Hv. reflexivity. Qed.

(** Lines 296-311 on a well-formed event. *)
Lemma report_details_ok d downloaded_bytes total_bytes percentage a t s :
  to_num downloaded_bytes = Some a →
  to_num total_bytes = Some t →
  number_or_none (dget d "speed" (VInt 0)) = true →
  number_or_none (dget d "eta" (VInt 0)) = true →
  (truthy total_bytes = true → percentage = Some (a / t)%Q) →
  ∃ st et,
    report_details d downloaded_bytes total_bytes percentage s
    = (with_page (fun w =>
         {| progress_bar := progress_bar w; percent_text := percent_text w;
            status_text := Some (StatusDownloading st);
            file_size_text :=
              Some (if truthy total_bytes
                    then SizeOfTotal (a / MiBq) (t / MiBq) (a / t)
                    else SizeUnknownTotal (a / MiBq));
            eta_text := Some et |}) s, Ok tt)
    ∧ (truthy (dget d "speed" (VInt 0)) = false → st = SpeedNA)
    ∧ (truthy (dget d "eta" (VInt 0)) = false → et = EtaNA).
Proof.
  intros Ha Ht Hspeed Heta Hpct.
  destruct (speed_text_ok _ Hspeed) as (st & Hst & Hst0).
  destruct (eta_text_ok _ Heta) as (et & Het & Het0).
  exists st, et. split; [|done].
  unfold report_details, bind, lift.
  rewrite (truediv_MiB _ _ Ha), Hst, Het.
  destruct (truthy total_bytes) eqn:Htruthy.
  - rewrite (truediv_MiB _ _ Ht), (Hpct eq_refl). reflexivity.
  - reflexivity.
Qed.

Lemma has_status_lookup name d :
  has_status name d = true → d !! "status" = Some (VStr name).
Proof.
  unfold has_status. destruct (d !! "status") as [[| | |status]|]; try discriminate.
  by intros ->%String.eqb_eq.
Qed.

Lemma well_formed_fields d :
  well_formed d = true →
  ∃ a t,
    to_num (downloaded_of d) = Some a ∧ (0 <= a)%Q
    ∧ to_num (total_of d) = Some t ∧ (0 <= t)%Q
    ∧ number_or_none (dget d "speed" (VInt 0)) = true
    ∧ number_or_none (dget d "eta" (VInt 0)) = true.
Proof.
  unfold well_formed, is_count.
  intros [[[Ha Ht]%andb_prop Hs]%andb_prop He]%andb_prop.
  destruct (to_num (downloaded_of d)) as [a|]; [|discriminate].
  destruct (to_num (total_of d)) as [t|]; [|discriminate].
  exists a, t. apply Qle_bool_iff in Ha, Ht. done.
Qed.

(** The hook on a well-formed downloading event. *)
Lemma hook_downloading d s a t :
  d !! "status" = Some (VStr "downloading") →
  to_num (downloaded_of d) = Some a → (0 <= a)%Q →
  to_num (total_of d) = Some t → (0 <= t)%Q →
  number_or_none (dget d "speed" (VInt 0)) = true →
  number_or_none (dget d "eta" (VInt 0)) = true →
  ∃ st et,
    streamlit_progress_hook d s
    = (with_page (fun w =>
         {| progress_bar :=
              if Qle_bool t 0 then progress_bar w else py_min (a / t) 1;
            percent_text :=
              if Qle_bool t 0 then percent_text w else Some (PercentOf (a / t));
            status_text := Some (StatusDownloading st);
            file_size_text :=
              Some (if Qle_bool t 0 then SizeUnknownTotal (a / MiBq)
                    else SizeOfTotal (a / MiBq) (t / MiBq) (a / t));
            eta_text := Some et |}) s, Ok tt)
    ∧ (truthy (dget d "speed" (VInt 0)) = false → st = SpeedNA)
    ∧ (truthy (dget d "eta" (VInt 0)) = false → et = EtaNA).
Proof.
  intros Hstatus Ha Ha0 Ht Ht0 Hspeed Heta.
  unfold streamlit_progress_hook, bind at 1, lift, dindex. rewrite Hstatus.
  cbn [py_eq String.eqb Ascii.eqb Bool.eqb andb].
  fold (downloaded_of d) (total_of d). unfold bind.
  destruct (Qle_bool t 0) eqn:Hle.
  - assert (Hzero : Qeq_bool t 0 = true).
    { apply Qeq_bool_iff, Qle_antisym; [by apply Qle_bool_iff|done]. }
    rewrite (report_percentage_unknown _ _ t s Ht Hle).
    destruct (report_details_ok d (downloaded_of d) (total_of d) None a t s
                Ha Ht Hspeed Heta) as (st & et & Hrun & Hst & Het).
    { rewrite (truthy_number _ _ Ht), Hzero. discriminate. }
    exists st, et. rewrite Hrun, (truthy_number _ _ Ht), Hzero. done.
  - assert (Hpos : (0 < t)%Q).
    { apply Qnot_le_lt. intros H%Qle_bool_iff. congruence. }
    rewrite (report_percentage_positive _ _ a t s Ha Ha0 Ht Hpos).
    match goal with
    | |- context [report_details d _ _ _ ?s0] =>
        destruct (report_details_ok d (downloaded_of d) (total_of d)
                    (Some (a / t)%Q) a t s0 Ha Ht Hspeed Heta)
          as (st & et & Hrun & Hst & Het); [done|]
    end.
    exists st, et. rewrite Hrun, (truthy_number _ _ Ht), (Qeq_bool_pos t Hpos).
    done.
Qed.

Lemma hook_finished d s :
  d !! "status" = Some (VStr "finished") →
  streamlit_progress_hook d s
  = (with_page (fun _ =>
       {| progress_bar := 1; percent_text := Some Percent100;
          status_text := Some StatusProcessing; file_size_text := None;
          eta_text := None |}) s, Ok tt).
Proof.
  intros Hstatus. unfold streamlit_progress_hook, bind, lift, dindex.
  rewrite Hstatus. reflexivity.
Qed.

Lemma hook_reportable d s :
  reportable d = true → (streamlit_progress_hook d s).2 = Ok tt.
Proof.
  unfold reportable, is_downloading, is_finished.
  intros [[Hd Hwf]%andb_prop|Hf]%orb_prop.
  - destruct (well_formed_fields d Hwf) as (a & t & Ha & Ha0 & Ht & Ht0 & Hs & He).
    destruct (hook_downloading d s a t (has_status_lookup _ _ Hd) Ha Ha0 Ht Ht0 Hs He)
      as (st & et & -> & _).
    reflexivity.
  - by rewrite (hook_finished d s (has_status_lookup _ _ Hf)).
Qed.

(** No sequence of reportable events makes the hook raise. *)
Lemma progress_sequence_never_raises events : ∀ s,
  forallb reportable events = true →
  (run_hooks streamlit_progress_hook events s).2 = Ok tt.
Proof.
  induction events as [|d events IH]; intros s; cbn; [done|].
  intros [Hd Hrest]%andb_prop. unfold bind.
  pose proof (hook_reportable d s Hd) as Hok.
  destruct (streamlit_progress_hook d s) as [s1 r]. cbn in Hok. subst r.
  by apply IH.
Qed.

(** X30: a downloading event whose present fields are well formed (the byte
    counters are numbers that are not negative, and the total that is read,
    [total_bytes] or else the estimate, is one too; the speed and the
    remaining time are numbers or [None]), whatever optional fields it lacks,
    never makes the browser hook raise, and neither does a sequence of such
    events.  When the total is known and positive the
    percentage [downloaded / total] is computed and shown (the bar gets it
    capped at 1); otherwise no percentage is computed, the bar and the
    percentage text stay as they were, and only the byte count is shown.  An
    absent, [None] or zero speed or remaining time is shown as "N/A".  The
    command-line hook prints the three texts of the collaborator, with "N/A"
    for each one that is absent, and does not raise either. *)
Theorem downloading_events_are_reported
    (d : pydict) (s : app_state) (cs : cli_state) :
  d !! "status" = Some (VStr "downloading") →
  well_formed d = true →
  ∃ s',
    streamlit_progress_hook d s = (s', Ok tt)
    ∧ ((0 < num (total_of d))%Q →
       progress_bar (page s')
       = py_min (num (downloaded_of d) / num (total_of d)) 1
       ∧ percent_text (page s')
         = Some (PercentOf (num (downloaded_of d) / num (total_of d)))
       ∧ file_size_text (page s')
         = Some (SizeOfTotal (num (downloaded_of d) / MiBq)
                   (num (total_of d) / MiBq)
                   (num (downloaded_of d) / num (total_of d))))
    ∧ (¬ (0 < num (total_of d))%Q →
       progress_bar (page s') = progress_bar (page s)
       ∧ percent_text (page s') = percent_text (page s)
       ∧ file_size_text (page s')
         = Some (SizeUnknownTotal (num (downloaded_of d) / MiBq)))
    ∧ (d !! "speed" = None ∨ truthy (dget d "speed" (VInt 0)) = false →
       status_text (page s') = Some (StatusDownloading SpeedNA))
    ∧ (d !! "eta" = None ∨ truthy (dget d "eta" (VInt 0)) = false →
       eta_text (page s') = Some EtaNA)
    ∧ yt_dlp_progress_hook d cs
      = (printed [OutProgress (dget d "_percent_str" (VStr "N/A"))
                    (dget d "_speed_str" (VStr "N/A"))
                    (dget d "_eta_str" (VStr "N/A"))] cs, Ok tt)
    ∧ (∀ events s0,
         forallb reportable events = true →
         (run_hooks streamlit_progress_hook events s0).2 = Ok tt).
Proof.
  intros Hstatus Hwf.
  destruct (well_formed_fields d Hwf) as (a & t & Ha & Ha0 & Ht & Ht0 & Hs & He).
  destruct (hook_downloading d s a t Hstatus Ha Ha0 Ht Ht0 Hs He)
    as (st & et & Hrun & Hst & Het).
  eexists. split; [exact Hrun|].
  unfold num. rewrite Ha, Ht. cbn [default page with_page progress_bar percent_text
    file_size_text status_text eta_text].
  split.
  { intros Hpos. by rewrite (Qle_bool_pos t Hpos). }
  split.
  { intros Hnot. assert (Hle : Qle_bool t 0 = true).
    { apply Qle_bool_iff, Qnot_lt_le, Hnot. }
    by rewrite Hle. }
  split.
  { intros Hcase. rewrite Hst; [done|].
    destruct Hcase as [Habsent|Hfalsy]; [|done]. unfold dget. by rewrite Habsent. }
  split.
  { intros Hcase. rewrite Het; [done|].
    destruct Hcase as [Habsent|Hfalsy]; [|done]. unfold dget. by rewrite Habsent. }
  split.
  { unfold yt_dlp_progress_hook, bind, lift, dindex. rewrite Hstatus. reflexivity. }
  intros events s0. apply progress_sequence_never_raises.
Qed.

Lemma downloading_events_are_reported_witness :
  ∃ s',
    streamlit_progress_hook (<["status" := VStr "downloading"]> ∅) (fresh_session ∅)
    = (s', Ok tt)
    ∧ file_size_text (page s') = Some (SizeUnknownTotal (0 / MiBq))
    ∧ status_text (page s') = Some (StatusDownloading SpeedNA)
    ∧ eta_text (page s') = Some EtaNA.
Proof.
  destruct (downloading_events_are_reported (<["status" := VStr "downloading"]> ∅)
              (fresh_session ∅) (sample_state [] ∅))
    as (s' & Hrun & _ & Hunknown & Hspeed & Heta & _).
  - reflexivity.
  - reflexivity.
  - exists s'. split; [exact Hrun|]. split.
    + apply Hunknown. discriminate.
    + split; [apply Hspeed|apply Heta]; left; reflexivity.
Defined.

(** Outside the well-formed events: a negative total is true but not positive,
    so line 308 reads [percentage] before it is bound. *)
Example negative_total_raises :
  (streamlit_progress_hook
     (<["status" := VStr "downloading"]> (<["total_bytes" := VInt (-1)]> ∅))
     (fresh_session ∅)).2
  = Raise (UnboundLocalError "percentage").
Proof. vm_compute. reflexivity. Qed.

(** C6: a downloading event whose total is unknown makes the browser hook
    raise.  The event has no [total_bytes] and its [total_bytes_estimate] is
    [None]: the total read on line 287 is [None], the comparison with 0 on
    line 289 raises [TypeError], and nothing has been shown: neither the byte
    count nor "N/A" for the absent speed and remaining time.  The same holds
    when [total_bytes] is present as [None] or as 0.  The command-line hook
    reports the same event and returns. *)
Theorem none_estimate_raises :
  let d : pydict :=
    <["status" := VStr "downloading"]> (<["total_bytes_estimate" := VNone]> ∅) in
  let run := streamlit_progress_hook d (fresh_session ∅) in
  total_of d = VNone
  ∧ run.2 = Raise TypeError
  ∧ page run.1 = page (fresh_session ∅)
  ∧ (streamlit_progress_hook (<["total_bytes" := VNone]> d) (fresh_session ∅)).2
    = Raise TypeError
  ∧ (streamlit_progress_hook (<["total_bytes" := VInt 0]> d) (fresh_session ∅)).2
    = Raise TypeError
  ∧ yt_dlp_progress_hook d (sample_state [] ∅)
    = (printed [OutProgress (VStr "N/A") (VStr "N/A") (VStr "N/A")]
         (sample_state [] ∅), Ok tt).
Proof. repeat split; vm_compute; reflexivity. Qed.

(** End-to-end scenario 3 of the specification: 5 MiB of 10 MiB is one half. *)
Example half_way_is_one_half :
  Qeq_bool
    (progress_bar (page (streamlit_progress_hook halfway (fresh_session ∅)).1))
    (1 # 2)
  = true.
Proof. vm_compute. reflexivity. Qed.

End Progress.

(** ** Further properties of the catalog builder *)

Section CatalogErrors.

Import Downloader.

Lemma filesize_str_raises v e : filesize_str v = Raise e → e = TypeError.
Proof.
  unfold filesize_str, py_truediv. destruct (truthy v); [|discriminate].
  destruct (to_num v) as [q|]; cbn; [discriminate|]. by intros [= <-].
Qed.

Lemma duration_str_raises py duration e :
  duration_str py duration = Raise e → is_Exception e = true.
Proof.
  unfold duration_str. destruct (truthy duration); [|discriminate].
  destruct (to_num duration) as [t|]; [|by intros [= <-]].
  destruct (fromtimestamp_ok py t); [discriminate|by intros [= <-]].
Qed.

Lemma format_step_bad_size acc f :
  filesize_ok f = false → format_step acc f = Raise TypeError.
Proof.
  unfold filesize_ok, format_step. intros Hbad.
  destruct (filesize_str (dget f "filesize" VNone)) as [t|e] eqn:Hsize;
    [discriminate|].
  by rewrite (filesize_str_raises _ _ Hsize).
Qed.

Lemma for_each_format_step_raises raw : ∀ acc,
  forallb filesize_ok raw = false →
  for_each format_step acc raw = Raise TypeError.
Proof.
  induction raw as [|f raw IH]; intros acc; cbn; [discriminate|].
  destruct (filesize_ok f) eqn:Hf; cbn.
  - intros Hraw. rewrite (format_step_entry acc f Hf). cbn. by apply IH.
  - intros _. by rewrite (format_step_bad_size acc f Hf).
Qed.

(** X1: [get_available_formats] returns [None] when the collaborator raises
    an ordinary exception, and also when one descriptor of the list has a size
    that is true but not a number, even a descriptor that the filter would
    have left out: the size is turned into text before the filter is
    applied, so the whole catalog is lost. *)
Theorem bad_size_loses_the_catalog
    (py : interpreter) (extract : string → result video_info) (url : string) :
  (∃ e, extract url = Raise e ∧ is_Exception e = true)
  ∨ (∃ info f,
       extract url = Ok info ∧ In f (info_formats info)
       ∧ filesize_ok f = false) →
  get_available_formats py extract url = Ok None.
Proof.
  unfold get_available_formats.
  intros [(e & -> & He)|(info & f & -> & Hin & Hbad)]; cbn.
  - by rewrite He.
  - destruct (duration_str py (info_duration info)) as [t|e] eqn:Hd; cbn.
    + rewrite for_each_format_step_raises; [reflexivity|].
      destruct (forallb filesize_ok (info_formats info)) eqn:Hall; [|done].
      rewrite forallb_forall in Hall. rewrite (Hall f Hin) in Hbad. done.
    + by rewrite (duration_str_raises py _ e Hd).
Qed.

Lemma bad_size_loses_the_catalog_witness :
  kept (<["filesize" := VStr "large"]> storyboard) = false
  ∧ get_available_formats cpython_ascii
      (fun _ =>
         Ok {| info_title := Some "Song"; info_duration := VInt 215;
               info_formats :=
                 [avc_mp4; <["filesize" := VStr "large"]> storyboard] |})
      "https://youtu.be/a"
    = Ok None.
Proof.
  split; [reflexivity|].
  apply (bad_size_loses_the_catalog cpython_ascii
           (fun _ =>
              Ok {| info_title := Some "Song"; info_duration := VInt 215;
                    info_formats :=
                      [avc_mp4; <["filesize" := VStr "large"]> storyboard] |})
           "https://youtu.be/a").
  right. eexists _, (<["filesize" := VStr "large"]> storyboard).
  split; [reflexivity|]. split; [right; left; reflexivity|reflexivity].
Defined.

End CatalogErrors.

(** ** File names *)

Section FileNames.

Import Downloader.

Lemma contains_char_cons c a s :
  contains (String c "") (String a s)
  = Ascii.eqb c a || contains (String c "") s.
Proof. cbn. by rewrite andb_true_r. Qed.

Lemma replace_char_removes c d s :
  c ≠ d → contains (String c "") (replace_char c d s) = false.
Proof.
  intros Hcd. induction s as [|a s IH]; [reflexivity|].
  cbn [replace_char]. rewrite contains_char_cons, IH, orb_false_r.
  destruct (Ascii.eqb_spec a c) as [->|Hac].
  - by apply Ascii.eqb_neq.
  - apply Ascii.eqb_neq. congruence.
Qed.

Lemma replace_char_keeps_out c e d s :
  c ≠ d →
  contains (String c "") s = false →
  contains (String c "") (replace_char e d s) = false.
Proof.
  intros Hcd. induction s as [|a s IH]; [reflexivity|].
  cbn [replace_char]. rewrite !contains_char_cons.
  intros [Ha Hs]%orb_false_elim. rewrite (IH Hs), orb_false_r.
  destruct (Ascii.eqb a e); [by apply Ascii.eqb_neq|done].
Qed.

Lemma replace_char_length c d s :
  String.length (replace_char c d s) = String.length s.
Proof. induction s as [|a s IH]; cbn; [done|]. by rewrite IH. Qed.

Lemma starts_with_slash_append t ext :
  contains "/" t = false →
  starts_with "/" ext = false →
  starts_with "/" (t +:+ ext) = false.
Proof.
  destruct t as [|a t]; [done|]. intros Ht _.
  change "/" with (String "/" "") in Ht. rewrite contains_char_cons in Ht.
  apply orb_false_elim in Ht as [Ha _].
  change (String a t +:+ ext) with (String a (t +:+ ext)).
  change (starts_with "/" (String a (t +:+ ext)))
    with (Ascii.eqb "/" a && starts_with "" (t +:+ ext)).
  by rewrite Ha.
Qed.

Lemma path_join_relative a b :
  starts_with "/" b = false →
  ∃ sep, (sep = "" ∨ sep = "/") ∧ path_join a b = a +:+ sep +:+ b.
Proof.
  intros Hb. unfold path_join. rewrite Hb.
  destruct (String.eqb_spec a "") as [->|Ha]; [exists ""; auto|].
  destruct (String.eqb (substring (String.length a - 1) 1 a) "/").
  - exists "". auto.
  - exists "/". auto.
Qed.

(** X2: the title used for the file name has no [/] and no backslash left and
    has the length of the original title.  Where [os.path.join] is
    [posixpath.join] (every platform but Windows), the candidate path built
    from it is the output directory followed by the file name, with one [/]
    between them when the directory is not empty and does not already end
    with one: there a title cannot move the file out of the output
    directory. *)
Theorem title_cannot_leave_the_output_directory
    (info : video_info) (output_path ext : string) :
  starts_with "/" ext = false →
  contains "/" (sanitized_title info) = false
  ∧ contains "\" (sanitized_title info) = false
  ∧ String.length (sanitized_title info)
    = String.length (default "video" (info_title info))
  ∧ ∃ sep,
      (sep = "" ∨ sep = "/")
      ∧ path_join output_path (sanitized_title info +:+ ext)
        = output_path +:+ sep +:+ sanitized_title info +:+ ext.
Proof.
  intros Hext. unfold sanitized_title.
  assert (Hslash : contains "/"
            (replace_char "\" "_"
               (replace_char "/" "_" (default "video" (info_title info)))) = false).
  { apply (replace_char_keeps_out "/" "\" "_"); [discriminate|].
    apply (replace_char_removes "/" "_"). discriminate. }
  split; [exact Hslash|]. split.
  { apply (replace_char_removes "\" "_"). discriminate. }
  split; [by rewrite !replace_char_length|].
  apply path_join_relative. by apply starts_with_slash_append.
Qed.

Lemma title_cannot_leave_the_output_directory_witness :
  contains "/"
    (sanitized_title {| info_title := Some "/etc/passwd"; info_duration := VNone;
                info_formats := [] |})
  = false
  ∧ ∃ sep,
      (sep = "" ∨ sep = "/")
      ∧ path_join "/dl"
          (sanitized_title
             {| info_title := Some "/etc/passwd"; info_duration := VNone;
                info_formats := [] |}
           +:+ ".mp4")
        = "/dl" +:+ sep
          +:+ sanitized_title
                {| info_title := Some "/etc/passwd"; info_duration := VNone;
                info_formats := [] |}
          +:+ ".mp4".
Proof.
  destruct (title_cannot_leave_the_output_directory
              {| info_title := Some "/etc/passwd"; info_duration := VNone;
                info_formats := [] |}
              "/dl" ".mp4") as (Hslash & _ & _ & Hpath).
  - reflexivity.
  - split; [exact Hslash|exact Hpath].
Defined.

End FileNames.

(** ** The table and the two resolvers *)

Section TableAndResolvers.

Import Downloader.









End TableAndResolvers.

(** ** The answers to the collision question on the command line *)

Section Answers.

Import Downloader.

(** What the handler of [download_with_yt_dlp] leaves after the download was
    started with [opts]. *)
Lemma handled_report_calls env opts url video_title output_path s :
  ∃ s' b,
    try_except is_Exception
      (download_and_report env opts url video_title output_path)
      (fun e => print (OutError e) ;; ret false) s = (s', b)
    ∧ calls s' = calls s ++ [(url, opts)]
    ∧ stdin s' = stdin s.
Proof.
  unfold try_except.
  pose proof (download_and_report_calls env opts url video_title output_path s)
    as (Hc & Hi & _).
  destruct (download_and_report env opts url video_title output_path s)
    as [s1 [b|e]]; cbn [fst] in *.
  - eauto.
  - destruct (is_Exception e); cbn; eauto.
Qed.

Lemma download_format_yes env url output_path format_id s info mp3 response rest :
  extract_info env url = Ok info →
  mp3_requested format_id = Ok mp3 →
  path_exists (fs s) (path_join output_path (sanitized_title info +:+ ".mp4")) = true →
  stdin s = response :: rest →
  String.eqb (lower response) "y" = true →
  download_format env url output_path format_id false s
  = download_and_report env
      (<["overwrites" := OBool true]>
         (add_extract_audio mp3 "192" (base_opts output_path format_id false)))
      url (sanitized_title info) output_path
      {| stdin := rest;
         stdout := stdout s ++
           [OutDownloadingWith format_id;
            OutOptions format_id output_path false;
            OutFileExists (path_join output_path (sanitized_title info +:+ ".mp4"))];
         fs := fs s; clock := clock s; calls := calls s |}.
Proof.
  intros Hinfo Hmp3 Hexists Hin Hy.
  unfold download_format, bind, print, modify, lift, gets, input.
  rewrite Hinfo, Hmp3. cbn -[path_join base_opts add_extract_audio insert].
  rewrite Hexists, Hin.
  cbn -[path_join base_opts add_extract_audio insert]. rewrite Hy.
  rewrite <- !app_assoc. reflexivity.
Qed.

Lemma download_format_rename env url output_path format_id s info mp3 response rest :
  extract_info env url = Ok info →
  mp3_requested format_id = Ok mp3 →
  path_exists (fs s) (path_join output_path (sanitized_title info +:+ ".mp4")) = true →
  stdin s = response :: rest →
  String.eqb (lower response) "y" = false →
  String.eqb (lower response) "r" = true →
  download_format env url output_path format_id false s
  = download_and_report env
      (<["outtmpl" :=
           OStr (path_join output_path
                   ("%(title)s_" +:+ pretty (clock s) +:+ ".%(ext)s"))]>
         (add_extract_audio mp3 "192" (base_opts output_path format_id false)))
      url (sanitized_title info) output_path
      {| stdin := rest;
         stdout := stdout s ++
           [OutDownloadingWith format_id;
            OutOptions format_id output_path false;
            OutFileExists (path_join output_path (sanitized_title info +:+ ".mp4"));
            OutNewName (clock s)];
         fs := fs s; clock := clock s; calls := calls s |}.
Proof.
  intros Hinfo Hmp3 Hexists Hin Hy Hr.
  unfold download_format, bind, print, modify, lift, gets, input.
  rewrite Hinfo, Hmp3. cbn -[path_join base_opts add_extract_audio insert pretty].
  rewrite Hexists, Hin.
  cbn -[path_join base_opts add_extract_audio insert pretty]. rewrite Hy, Hr.
  cbn -[path_join base_opts add_extract_audio insert pretty].
  rewrite <- !app_assoc. reflexivity.
Qed.

Lemma overwrites_after_yes mp3 output_path format_id :
  overwrites
    (<["overwrites" := OBool true]>
       (add_extract_audio mp3 "192" (base_opts output_path format_id false)))
  = true
  ∧ (<["overwrites" := OBool true]>
       (add_extract_audio mp3 "192" (base_opts output_path format_id false)))
    !! "outtmpl"
    = Some (OStr (path_join output_path "%(title)s.%(ext)s")).
Proof. destruct mp3; split; reflexivity. Qed.

Lemma options_after_rename mp3 output_path format_id renamed :
  overwrites
    (<["outtmpl" := OStr renamed]>
       (add_extract_audio mp3 "192" (base_opts output_path format_id false)))
  = false
  ∧ (<["outtmpl" := OStr renamed]>
       (add_extract_audio mp3 "192" (base_opts output_path format_id false)))
    !! "outtmpl"
    = Some (OStr renamed).
Proof. destruct mp3; split; reflexivity. Qed.

(** X5: on the command line, when the target exists, [--force] is not given
    and the answer is [y] in either case, the collaborator is called once,
    with [overwrites] set and the file name unchanged, and only the answer has
    been read from the keyboard. *)
Theorem answer_yes_overwrites
    (env : environment) (url output_path : string) (format_id : pyval)
    (auto_best : bool) (s0 s : cli_state) (fid : pyval) (mp3 : bool)
    (info : video_info) (response : string) (rest : list string) :
  extract_info env url = Ok info →
  format_known env url format_id auto_best s0 fid s →
  mp3_requested fid = Ok mp3 →
  path_exists (fs s) (path_join output_path (sanitized_title info +:+ ".mp4")) = true →
  stdin s = response :: rest →
  String.eqb (lower response) "y" = true →
  ∃ s' b opts,
    download_with_yt_dlp env url output_path format_id auto_best false s0 = (s', b)
    ∧ calls s' = calls s0 ++ [(url, opts)]
    ∧ overwrites opts = true
    ∧ opts !! "outtmpl" = Some (OStr (path_join output_path "%(title)s.%(ext)s"))
    ∧ stdin s' = rest.
Proof.
  intros Hinfo Hknown Hmp3 Hexists Hin Hy.
  destruct (format_known_no_call _ _ _ _ _ _ _ Hknown) as (_ & _ & Hcalls).
  rewrite (download_with_yt_dlp_known env url output_path _ _ false s0 fid s Hknown).
  unfold try_except at 1.
  rewrite (download_format_yes env url output_path fid s info mp3 response rest)
    by done.
  match goal with
  | |- context [download_and_report env ?o url ?t output_path ?s1] =>
      destruct (handled_report_calls env o url t output_path s1)
        as (s' & b & Hrun & Hc & Hi)
  end.
  unfold try_except in Hrun. rewrite Hrun.
  destruct (overwrites_after_yes mp3 output_path fid) as [Ho Ht].
  eexists s', b, _. split; [reflexivity|]. cbn in Hc, Hi.
  rewrite Hc, Hi, Hcalls. done.
Qed.

Lemma answer_yes_overwrites_witness :
  ∃ s' b opts,
    download_with_yt_dlp (sample_env "/dl/Song A.mp4") "https://youtu.be/a" "/dl"
      VNone true false (sample_state ["Y"] (<["/dl/Song A.mp4" := 1]> ∅))
    = (s', b)
    ∧ calls s' = [] ++ [("https://youtu.be/a", opts)]
    ∧ overwrites opts = true.
Proof.
  destruct (answer_yes_overwrites (sample_env "/dl/Song A.mp4")
              "https://youtu.be/a" "/dl" VNone true
              (sample_state ["Y"] (<["/dl/Song A.mp4" := 1]> ∅))
              (sample_state ["Y"] (<["/dl/Song A.mp4" := 1]> ∅))
              best_combined false song_a "Y" [])
    as (s' & b & opts & Hrun & Hc & Ho & _).
  - reflexivity.
  - left. done.
  - reflexivity.
  - vm_compute. reflexivity.
  - reflexivity.
  - reflexivity.
  - exists s', b, opts. done.
Defined.

(** X6: when the answer is [r] in either case, the collaborator is called
    once, under a file-name template that carries the clock reading in
    seconds between the title and the extension; [overwrites] is not set. *)
Theorem answer_rename_adds_the_timestamp
    (env : environment) (url output_path : string) (format_id : pyval)
    (auto_best : bool) (s0 s : cli_state) (fid : pyval) (mp3 : bool)
    (info : video_info) (response : string) (rest : list string) :
  extract_info env url = Ok info →
  format_known env url format_id auto_best s0 fid s →
  mp3_requested fid = Ok mp3 →
  path_exists (fs s) (path_join output_path (sanitized_title info +:+ ".mp4")) = true →
  stdin s = response :: rest →
  String.eqb (lower response) "r" = true →
  ∃ s' b opts,
    download_with_yt_dlp env url output_path format_id auto_best false s0 = (s', b)
    ∧ calls s' = calls s0 ++ [(url, opts)]
    ∧ overwrites opts = false
    ∧ opts !! "outtmpl"
      = Some (OStr (path_join output_path
                      ("%(title)s_" +:+ pretty (clock s0) +:+ ".%(ext)s")))
    ∧ stdin s' = rest.
Proof.
  intros Hinfo Hknown Hmp3 Hexists Hin Hr.
  assert (Hy : String.eqb (lower response) "y" = false).
  { apply String.eqb_eq in Hr. rewrite Hr. reflexivity. }
  destruct (format_known_no_call _ _ _ _ _ _ _ Hknown) as (_ & Hclock & Hcalls).
  rewrite (download_with_yt_dlp_known env url output_path _ _ false s0 fid s Hknown).
  unfold try_except at 1.
  rewrite (download_format_rename env url output_path fid s info mp3 response rest)
    by done.
  match goal with
  | |- context [download_and_report env ?o url ?t output_path ?s1] =>
      destruct (handled_report_calls env o url t output_path s1)
        as (s' & b & Hrun & Hc & Hi)
  end.
  unfold try_except in Hrun. rewrite Hrun.
  destruct (options_after_rename mp3 output_path fid
              (path_join output_path
                 ("%(title)s_" +:+ pretty (clock s) +:+ ".%(ext)s")))
    as [Ho Ht].
  eexists s', b, _. split; [reflexivity|]. cbn in Hc, Hi.
  rewrite Hc, Hi, Hcalls, <- Hclock. done.
Qed.

Lemma answer_rename_adds_the_timestamp_witness :
  ∃ s' b opts,
    download_with_yt_dlp (sample_env "/dl/Song A.mp4") "https://youtu.be/a" "/dl"
      VNone true false (sample_state ["r"] (<["/dl/Song A.mp4" := 1]> ∅))
    = (s', b)
    ∧ opts !! "outtmpl" = Some (OStr "/dl/%(title)s_1700000000.%(ext)s")
    ∧ calls s' = [] ++ [("https://youtu.be/a", opts)].
Proof.
  destruct (answer_rename_adds_the_timestamp (sample_env "/dl/Song A.mp4")
              "https://youtu.be/a" "/dl" VNone true
              (sample_state ["r"] (<["/dl/Song A.mp4" := 1]> ∅))
              (sample_state ["r"] (<["/dl/Song A.mp4" := 1]> ∅))
              best_combined false song_a "r" [])
    as (s' & b & opts & Hrun & Hc & _ & Ht & _).
  - reflexivity.
  - left. done.
  - reflexivity.
  - vm_compute. reflexivity.
  - reflexivity.
  - reflexivity.
  - exists s', b, opts. split; [exact Hrun|]. split; [|exact Hc].
    rewrite Ht. reflexivity.
Defined.

(** X7: with [--force] nothing is asked, whether or not the target exists: the
    collaborator is called once with [overwrites] set and the file name
    unchanged, and the keyboard is not read after the format is known. *)
Theorem force_never_asks
    (env : environment) (url output_path : string) (format_id : pyval)
    (auto_best : bool) (s0 s : cli_state) (fid : pyval) (mp3 : bool)
    (info : video_info) :
  extract_info env url = Ok info →
  format_known env url format_id auto_best s0 fid s →
  mp3_requested fid = Ok mp3 →
  ∃ s' b opts,
    download_with_yt_dlp env url output_path format_id auto_best true s0 = (s', b)
    ∧ calls s' = calls s0 ++ [(url, opts)]
    ∧ overwrites opts = true
    ∧ opts !! "outtmpl" = Some (OStr (path_join output_path "%(title)s.%(ext)s"))
    ∧ stdin s' = stdin s.
Proof.
  intros Hinfo Hknown Hmp3.
  destruct (format_known_no_call _ _ _ _ _ _ _ Hknown) as (_ & _ & Hcalls).
  rewrite (download_with_yt_dlp_known env url output_path _ _ true s0 fid s Hknown).
  unfold try_except at 1.
  rewrite (download_format_proceeds env url output_path fid true s info mp3)
    by (try apply andb_false_r; done).
  match goal with
  | |- context [download_and_report env ?o url ?t output_path ?s1] =>
      destruct (handled_report_calls env o url t output_path s1)
        as (s' & b & Hrun & Hc & Hi)
  end.
  unfold try_except in Hrun. rewrite Hrun.
  exists s', b, (add_extract_audio mp3 "192" (base_opts output_path fid true)).
  split; [reflexivity|]. cbn in Hc, Hi.
  rewrite Hc, Hi, Hcalls, base_opts_overwrites, base_opts_outtmpl. done.
Qed.

Lemma force_never_asks_witness :
  ∃ s' b opts,
    download_with_yt_dlp (sample_env "/dl/Song A.mp4") "https://youtu.be/a" "/dl"
      VNone true true (sample_state ["n"] (<["/dl/Song A.mp4" := 1]> ∅))
    = (s', b)
    ∧ overwrites opts = true
    ∧ stdin s' = ["n"].
Proof.
  destruct (force_never_asks (sample_env "/dl/Song A.mp4")
              "https://youtu.be/a" "/dl" VNone true
              (sample_state ["n"] (<["/dl/Song A.mp4" := 1]> ∅))
              (sample_state ["n"] (<["/dl/Song A.mp4" := 1]> ∅))
              best_combined false song_a)
    as (s' & b & opts & Hrun & _ & Ho & _ & Hin).
  - reflexivity.
  - left. done.
  - reflexivity.
  - exists s', b, opts. done.
Defined.

Lemma download_format_end_of_input env url output_path format_id s info mp3 :
  extract_info env url = Ok info →
  mp3_requested format_id = Ok mp3 →
  path_exists (fs s) (path_join output_path (sanitized_title info +:+ ".mp4")) = true →
  stdin s = [] →
  download_format env url output_path format_id false s
  = ({| stdin := [];
        stdout := stdout s ++
          [OutDownloadingWith format_id;
           OutOptions format_id output_path false;
           OutFileExists (path_join output_path (sanitized_title info +:+ ".mp4"))];
        fs := fs s; clock := clock s; calls := calls s |},
     Raise EOFError).
Proof.
  intros Hinfo Hmp3 Hexists Hin.
  unfold download_format, bind, print, modify, lift, gets, input.
  rewrite Hinfo, Hmp3. cbn -[path_join base_opts add_extract_audio insert].
  rewrite Hexists, Hin.
  cbn -[path_join base_opts add_extract_audio insert].
  rewrite <- !app_assoc. reflexivity.
Qed.

(** X8: when the target exists, [--force] is not given and the keyboard is at
    its end when the question is asked, the call reports [EOFError] and
    returns [False]; the collaborator is not called and no file is touched. *)
Theorem end_of_input_at_the_question_fails
    (env : environment) (url output_path : string) (format_id : pyval)
    (auto_best : bool) (s0 s : cli_state) (fid : pyval) (mp3 : bool)
    (info : video_info) :
  extract_info env url = Ok info →
  format_known env url format_id auto_best s0 fid s →
  mp3_requested fid = Ok mp3 →
  path_exists (fs s) (path_join output_path (sanitized_title info +:+ ".mp4")) = true →
  stdin s = [] →
  ∃ s',
    download_with_yt_dlp env url output_path format_id auto_best false s0
    = (s', Ok false)
    ∧ calls s' = calls s0
    ∧ fs s' = fs s0
    ∧ last (stdout s') = Some (OutError EOFError).
Proof.
  intros Hinfo Hknown Hmp3 Hexists Hin.
  destruct (format_known_no_call _ _ _ _ _ _ _ Hknown) as (Hfs & _ & Hcalls).
  rewrite (download_with_yt_dlp_known env url output_path _ _ false s0 fid s Hknown).
  unfold try_except.
  rewrite (download_format_end_of_input env url output_path fid s info mp3) by done.
  cbn [is_Exception]. eexists. split; [reflexivity|]. cbn.
  split; [done|]. split; [done|]. by rewrite last_app.
Qed.

Lemma end_of_input_at_the_question_fails_witness :
  ∃ s',
    download_with_yt_dlp (sample_env "/dl/Song A.mp4") "https://youtu.be/a" "/dl"
      VNone true false (sample_state [] (<["/dl/Song A.mp4" := 1]> ∅))
    = (s', Ok false)
    ∧ calls s' = [].
Proof.
  destruct (end_of_input_at_the_question_fails (sample_env "/dl/Song A.mp4")
              "https://youtu.be/a" "/dl" VNone true
              (sample_state [] (<["/dl/Song A.mp4" := 1]> ∅))
              (sample_state [] (<["/dl/Song A.mp4" := 1]> ∅))
              best_combined false song_a)
    as (s' & Hrun & Hc & _).
  - reflexivity.
  - left. done.
  - reflexivity.
  - vm_compute. reflexivity.
  - reflexivity.
  - exists s'. done.
Defined.

(** X9: when the collaborator cannot resolve the URL, the call returns
    [False] whatever the other arguments are; the collaborator's download is
    not called, no file is touched and the keyboard is not read. *)
Theorem unresolved_url_fails
    (env : environment) (url output_path : string) (format_id : pyval)
    (auto_best force : bool) (s0 : cli_state) (e : exn) :
  extract_info env url = Raise e →
  is_Exception e = true →
  ∃ s',
    download_with_yt_dlp env url output_path format_id auto_best force s0
    = (s', Ok false)
    ∧ calls s' = calls s0
    ∧ fs s' = fs s0
    ∧ stdin s' = stdin s0.
Proof.
  intros Hex He.
  assert (Hfmt : ∀ fid,
    try_except is_Exception (download_format env url output_path fid force)
      (fun e => print (OutError e) ;; ret false) s0
    = (printed [OutDownloadingWith fid; OutError e] s0, Ok false)).
  { intros fid. unfold try_except, download_format, bind, print, modify, lift.
    rewrite Hex. cbn. rewrite He. unfold printed. cbn.
    by rewrite <- app_assoc. }
  unfold download_with_yt_dlp. destruct auto_best.
  - rewrite Hfmt. eauto.
  - destruct (truthy format_id); cbn [negb].
    + rewrite Hfmt. eauto.
    + unfold try_except, bind, lift, get_available_formats.
      rewrite Hex. cbn. rewrite He. cbn. eauto.
Qed.

Lemma unresolved_url_fails_witness :
  ∃ s',
    download_with_yt_dlp (sample_env "/dl/x") "https://youtu.be/gone" "/dl"
      VNone false false (sample_state ["0"] ∅)
    = (s', Ok false)
    ∧ stdin s' = ["0"].
Proof.
  destruct (unresolved_url_fails (sample_env "/dl/x") "https://youtu.be/gone"
              "/dl" VNone false false (sample_state ["0"] ∅)
              (DownloadError "Video unavailable"))
    as (s' & Hrun & _ & _ & Hin).
  - reflexivity.
  - reflexivity.
  - exists s'. done.
Defined.

End Answers.

(** ** What the command line never lets out *)

Section Containment.

Import Downloader.

Lemma contained_bind {S A B} (m : M S A) (k : A → M S B) :
  contained m → (∀ a, contained (k a)) → contained (bind m k).
Proof.
  intros Hm Hk s s' e. unfold bind.
  destruct (m s) as [s1 [a|e1]] eqn:Hms.
  - apply Hk.
  - intros [= <- <-]. by apply (Hm s s1).
Qed.

Lemma contained_ret {S A} (a : A) : contained (ret (S:=S) a).
Proof. by intros s s' e. Qed.

Lemma contained_lift {S A} (r : result A) : ordinary r → contained (lift (S:=S) r).
Proof. intros Hr s s' e [= _ ->]. by apply Hr. Qed.

Lemma contained_gets {S A} (f : S → A) : contained (gets f).
Proof. by intros s s' e. Qed.

Lemma contained_modify {S} (f : S → S) : contained (modify f).
Proof. by intros s s' e. Qed.

Lemma contained_print e : contained (print e).
Proof. apply contained_modify. Qed.

Lemma contained_input : contained input.
Proof.
  intros s s' e. unfold input. destruct (stdin s); [|discriminate].
  by intros [= _ <-].
Qed.

Lemma contained_try_except {S A} catches (m : M S A) h :
  contained m → (∀ e, contained (h e)) → contained (try_except catches m h).
Proof.
  intros Hm Hh s s' e. unfold try_except.
  destruct (m s) as [s1 [a|e1]] eqn:Hms; [discriminate|].
  destruct (catches e1).
  - apply Hh.
  - intros [= <- <-]. by apply (Hm s s1).
Qed.

(** [try: ... except Exception: ...] around a contained body, with a handler
    that returns, returns. *)
Lemma returns_try_except {S A} (m : M S A) h :
  contained m → (∀ e, returns (h e)) → returns (try_except is_Exception m h).
Proof.
  intros Hm Hh s. unfold try_except.
  destruct (m s) as [s1 [a|e]] eqn:Hms; [eauto|].
  rewrite (Hm s s1 e Hms). apply Hh.
Qed.

Lemma ordinary_Ok {A} (a : A) : ordinary (Ok a).
Proof. by intros e. Qed.

Lemma ordinary_py_int py s : ordinary (py_int py s).
Proof. by intros e ->%py_int_raises. Qed.

Lemma ordinary_list_index {A} (l : list A) i : ordinary (list_index l i).
Proof. intros e. unfold list_index. destruct (l !! Z.to_nat i); by intros [= <-]. Qed.

Lemma ordinary_dindex d k : ordinary (dindex d k).
Proof. intros e. unfold dindex. destruct (d !! k); by intros [= <-]. Qed.

Lemma ordinary_py_in sub v : ordinary (py_in sub v).
Proof. intros e. destruct v; cbn; by intros [= <-]. Qed.

Lemma ordinary_mp3_requested format_id : ordinary (mp3_requested format_id).
Proof.
  intros e. unfold mp3_requested. destruct (truthy format_id); [|discriminate].
  destruct format_id; cbn; try by intros [= <-].
  destruct (contains "bestaudio" s); discriminate.
Qed.

Lemma ordinary_video_row i fmt : ordinary (video_row i fmt).
Proof.
  intros e. unfold video_row.
  destruct (format_id fmt), (resolution fmt), (fps fmt), (ext fmt); cbn;
    by intros [= <-].
Qed.

Lemma ordinary_audio_row i fmt : ordinary (audio_row i fmt).
Proof.
  intros e. unfold audio_row.
  destruct (format_id fmt), (ext fmt); cbn; by intros [= <-].
Qed.

(** Under a law-abiding collaborator [get_available_formats] returns. *)
Lemma ordinary_get_available_formats env url :
  law_abiding env →
  ordinary (get_available_formats (python env) (extract_info env) url).
Proof.
  intros [Hex _] e. unfold get_available_formats.
  destruct (extract_info env url) as [info|e1] eqn:Hinfo; cbn.
  - destruct (duration_str (python env) (info_duration info)) as [t|e2] eqn:Hd;
      cbn.
    + destruct (forallb filesize_ok (info_formats info)) eqn:Hok.
      * rewrite for_each_format_step by done. discriminate.
      * rewrite for_each_format_step_raises by done. discriminate.
    + rewrite (duration_str_raises _ _ _ Hd). discriminate.
  - rewrite (Hex url e1 Hinfo). discriminate.
Qed.

Ltac contained :=
  repeat first
    [ apply contained_ret
    | apply contained_print
    | apply contained_input
    | apply contained_gets
    | apply contained_modify
    | apply contained_lift;
      first [ apply ordinary_Ok | apply ordinary_py_int | apply ordinary_list_index
            | apply ordinary_dindex | apply ordinary_mp3_requested
            | apply ordinary_video_row | apply ordinary_audio_row ]
    | apply contained_bind; [|intros ?]
    | apply contained_try_except; [|intros ?]
    | match goal with
      | |- contained (if ?b then _ else _) => destruct b
      | |- contained (match ?x with _ => _ end) => destruct x
      end ].

Lemma contained_hook d : contained (yt_dlp_progress_hook d).
Proof. unfold yt_dlp_progress_hook. contained. Qed.

Lemma contained_run_hooks events : contained (run_hooks yt_dlp_progress_hook events).
Proof.
  induction events as [|d events IH]; cbn; [apply contained_ret|].
  apply contained_bind; [apply contained_hook|by intros _].
Qed.

Lemma contained_download_and_report env opts url video_title output_path :
  law_abiding env →
  contained (download_and_report env opts url video_title output_path).
Proof.
  intros [_ Hrun]. unfold download_and_report, ydl_download, record_call, set_fs.
  apply contained_bind; [|intros info; contained].
  apply contained_bind; [apply contained_modify|intros _].
  apply contained_bind; [apply contained_gets|intros before].
  apply contained_bind; [apply contained_run_hooks|intros _].
  apply contained_bind; [apply contained_modify|intros _].
  apply contained_lift. intros e. apply Hrun.
Qed.

Lemma contained_download_format env url output_path format_id force :
  law_abiding env →
  contained (download_format env url output_path format_id force).
Proof.
  intros Hlaw. pose proof Hlaw as [Hex _]. unfold download_format.
  apply contained_bind; [apply contained_print|intros _].
  apply contained_bind; [apply contained_lift; intros e; apply Hex|intros info].
  apply contained_bind; [apply contained_gets|intros timestamp].
  apply contained_bind;
    [apply contained_lift, ordinary_mp3_requested|intros mp3].
  apply contained_bind; [apply contained_print|intros _].
  apply contained_bind; [apply contained_gets|intros existing].
  destruct (existing && negb force);
    [|by apply contained_download_and_report].
  apply contained_bind; [apply contained_print|intros _].
  apply contained_bind; [apply contained_input|intros response].
  destruct (String.eqb (lower response) "y");
    [by apply contained_download_and_report|].
  destruct (String.eqb (lower response) "r"); [|contained].
  apply contained_bind; [apply contained_print|intros _].
  by apply contained_download_and_report.
Qed.

Lemma contained_print_rows_video offset l : contained (print_rows video_row offset l).
Proof.
  revert offset. induction l as [|fmt l IH]; intros offset; cbn;
    [apply contained_ret|].
  apply contained_bind; [apply contained_lift, ordinary_video_row|intros r].
  apply contained_bind; [apply contained_print|intros _]. apply IH.
Qed.

Lemma contained_print_rows_audio offset l : contained (print_rows audio_row offset l).
Proof.
  revert offset. induction l as [|fmt l IH]; intros offset; cbn;
    [apply contained_ret|].
  apply contained_bind; [apply contained_lift, ordinary_audio_row|intros r].
  apply contained_bind; [apply contained_print|intros _]. apply IH.
Qed.

Lemma contained_display py formats_info :
  contained (display_formats_and_select py formats_info).
Proof.
  unfold display_formats_and_select. destruct formats_info as [info|];
    [|apply contained_ret].
  destruct (partition_formats (formats info)) as [video_formats audio_formats].
  apply contained_bind; [apply contained_print|intros _].
  apply contained_bind; [apply contained_print_rows_video|intros _].
  apply contained_bind; [apply contained_print_rows_audio|intros _].
  apply contained_bind; [apply contained_print|intros _].
  apply contained_bind; [apply contained_print|intros _].
  unfold select_format. contained.
Qed.

Lemma returns_download_with_yt_dlp env url output_path format_id auto_best force :
  law_abiding env →
  returns (download_with_yt_dlp env url output_path format_id auto_best force).
Proof.
  intros Hlaw. unfold download_with_yt_dlp.
  apply returns_try_except.
  - destruct auto_best; [by apply contained_download_format|].
    destruct (negb (truthy format_id)); [|by apply contained_download_format].
    apply contained_bind;
      [by apply contained_lift, ordinary_get_available_formats|].
    intros [cat|]; [|contained].
    apply contained_bind; [apply contained_display|intros fid].
    by apply contained_download_format.
  - intros e s1. unfold bind, print, modify, ret. eauto.
Qed.

(** X10: with collaborators that raise nothing but ordinary exceptions,
    [download_with_yt_dlp] never lets an exception out: whatever the
    arguments, the keyboard and the files, it returns [True] or [False]. *)
Theorem download_with_yt_dlp_always_returns
    (env : environment) (url output_path : string) (format_id : pyval)
    (auto_best force : bool) (s : cli_state) :
  law_abiding env →
  ∃ s' b,
    download_with_yt_dlp env url output_path format_id auto_best force s
    = (s', Ok b).
Proof.
  intros Hlaw.
  exact (returns_download_with_yt_dlp env url output_path format_id auto_best
           force Hlaw s).
Qed.

Lemma sample_env_law_abiding name : law_abiding (sample_env name).
Proof.
  split.
  - intros url e. cbn. unfold sample_extract.
    destruct (String.eqb url "https://youtu.be/a"); [discriminate|].
    destruct (String.eqb url "https://youtu.be/b"); [discriminate|].
    by intros [= <-].
  - intros opts url files e. discriminate.
Qed.

Lemma download_with_yt_dlp_always_returns_witness :
  ∃ s' b,
    download_with_yt_dlp (sample_env "/dl/x") "https://youtu.be/gone" "/dl"
      VNone false false (sample_state [] ∅)
    = (s', Ok b).
Proof.
  apply (download_with_yt_dlp_always_returns (sample_env "/dl/x")
           "https://youtu.be/gone" "/dl" VNone false false (sample_state [] ∅)).
  apply sample_env_law_abiding.
Defined.

(** The loop of [main] under a law-abiding collaborator. *)
Lemma process_urls_returns env args output_dir urls : ∀ n s,
  law_abiding env →
  ∃ s' c,
    process_urls env args output_dir urls n s = (s', Ok c)
    ∧ (n ≤ c ≤ n + length urls)%nat.
Proof.
  induction urls as [|url urls IH]; intros n s Hlaw; cbn [process_urls].
  - exists s, n. split; [reflexivity|]. cbn. lia.
  - unfold bind at 1. rewrite print_printed. unfold bind at 1.
    destruct (returns_download_with_yt_dlp env url output_dir (format args)
                (best args) (force args) Hlaw (printed [OutProcessingUrl url] s))
      as (s1 & b & ->).
    destruct (IH (if b then S n else n) s1 Hlaw) as (s' & c & -> & Hc).
    exists s', c. split; [reflexivity|]. cbn [length]. destruct b; lia.
Qed.

(** X11: with collaborators that raise nothing but ordinary exceptions and at
    least one URL on the command line, [main] runs to its end whatever fails
    on the way; with two URLs or more its last line is the summary, and the
    number of successes it reports is at most the number of URLs. *)
Theorem main_completes_and_counts
    (env : environment) (args : args) (s : cli_state) :
  law_abiding env →
  urls args ≠ [] →
  ∃ s',
    main env args s = (s', Ok tt)
    ∧ ((1 < length (urls args))%nat →
       ∃ c, last (stdout s') = Some (OutSummary c (length (urls args)))
            ∧ (c ≤ length (urls args))%nat).
Proof.
  intros Hlaw Hurls. unfold main.
  destruct (urls args) as [|url urls] eqn:Hargs; [done|].
  unfold bind at 1, gets. unfold bind at 1.
  destruct (negb (path_exists (fs s) (output args)));
    [destruct (makedirs_ok env (output args))|].
  all: cbn -[process_urls length Nat.ltb].
  all: match goal with
       | |- ∃ _, bind (process_urls ?E ?A ?D ?us 0%nat) _ ?S0 = _ ∧ _ =>
           destruct (process_urls_returns E A D us 0 S0 Hlaw)
             as (s2 & c & Hloop & Hc)
       end;
       unfold bind; rewrite Hloop;
       destruct (Nat.ltb_spec 1 (length (url :: urls))) as [Hmany|Hone];
       [ rewrite print_printed; eexists; split; [reflexivity|];
         intros _; exists c; split; [|lia];
         unfold printed; cbn [stdout]; by rewrite last_app
       | eexists; split; [reflexivity|]; intros; lia ].
Qed.

Lemma main_completes_and_counts_witness :
  ∃ s', main (sample_env "/dl/Song A.mp4") best_twice
          (sample_state [] (<["/dl" := 0]> ∅)) = (s', Ok tt).
Proof.
  destruct (main_completes_and_counts (sample_env "/dl/Song A.mp4") best_twice
              (sample_state [] (<["/dl" := 0]> ∅)))
    as (s' & Hrun & _).
  - apply sample_env_law_abiding.
  - discriminate.
  - exists s'. exact Hrun.
Defined.

(** X12: with no URL on the command line, [main] asks for one: an empty
    answer ends the program with the "no URLs" line and nothing is
    downloaded; at the end of the keyboard input [EOFError] escapes. *)
Theorem main_without_urls
    (env : environment) (args : args) (s : cli_state) :
  urls args = [] →
  (∀ rest, stdin s = "" :: rest →
     ∃ s', main env args s = (s', Ok tt)
           ∧ last (stdout s') = Some OutNoUrls
           ∧ calls s' = calls s)
  ∧ (stdin s = [] → (main env args s).2 = Raise EOFError).
Proof.
  intros Hurls. unfold main. rewrite Hurls.
  unfold bind, gets, input. cbn beta.
  destruct (negb (path_exists (fs s) (output args)));
    [destruct (makedirs_ok env (output args))|].
  all: cbn; split;
    [ intros rest ->; cbn; eexists; split; [reflexivity|]; cbn;
      split; [by rewrite last_app|done]
    | intros ->; reflexivity ].
Qed.

Lemma main_without_urls_witness :
  (main (sample_env "/dl/x")
     {| urls := []; output := "/dl"; format := VNone; best := false;
        force := false |}
     (sample_state [] ∅)).2
  = Raise EOFError.
Proof.
  destruct (main_without_urls (sample_env "/dl/x")
              {| urls := []; output := "/dl"; format := VNone; best := false;
                 force := false |}
              (sample_state [] ∅)) as [_ Heof].
  - reflexivity.
  - apply Heof. reflexivity.
Defined.

End Containment.

(** ** The browser surface: when it asks, and what it never lets out *)

Section BrowserFlow.

Import Downloader App.

(** X13: on the browser surface, when a file is at the [mp4] or the [mp3]
    candidate path, the force box is not ticked and no decision is pending,
    [download_with_streamlit] shows the warning and the three buttons and
    stops the script, whatever the format: the collaborator's download is not
    called and neither the files nor the session change.  The stop is not
    caught by the function's own [except Exception]. *)
Theorem existing_file_stops_for_a_decision
    (aenv : app_environment) (url output_path : string) (format_id : pyval)
    (concurrent_fragments : Z) (audio_quality : string) (s : app_state)
    (info : video_info) :
  extract_info (env aenv) url = Ok info →
  path_exists (App.fs s) (path_join output_path (sanitized_title info +:+ ".mp4"))
  || path_exists (App.fs s) (path_join output_path (sanitized_title info +:+ ".mp3"))
  = true →
  file_decision_made (session s) = false →
  download_with_streamlit aenv url output_path format_id false
    concurrent_fragments audio_quality s
  = (asking (sanitized_title info) s, Raise StopScript).
Proof.
  intros Hinfo Hexists Hmade.
  unfold download_with_streamlit, try_except.
  unfold bind at 1, lift. rewrite Hinfo.
  unfold bind at 1, gets. rewrite Hexists.
  unfold bind at 1. rewrite Hmade. cbn [andb negb].
  unfold bind, show, modify, raise, asking, with_prompt, with_ui. cbn.
  by rewrite <- app_assoc.
Qed.

Lemma existing_file_stops_for_a_decision_witness :
  download_with_streamlit (sample_browser "/dl/Song A.mp3") "https://youtu.be/a"
    "/dl" VNone false 5 "192" (fresh_session (<["/dl/Song A.mp3" := 1]> ∅))
  = (asking "Song A" (fresh_session (<["/dl/Song A.mp3" := 1]> ∅)),
     Raise StopScript).
Proof.
  apply (existing_file_stops_for_a_decision (sample_browser "/dl/Song A.mp3")
           "https://youtu.be/a" "/dl" VNone 5 "192"
           (fresh_session (<["/dl/Song A.mp3" := 1]> ∅)) song_a).
  - reflexivity.
  - vm_compute. reflexivity.
  - reflexivity.
Defined.

(** *** Nothing but the stop leaves [download_with_streamlit] *)

Lemma ordinary_bind {A B} (m : result A) (k : A → result B) :
  ordinary m → (∀ a, ordinary (k a)) → ordinary (m ≫= k).
Proof.
  intros Hm Hk e. destruct m as [a|e1]; cbn; [apply Hk|].
  intros [= <-]. by apply Hm.
Qed.

Lemma ordinary_py_gt0 v : ordinary (py_gt0 v).
Proof. intros e. unfold py_gt0. destruct (to_num v); by intros [= <-]. Qed.

Lemma ordinary_py_truediv a b : ordinary (py_truediv a b).
Proof.
  intros e. unfold py_truediv.
  destruct (to_num a), (to_num b); try by intros [= <-].
  destruct (Qeq_bool _ _); by intros [= <-].
Qed.

Lemma ordinary_py_floordiv60 v : ordinary (py_floordiv60 v).
Proof. intros e. destruct v; cbn; by intros [= <-]. Qed.

Lemma ordinary_py_mod60 v : ordinary (py_mod60 v).
Proof. intros e. destruct v; cbn; by intros [= <-]. Qed.

Lemma ordinary_audio_extraction format_id : ordinary (audio_extraction format_id).
Proof.
  intros e. unfold audio_extraction.
  destruct format_id; cbn; try by intros [= <-].
  destruct (contains "bestaudio" s); discriminate.
Qed.

Lemma ordinary_selected_format_id formats i : ordinary (selected_format_id formats i).
Proof.
  intros e. unfold selected_format_id.
  destruct (_ =? _)%nat; [discriminate|].
  destruct (_ =? _)%nat; [discriminate|].
  destruct (_ <? _)%nat;
    match goal with
    | |- context [list_index ?l ?j] =>
        unfold list_index; destruct (l !! Z.to_nat j); cbn; by intros [= <-]
    end.
Qed.

Lemma contained_raise {S A} (e : exn) :
  is_Exception e = true → contained (raise (S:=S) (A:=A) e).
Proof. intros He s s' e' [= _ <-]. exact He. Qed.

Lemma contained_returning {S A} (m : M S A) :
  (∀ s, ∃ a, (m s).2 = Ok a) → contained m.
Proof.
  intros Hm s s' e Hrun. destruct (Hm s) as [a Ha]. rewrite Hrun in Ha.
  discriminate.
Qed.

Ltac ordinary :=
  repeat first
    [ apply ordinary_Ok
    | apply ordinary_dindex
    | apply ordinary_py_gt0
    | apply ordinary_py_truediv
    | apply ordinary_py_floordiv60
    | apply ordinary_py_mod60
    | apply ordinary_audio_extraction
    | apply ordinary_selected_format_id
    | apply ordinary_bind; [|intros ?]
    | match goal with
      | |- ordinary (if ?b then _ else _) => destruct b
      end ].

Ltac contained_page :=
  repeat first
    [ apply contained_ret
    | apply contained_gets
    | apply contained_modify
    | apply contained_raise; reflexivity
    | apply contained_lift; ordinary
    | apply contained_bind; [|intros ?]
    | match goal with
      | |- contained (if ?b then _ else _) => destruct b
      | |- contained (match ?x with _ => _ end) => destruct x
      | |- contained (let '(_, _) := ?x in _) => destruct x
      end ].

Lemma contained_streamlit_hook d : contained (streamlit_progress_hook d).
Proof.
  unfold streamlit_progress_hook, report_percentage, report_details,
    set_progress, set_percent_text, set_status_text, set_file_size_text,
    set_eta_text.
  contained_page.
Qed.

Lemma contained_streamlit_hooks events :
  contained (run_hooks streamlit_progress_hook events).
Proof.
  induction events as [|d events IH]; cbn; [apply contained_ret|].
  apply contained_bind; [apply contained_streamlit_hook|by intros _].
Qed.

Lemma contained_estimate aenv url format_id :
  contained (estimate_file_size aenv url format_id).
Proof.
  apply contained_returning. intros s. exists tt.
  apply estimate_file_size_returns.
Qed.

Lemma contained_browser_download aenv opts url :
  law_abiding (env aenv) → contained (App.ydl_download aenv opts url).
Proof.
  intros [_ Hrun]. unfold App.ydl_download.
  apply contained_bind; [apply contained_modify|intros _].
  apply contained_bind; [apply contained_gets|intros before].
  apply contained_bind; [apply contained_streamlit_hooks|intros _].
  apply contained_bind; [apply contained_modify|intros _].
  apply contained_bind; [|intros _; apply contained_ret].
  apply contained_lift. intros e. apply Hrun.
Qed.

Lemma contained_final_check output_path format_id video_title :
  contained (final_check output_path format_id video_title).
Proof. unfold final_check, show. contained_page. Qed.

Lemma contained_download_and_verify aenv url output_path format_id force cf aq
    video_title :
  law_abiding (env aenv) →
  contained (download_and_verify aenv url output_path format_id force cf aq
               video_title).
Proof.
  intros Hlaw. unfold download_and_verify.
  apply contained_bind; [apply contained_lift, ordinary_audio_extraction|intros mp3].
  apply contained_bind; [apply contained_modify|intros _].
  apply contained_bind; [apply contained_estimate|intros _].
  apply contained_bind; [by apply contained_browser_download|intros _].
  apply contained_final_check.
Qed.

(** What [download_with_streamlit] can end with. *)
Lemma download_with_streamlit_outcome aenv url output_path format_id force cf aq
    s s' r :
  law_abiding (env aenv) →
  download_with_streamlit aenv url output_path format_id force cf aq s = (s', r) →
  r = Ok tt
  ∨ (r = Raise StopScript
     ∧ ∃ info, extract_info (env aenv) url = Ok info
               ∧ s' = asking (sanitized_title info) s).
Proof.
  intros Hlaw. pose proof Hlaw as [Hex _].
  unfold download_with_streamlit, try_except.
  unfold bind at 1, lift.
  destruct (extract_info (env aenv) url) as [info|e] eqn:Hinfo.
  2:{ rewrite (Hex url e Hinfo). unfold show, modify. intros [= <- <-]. by left. }
  unfold bind at 1, gets. unfold bind at 1.
  match goal with
  | |- context [if ?c then _ else _] => destruct c eqn:Hask
  end.
  - unfold bind, show, modify, raise. cbn. intros [= <- <-]. right.
    split; [done|]. exists info. split; [done|].
    unfold asking, with_prompt, with_ui. cbn. by rewrite <- app_assoc.
  - unfold bind at 1. cbn [ret].
    match goal with
    | |- (match ?K s with _ => _ end) = _ → _ =>
        assert (HK : contained K)
    end.
    { unfold show, reset_decision.
      apply contained_bind; [apply contained_gets|intros made].
      destruct made; cbv iota; [|by apply contained_download_and_verify].
      apply contained_bind; [apply contained_gets|intros decision].
      destruct (bool_decide (decision = Some "redownload")); cbv iota.
      { apply contained_bind; [apply contained_modify|intros _].
        apply contained_bind; [apply contained_modify|intros _].
        by apply contained_download_and_verify. }
      destruct (bool_decide (decision = Some "new_name")); cbv iota.
      { apply contained_bind; [apply contained_gets|intros renamed].
        apply contained_bind; [apply contained_modify|intros _].
        apply contained_bind; [apply contained_modify|intros _].
        by apply contained_download_and_verify. }
      destruct (bool_decide (decision = Some "skip")); cbv iota.
      { apply contained_bind; [apply contained_modify|intros _].
        apply contained_modify. }
      apply contained_bind; [apply contained_modify|intros _].
      by apply contained_download_and_verify. }
    match goal with
    | |- (match ?K s with _ => _ end) = _ → _ =>
        destruct (K s) as [s1 [[]|e]] eqn:HKs
    end.
    + intros [= <- <-]. by left.
    + rewrite (HK s s1 e HKs). unfold show, modify. intros [= <- <-]. by left.
Qed.

Lemma waiting_asking video_title s : waiting s (asking video_title s).
Proof.
  unfold waiting, asking. cbn. split; [by eexists|].
  split; [done|]. split; [done|]. by rewrite last_app.
Qed.

Lemma untouched_refl s : untouched s s.
Proof. by unfold untouched. Qed.

Lemma untouched_trans s1 s2 s3 :
  untouched s1 s2 → untouched s2 s3 → untouched s1 s3.
Proof. unfold untouched. intros (?&?&?&?) (?&?&?&?). repeat split; congruence. Qed.

Lemma waiting_after s1 s2 s3 : untouched s1 s2 → waiting s2 s3 → waiting s1 s3.
Proof.
  unfold untouched, waiting. intros (?&?&?&?) (?&?&?&?). repeat split; congruence.
Qed.

Lemma idle_bind {A B} (m : M app_state A) (k : A → M app_state B) :
  idle m → (∀ a, idle (k a)) → idle (bind m k).
Proof.
  intros Hm Hk s. unfold bind. specialize (Hm s).
  destruct (m s) as [s1 [a|e]]; cbn [fst] in *; [|done].
  eapply untouched_trans; [exact Hm|apply Hk].
Qed.

Lemma idle_bind_lift {A B} (r : result A) (k : A → M app_state B) :
  (∀ a, r = Ok a → idle (k a)) → idle (bind (lift r) k).
Proof.
  intros Hk s. unfold bind, lift. destruct r as [a|e]; [by apply Hk|].
  apply untouched_refl.
Qed.

Lemma idle_ret {A} (a : A) : idle (ret a).
Proof. intros s. apply untouched_refl. Qed.

Lemma idle_gets {A} (f : app_state → A) : idle (gets f).
Proof. intros s. apply untouched_refl. Qed.

Lemma idle_lift {A} (r : result A) : idle (lift r).
Proof. intros s. apply untouched_refl. Qed.

Lemma idle_show e : idle (show e).
Proof. by intros s. Qed.

Lemma idle_with_fs files : idle (modify (with_fs files)).
Proof. by intros s. Qed.

Lemma idle_try_except {A} catches (m : M app_state A) h :
  idle m → (∀ e, idle (h e)) → idle (try_except catches m h).
Proof.
  intros Hm Hh s. unfold try_except. specialize (Hm s).
  destruct (m s) as [s1 [a|e]]; cbn [fst] in *; [done|].
  destruct (catches e); [|done].
  eapply untouched_trans; [exact Hm|apply Hh].
Qed.

(** Lines 43-67 of [main]: the directory and the warning. *)
Lemma idle_create_directory aenv inp existing :
  idle (if negb existing && create_dir_clicked inp then
          if makedirs_ok (env aenv) (save_dir inp) then
            here <- gets App.fs ;;
            modify (with_fs (<[save_dir inp := 0]> here)) ;;
            show (UiDirCreated (save_dir inp))
          else show (UiDirError (save_dir inp))
        else ret tt).
Proof.
  destruct (negb existing && create_dir_clicked inp); [|apply idle_ret].
  destruct (makedirs_ok (env aenv) (save_dir inp)); [|apply idle_show].
  apply idle_bind; [apply idle_gets|intros here].
  apply idle_bind; [apply idle_with_fs|intros _]. apply idle_show.
Qed.

Lemma returns_create_directory aenv inp existing :
  returns (if negb existing && create_dir_clicked inp then
             if makedirs_ok (env aenv) (save_dir inp) then
               here <- gets App.fs ;;
               modify (with_fs (<[save_dir inp := 0]> here)) ;;
               show (UiDirCreated (save_dir inp))
             else show (UiDirError (save_dir inp))
           else ret tt).
Proof.
  intros s. destruct (negb existing && create_dir_clicked inp); [|by eexists _, _].
  destruct (makedirs_ok (env aenv) (save_dir inp)); by eexists _, _.
Qed.

(** A run of the script in which the Download button is not pressed, or the
    URL is not one of YouTube, or no catalog could be built, is idle. *)
Lemma idle_main aenv inp :
  download_clicked inp = false ∨ is_youtube (url inp) = false
  ∨ get_available_formats (python (env aenv)) (extract_info (env aenv)) (url inp) = Ok None →
  idle (main aenv inp).
Proof.
  intros Hcase. unfold main.
  apply idle_bind; [apply idle_gets|intros existing].
  apply idle_bind; [apply idle_create_directory|intros _].
  apply idle_bind.
  { destruct (_ && _); [apply idle_show|apply idle_ret]. }
  intros _. fold (is_youtube (url inp)).
  destruct (negb (String.eqb (url inp) "") && is_youtube (url inp)) eqn:Hvalid;
    [|apply idle_ret].
  apply idle_try_except; [|intros e; apply idle_show].
  apply idle_bind_lift. intros [cat|] Hcat; [|apply idle_show].
  apply idle_bind; [apply idle_show|intros _].
  apply idle_bind; [apply idle_show|intros _].
  apply idle_bind_lift. intros format_id _.
  destruct Hcase as [->|[Hurl|Hnone]]; [apply idle_ret| |congruence].
  rewrite Hurl, andb_false_r in Hvalid. discriminate.
Qed.

(** X14: a run of the page script starts no download, records or consumes no
    decision, draws no decision button and leaves the progress widgets alone
    when the Download button is not pressed in it, or when the URL typed is
    not a YouTube one, or when no catalog could be built for it. *)
Theorem no_click_no_download
    (aenv : app_environment) (inp : page_inputs) (s : app_state) :
  download_clicked inp = false ∨ is_youtube (url inp) = false
  ∨ get_available_formats (python (env aenv)) (extract_info (env aenv)) (url inp) = Ok None →
  untouched s (main aenv inp s).1.
Proof. intros Hcase. by apply idle_main. Qed.

Lemma no_click_no_download_witness :
  untouched (fresh_session ∅)
    (main (sample_browser "/dl/x") (clicking "https://example.org/v")
       (fresh_session ∅)).1.
Proof.
  apply (no_click_no_download (sample_browser "/dl/x")
           (clicking "https://example.org/v") (fresh_session ∅)).
  right. left. reflexivity.
Defined.

(** *** The script ends or waits *)

Lemma stops_to_wait_contained {A} (m : M app_state A) :
  contained m → stops_to_wait m.
Proof. intros Hm s s' e Hrun. left. by apply (Hm s s'). Qed.

Lemma stops_to_wait_bind {A B} (m : M app_state A) (k : A → M app_state B) :
  idle m → contained m → (∀ a, stops_to_wait (k a)) → stops_to_wait (bind m k).
Proof.
  intros Hidle Hm Hk s s' e. unfold bind. specialize (Hidle s).
  destruct (m s) as [s1 [a|e1]] eqn:Hms; cbn [fst] in *.
  - intros Hrun. destruct (Hk a s1 s' e Hrun) as [?|[-> Hw]]; [by left|].
    right. split; [done|]. by eapply waiting_after.
  - intros [= <- <-]. left. by apply (Hm s s1).
Qed.

Lemma not_ordinary_is_stop e : is_Exception e = false → e = StopScript.
Proof. by destruct e. Qed.

Lemma only_stops_try_except {A} (m : M app_state A) h :
  stops_to_wait m → (∀ e, returns (h e)) →
  only_stops_to_wait (try_except is_Exception m h).
Proof.
  intros Hm Hh s s' e. unfold try_except.
  destruct (m s) as [s1 [a|e1]] eqn:Hms; [discriminate|].
  destruct (is_Exception e1) eqn:He1.
  - destruct (Hh e1 s1) as (s2 & a & ->). discriminate.
  - intros [= <- <-]. destruct (Hm s s1 e1 Hms) as [?|?]; [congruence|done].
Qed.

Lemma only_stops_bind {A B} (m : M app_state A) (k : A → M app_state B) :
  idle m → returns m → (∀ a, only_stops_to_wait (k a)) →
  only_stops_to_wait (bind m k).
Proof.
  intros Hidle Hm Hk s s' e. unfold bind. specialize (Hidle s).
  destruct (Hm s) as (s1 & a & Hms). rewrite Hms in *. cbn [fst] in *.
  intros Hrun. destruct (Hk a s1 s' e Hrun) as [-> Hw].
  split; [done|]. by eapply waiting_after.
Qed.

Lemma returns_ret {S A} (a : A) : returns (ret (S:=S) a).
Proof. intros s. by eexists _, _. Qed.

Lemma returns_gets {S A} (f : S → A) : returns (gets f).
Proof. intros s. by eexists _, _. Qed.

Lemma returns_modify {S} (f : S → S) : returns (modify f).
Proof. intros s. by eexists _, _. Qed.

Lemma only_stops_returns {A} (m : M app_state A) :
  returns m → only_stops_to_wait m.
Proof. intros Hm s s' e Hrun. destruct (Hm s) as (s1 & a & Hms). congruence. Qed.

Lemma stops_to_wait_download aenv url output_path format_id force cf aq :
  law_abiding (env aenv) →
  stops_to_wait (download_with_streamlit aenv url output_path format_id force cf aq).
Proof.
  intros Hlaw s s' e Hrun.
  destruct (download_with_streamlit_outcome _ _ _ _ _ _ _ _ _ _ Hlaw Hrun)
    as [?|[[= ->] (info & _ & ->)]]; [discriminate|].
  right. split; [done|]. apply waiting_asking.
Qed.

Lemma only_stops_main aenv inp :
  law_abiding (env aenv) → only_stops_to_wait (main aenv inp).
Proof.
  intros Hlaw. unfold main.
  apply only_stops_bind; [apply idle_gets|apply returns_gets|intros existing].
  apply only_stops_bind;
    [apply idle_create_directory|apply returns_create_directory|intros _].
  apply only_stops_bind.
  { destruct (_ && _); [apply idle_show|apply idle_ret]. }
  { destruct (_ && _); [apply returns_modify|apply returns_ret]. }
  intros _.
  destruct (_ && _); [|apply only_stops_returns, returns_ret].
  apply only_stops_try_except; [|intros e; apply returns_modify].
  apply stops_to_wait_bind;
    [apply idle_lift
    |by apply contained_lift, ordinary_get_available_formats|].
  intros [cat|]; [|apply stops_to_wait_contained, contained_modify].
  apply stops_to_wait_bind; [apply idle_show|apply contained_modify|intros _].
  apply stops_to_wait_bind; [apply idle_show|apply contained_modify|intros _].
  apply stops_to_wait_bind;
    [apply idle_lift|apply contained_lift, ordinary_selected_format_id|].
  intros format_id.
  destruct (download_clicked inp);
    [by apply stops_to_wait_download|apply stops_to_wait_contained, contained_ret].
Qed.

(** X16: with collaborators that raise nothing but ordinary exceptions, a run
    of the page script either ends normally or is stopped at the decision
    buttons, and no other exception leaves it; when it is stopped the buttons
    are the last thing drawn, and nothing was downloaded or decided in that
    run. *)
Theorem script_run_ends_or_waits
    (aenv : app_environment) (inp : page_inputs) (s : app_state) :
  law_abiding (env aenv) →
  (main aenv inp s).2 = Ok tt
  ∨ ((main aenv inp s).2 = Raise StopScript ∧ waiting s (main aenv inp s).1).
Proof.
  intros Hlaw. pose proof (only_stops_main aenv inp Hlaw s) as Hstop.
  destruct (main aenv inp s) as [s' [[]|e]]; [by left|].
  right. by destruct (Hstop s' e eq_refl) as [-> Hw].
Qed.

Lemma script_run_ends_or_waits_witness :
  (main (sample_browser "/dl/x") (clicking "https://youtu.be/a")
     (fresh_session (<["/dl/Song A.mp4" := 1]> ∅))).2 = Raise StopScript
  ∧ waiting (fresh_session (<["/dl/Song A.mp4" := 1]> ∅))
      (main (sample_browser "/dl/x") (clicking "https://youtu.be/a")
         (fresh_session (<["/dl/Song A.mp4" := 1]> ∅))).1.
Proof.
  destruct (script_run_ends_or_waits (sample_browser "/dl/x")
              (clicking "https://youtu.be/a")
              (fresh_session (<["/dl/Song A.mp4" := 1]> ∅)))
    as [Hend|Hwait].
  - apply sample_env_law_abiding.
  - vm_compute in Hend. discriminate.
  - exact Hwait.
Defined.

End BrowserFlow.

(** ** The browser surface: acting on a pending decision *)

Section Decisions.

Import Downloader App.

(** What the handler of [download_with_streamlit] leaves after the download
    was started. *)
Lemma handled_verify_effect aenv url output_path f force cf aq video_title s :
  ∃ s' r,
    try_except is_Exception
      (download_and_verify aenv url output_path (VStr f) force cf aq video_title)
      (fun e => show (UiDownloadError e)) s = (s', r)
    ∧ App.calls s'
      = App.calls s
        ++ [(url, browser_opts output_path (VStr f) force cf aq video_title
                    (contains "bestaudio" f && contains "mp3" f))]
    ∧ session s' = session s
    ∧ prompt s' = prompt s.
Proof.
  unfold try_except.
  pose proof (download_and_verify_effect aenv url output_path (VStr f) force cf aq
                video_title _ s (audio_extraction_text f)) as (Hc & Hs & Hp).
  destruct (download_and_verify aenv url output_path (VStr f) force cf aq
              video_title s) as [s1 [[]|e]]; cbn [fst] in *.
  - eexists _, _. split; [reflexivity|]. done.
  - destruct (is_Exception e); eexists _, _; (split; [reflexivity|]); done.
Qed.

Lemma try_except_step {S A B} catches (m : M S A) (k : A → M S B) h s s1 a :
  m s = (s1, Ok a) →
  try_except catches (bind m k) h s = try_except catches (k a) h s1.
Proof. intros Hm. unfold try_except, bind. by rewrite Hm. Qed.

(** The function once a decision is pending: the existence test is passed
    over. *)
Lemma download_with_streamlit_decided aenv url output_path format_id force cf aq
    s info :
  extract_info (env aenv) url = Ok info →
  file_decision_made (session s) = true →
  download_with_streamlit aenv url output_path format_id force cf aq s
  = try_except is_Exception
      (decision <- gets (fun s => file_decision (session s)) ;;
       if bool_decide (decision = Some "redownload") then
         show UiRedownloading ;;
         reset_decision ;;
         download_and_verify aenv url output_path format_id true cf aq
           (sanitized_title info)
       else if bool_decide (decision = Some "new_name") then
         renamed <- gets (fun s => new_filename (session s)) ;;
         show (UiNewName (default "None" renamed)) ;;
         reset_decision ;;
         download_and_verify aenv url output_path format_id force cf aq
           (default "None" renamed)
       else if bool_decide (decision = Some "skip") then
         show UiSkipped ;;
         reset_decision
       else
         reset_decision ;;
         download_and_verify aenv url output_path format_id force cf aq
           (sanitized_title info))
      (fun e => show (UiDownloadError e)) s.
Proof.
  intros Hinfo Hmade.
  unfold download_with_streamlit, try_except.
  unfold bind at 1, lift. rewrite Hinfo.
  unfold bind at 1, gets.
  unfold bind at 1. rewrite Hmade, !andb_false_r.
  unfold bind at 1. cbn [ret].
  unfold bind at 1. cbn [gets]. rewrite Hmade. reflexivity.
Qed.

(** X17: when the pending decision is to download again, the collaborator is
    called once with [overwrites] set, whatever the force box says and
    whether or not a file is at the target, under the title of the video now
    asked for; no question is asked and the decision is consumed. *)
Theorem redownload_decision_overwrites
    (aenv : app_environment) (url output_path f : string) (force : bool)
    (concurrent_fragments : Z) (audio_quality : string) (s : app_state)
    (info : video_info) :
  extract_info (env aenv) url = Ok info →
  file_decision_made (session s) = true →
  file_decision (session s) = Some "redownload" →
  ∃ s' r opts,
    download_with_streamlit aenv url output_path (VStr f) force
      concurrent_fragments audio_quality s = (s', r)
    ∧ App.calls s' = App.calls s ++ [(url, opts)]
    ∧ overwrites opts = true
    ∧ opts !! "outtmpl"
      = Some (OStr (path_join output_path (sanitized_title info +:+ ".%(ext)s")))
    ∧ session s' = initial_session
    ∧ prompt s' = prompt s.
Proof.
  intros Hinfo Hmade Hdecision.
  rewrite (download_with_streamlit_decided _ _ _ _ _ _ _ _ info Hinfo Hmade).
  erewrite try_except_step by reflexivity. rewrite Hdecision.
  rewrite bool_decide_eq_true_2 by done.
  erewrite !try_except_step by reflexivity.
  match goal with
  | |- context [download_and_verify aenv url output_path (VStr f) true ?cf ?aq ?t] =>
      match goal with
      | |- ∃ _ _ _, try_except _ _ _ ?s0 = _ ∧ _ =>
          destruct (handled_verify_effect aenv url output_path f true cf aq t s0)
            as (s' & r & Hrun & Hc & Hs & Hp)
      end
  end.
  rewrite Hrun.
  eexists s', r, _. split; [reflexivity|]. split; [exact Hc|].
  unfold overwrites. rewrite browser_opts_overwrites, browser_opts_outtmpl.
  by rewrite Hs, Hp.
Qed.

Lemma redownload_decision_overwrites_witness :
  ∃ s' r opts,
    download_with_streamlit (sample_browser "/dl/Song A.mp4") "https://youtu.be/a"
      "/dl" (VStr "137") false 5 "192"
      (decided "redownload" None (<["/dl/Song A.mp4" := 1]> ∅)) = (s', r)
    ∧ App.calls s' = [] ++ [("https://youtu.be/a", opts)]
    ∧ overwrites opts = true.
Proof.
  destruct (redownload_decision_overwrites (sample_browser "/dl/Song A.mp4")
              "https://youtu.be/a" "/dl" "137" false 5 "192"
              (decided "redownload" None (<["/dl/Song A.mp4" := 1]> ∅)) song_a)
    as (s' & r & opts & Hrun & Hc & Ho & _).
  - reflexivity.
  - reflexivity.
  - reflexivity.
  - exists s', r, opts. done.
Defined.

(** X18: when the pending decision is a new name, the collaborator is called
    once under the name kept in the session, which is the one made when the
    button was pressed and not the title of the video now asked for;
    [overwrites] is the force box, and the decision is consumed. *)
Theorem new_name_decision_renames
    (aenv : app_environment) (url output_path f : string) (force : bool)
    (concurrent_fragments : Z) (audio_quality : string) (s : app_state)
    (info : video_info) (renamed : string) :
  extract_info (env aenv) url = Ok info →
  file_decision_made (session s) = true →
  file_decision (session s) = Some "new_name" →
  new_filename (session s) = Some renamed →
  ∃ s' r opts,
    download_with_streamlit aenv url output_path (VStr f) force
      concurrent_fragments audio_quality s = (s', r)
    ∧ App.calls s' = App.calls s ++ [(url, opts)]
    ∧ overwrites opts = force
    ∧ opts !! "outtmpl"
      = Some (OStr (path_join output_path (renamed +:+ ".%(ext)s")))
    ∧ session s' = initial_session
    ∧ prompt s' = prompt s.
Proof.
  intros Hinfo Hmade Hdecision Hrenamed.
  rewrite (download_with_streamlit_decided _ _ _ _ _ _ _ _ info Hinfo Hmade).
  erewrite try_except_step by reflexivity. rewrite Hdecision.
  rewrite bool_decide_eq_false_2 by done.
  rewrite bool_decide_eq_true_2 by done.
  erewrite try_except_step by reflexivity. rewrite Hrenamed. cbn [default from_option id].
  erewrite !try_except_step by reflexivity.
  match goal with
  | |- ∃ _ _ _, try_except _ _ _ ?s0 = _ ∧ _ =>
      destruct (handled_verify_effect aenv url output_path f force
                  concurrent_fragments audio_quality renamed s0)
        as (s' & r & Hrun & Hc & Hs & Hp)
  end.
  rewrite Hrun.
  eexists s', r, _. split; [reflexivity|]. split; [exact Hc|].
  unfold overwrites. rewrite browser_opts_overwrites, browser_opts_outtmpl.
  by rewrite Hs, Hp.
Qed.

Lemma new_name_decision_renames_witness :
  ∃ s' r opts,
    download_with_streamlit (sample_browser "/dl/out") "https://youtu.be/b"
      "/dl" (VStr "137") false 5 "192"
      (decided "new_name" (Some "Song A_1700000000") ∅) = (s', r)
    ∧ App.calls s' = [] ++ [("https://youtu.be/b", opts)]
    ∧ opts !! "outtmpl" = Some (OStr "/dl/Song A_1700000000.%(ext)s").
Proof.
  destruct (new_name_decision_renames (sample_browser "/dl/out")
              "https://youtu.be/b" "/dl" "137" false 5 "192"
              (decided "new_name" (Some "Song A_1700000000") ∅) song_b
              "Song A_1700000000")
    as (s' & r & opts & Hrun & Hc & _ & Ht & _).
  - reflexivity.
  - reflexivity.
  - reflexivity.
  - reflexivity.
  - exists s', r, opts. split; [exact Hrun|]. split; [exact Hc|].
    rewrite Ht. reflexivity.
Defined.

(** X19: when the pending decision is to skip, the function shows that the
    download was skipped, consumes the decision and returns: the collaborator
    is not called and no file is looked up, whatever the format, the force
    box and the files are. *)
Theorem skip_decision_downloads_nothing
    (aenv : app_environment) (url output_path : string) (format_id : pyval)
    (force : bool) (concurrent_fragments : Z) (audio_quality : string)
    (s : app_state) (info : video_info) :
  extract_info (env aenv) url = Ok info →
  file_decision_made (session s) = true →
  file_decision (session s) = Some "skip" →
  download_with_streamlit aenv url output_path format_id force
    concurrent_fragments audio_quality s
  = (with_session (fun _ => initial_session)
       (with_ui (fun l => l ++ [UiSkipped]) s), Ok tt).
Proof.
  intros Hinfo Hmade Hdecision.
  rewrite (download_with_streamlit_decided _ _ _ _ _ _ _ _ info Hinfo Hmade).
  erewrite try_except_step by reflexivity. rewrite Hdecision.
  rewrite !bool_decide_eq_false_2 by done.
  rewrite bool_decide_eq_true_2 by done.
  reflexivity.
Qed.

Lemma skip_decision_downloads_nothing_witness :
  App.calls
    (download_with_streamlit (sample_browser "/dl/out") "https://youtu.be/b"
       "/dl" (VStr "137") true 5 "192" (decided "skip" None ∅)).1
  = [].
Proof.
  rewrite (skip_decision_downloads_nothing (sample_browser "/dl/out")
             "https://youtu.be/b" "/dl" (VStr "137") true 5 "192"
             (decided "skip" None ∅) song_b).
  - reflexivity.
  - reflexivity.
  - reflexivity.
  - reflexivity.
Defined.

End Decisions.

(** ** The browser surface: the call to the collaborator *)

Section BrowserDownloads.

Import Downloader App.

(** The function when nothing is pending and nothing is to be asked. *)
Lemma download_with_streamlit_free aenv url output_path format_id force cf aq
    s info :
  extract_info (env aenv) url = Ok info →
  file_decision_made (session s) = false →
  (path_exists (App.fs s) (path_join output_path (sanitized_title info +:+ ".mp4"))
   || path_exists (App.fs s)
        (path_join output_path (sanitized_title info +:+ ".mp3")))
  && negb force = false →
  download_with_streamlit aenv url output_path format_id force cf aq s
  = try_except is_Exception
      (download_and_verify aenv url output_path format_id force cf aq
         (sanitized_title info))
      (fun e => show (UiDownloadError e)) s.
Proof.
  intros Hinfo Hmade Hfree.
  unfold download_with_streamlit, try_except.
  unfold bind at 1, lift. rewrite Hinfo.
  unfold bind at 1, gets.
  unfold bind at 1. rewrite Hmade, Hfree. cbn [andb].
  unfold bind at 1. cbn [ret].
  unfold bind at 1. cbn [gets]. rewrite Hmade. reflexivity.
Qed.

(** X20: with the force box ticked and no decision pending, the browser
    surface asks nothing, whether or not a file is at a candidate path: the
    collaborator is called once with [overwrites] set, under the title of the
    video, and the session and the buttons are left alone. *)
Theorem ticked_force_never_asks
    (aenv : app_environment) (url output_path f : string)
    (concurrent_fragments : Z) (audio_quality : string) (s : app_state)
    (info : video_info) :
  extract_info (env aenv) url = Ok info →
  file_decision_made (session s) = false →
  ∃ s' r opts,
    download_with_streamlit aenv url output_path (VStr f) true
      concurrent_fragments audio_quality s = (s', r)
    ∧ App.calls s' = App.calls s ++ [(url, opts)]
    ∧ overwrites opts = true
    ∧ opts !! "outtmpl"
      = Some (OStr (path_join output_path (sanitized_title info +:+ ".%(ext)s")))
    ∧ session s' = session s
    ∧ prompt s' = prompt s.
Proof.
  intros Hinfo Hmade.
  rewrite (download_with_streamlit_free _ _ _ _ _ _ _ _ info Hinfo Hmade)
    by apply andb_false_r.
  destruct (handled_verify_effect aenv url output_path f true
              concurrent_fragments audio_quality (sanitized_title info) s)
    as (s' & r & Hrun & Hc & Hs & Hp).
  rewrite Hrun. eexists s', r, _. split; [reflexivity|]. split; [exact Hc|].
  unfold overwrites. by rewrite browser_opts_overwrites, browser_opts_outtmpl.
Qed.

Lemma ticked_force_never_asks_witness :
  ∃ s' r opts,
    download_with_streamlit (sample_browser "/dl/Song A.mp4") "https://youtu.be/a"
      "/dl" (VStr "137") true 5 "192"
      (fresh_session (<["/dl/Song A.mp4" := 1]> ∅)) = (s', r)
    ∧ overwrites opts = true
    ∧ prompt s' = None.
Proof.
  destruct (ticked_force_never_asks (sample_browser "/dl/Song A.mp4")
              "https://youtu.be/a" "/dl" "137" 5 "192"
              (fresh_session (<["/dl/Song A.mp4" := 1]> ∅)) song_a)
    as (s' & r & opts & Hrun & _ & Ho & _ & _ & Hp).
  - reflexivity.
  - reflexivity.
  - exists s', r, opts. done.
Defined.

(** The collaborator's call when its outcome is an exception and its events
    are reportable. *)
Lemma ydl_download_fails aenv opts url s e :
  run_outcome (run_download (env aenv) opts url (App.fs s)) = Raise e →
  forallb reportable (run_events (run_download (env aenv) opts url (App.fs s)))
  = true →
  ∃ s',
    App.ydl_download aenv opts url s = (s', Raise e)
    ∧ ui s' = ui s
    ∧ App.fs s' = run_fs (run_download (env aenv) opts url (App.fs s))
    ∧ App.calls s' = App.calls s ++ [(url, opts)].
Proof.
  intros Hout Hev. unfold App.ydl_download.
  unfold bind at 1, modify. unfold bind at 1, gets. cbn [with_call App.fs].
  unfold bind at 1.
  match goal with
  | |- context [run_hooks streamlit_progress_hook ?ev ?s0] =>
      pose proof (page_only_run_hooks ev s0) as Hpage;
      pose proof (progress_sequence_never_raises ev s0 Hev) as Hok;
      destruct (run_hooks streamlit_progress_hook ev s0) as [s1 r1]
  end.
  cbn [fst snd] in *. subst r1. destruct Hpage as (_ & _ & _ & Hui & _ & Hc).
  unfold bind, modify, lift. rewrite Hout.
  eexists. split; [reflexivity|]. cbn. rewrite Hui, Hc. done.
Qed.

(** X21: when the collaborator's download raises an ordinary exception, after
    events the hook accepts, the browser surface shows that exception as the
    error of the download and returns normally; nothing else is shown: no
    success, no player and no warning about the expected path, the check of
    the expected path not being made.  The files are left as the
    collaborator left them. *)
Theorem failed_download_is_shown_as_error
    (aenv : app_environment) (url output_path f : string) (force : bool)
    (concurrent_fragments : Z) (audio_quality : string) (s : app_state)
    (info : video_info) (e : exn) :
  let opts :=
    browser_opts output_path (VStr f) force concurrent_fragments audio_quality
      (sanitized_title info) (contains "bestaudio" f && contains "mp3" f) in
  let run := run_download (env aenv) opts url (App.fs s) in
  extract_info (env aenv) url = Ok info →
  file_decision_made (session s) = false →
  (path_exists (App.fs s) (path_join output_path (sanitized_title info +:+ ".mp4"))
   || path_exists (App.fs s)
        (path_join output_path (sanitized_title info +:+ ".mp3")))
  && negb force = false →
  run_outcome run = Raise e →
  is_Exception e = true →
  forallb reportable (run_events run) = true →
  ∃ s',
    download_with_streamlit aenv url output_path (VStr f) force
      concurrent_fragments audio_quality s = (s', Ok tt)
    ∧ ui s' = ui s ++ [UiDownloadError e]
    ∧ App.fs s' = run_fs run
    ∧ App.calls s' = App.calls s ++ [(url, opts)].
Proof.
  intros opts run Hinfo Hmade Hfree Hout He Hev.
  rewrite (download_with_streamlit_free _ _ _ _ _ _ _ _ info Hinfo Hmade Hfree).
  unfold try_except, download_and_verify.
  unfold bind at 1, lift. rewrite audio_extraction_text.
  unfold bind at 1, modify.
  fold (browser_opts output_path (VStr f) force concurrent_fragments audio_quality
          (sanitized_title info) (contains "bestaudio" f && contains "mp3" f)).
  fold opts. unfold bind at 1.
  pose proof (page_only_estimate aenv url (VStr f)
                (with_page (fun _ => fresh_widgets) s)) as Hpage.
  pose proof (estimate_file_size_returns aenv url (VStr f)
                (with_page (fun _ => fresh_widgets) s)) as Hest.
  destruct (estimate_file_size aenv url (VStr f)
              (with_page (fun _ => fresh_widgets) s)) as [s1 r1].
  cbn [fst snd] in *. subst r1.
  destruct Hpage as (_ & Hfs & _ & Hui & _ & Hc). cbn in Hfs, Hui, Hc.
  destruct (ydl_download_fails aenv opts url s1 e) as (s2 & Hrun & Hui2 & Hfs2 & Hc2).
  { rewrite Hfs. exact Hout. }
  { rewrite Hfs. exact Hev. }
  unfold bind. rewrite Hrun, He. unfold show, modify.
  eexists. split; [reflexivity|]. cbn.
  rewrite Hui2, Hui, Hfs2, Hfs, Hc2, Hc. done.
Qed.

Lemma failed_download_is_shown_as_error_witness :
  ∃ s',
    download_with_streamlit (failing_browser (DownloadError "HTTP Error 403"))
      "https://youtu.be/a" "/dl" (VStr "137") false 5 "192" (fresh_session ∅)
    = (s', Ok tt)
    ∧ ui s' = [] ++ [UiDownloadError (DownloadError "HTTP Error 403")].
Proof.
  destruct (failed_download_is_shown_as_error
              (failing_browser (DownloadError "HTTP Error 403"))
              "https://youtu.be/a" "/dl" "137" false 5 "192" (fresh_session ∅)
              song_a (DownloadError "HTTP Error 403"))
    as (s' & Hrun & Hui & _).
  - reflexivity.
  - reflexivity.
  - vm_compute. reflexivity.
  - reflexivity.
  - reflexivity.
  - reflexivity.
  - exists s'. done.
Defined.

Lemma is_youtube_not_empty url : is_youtube url = true → String.eqb url "" = false.
Proof. by destruct url. Qed.

Lemma selected_format_id_default formats :
  selected_format_id formats (length formats) = Ok best_combined.
Proof. unfold selected_format_id. by rewrite Nat.eqb_refl. Qed.

(** X22: pressing Download with the select box left at its default asks the
    collaborator for the best combined [mp4] format of the URL typed, without
    a conversion to [mp3], into the directory of the side bar and under the
    title of the video, with [overwrites] as the force box says.  (The
    directory exists, no decision is pending, and no candidate file exists
    unless the force box is ticked.) *)
Theorem default_download_asks_for_the_best
    (aenv : app_environment) (inp : page_inputs) (s : app_state) (cat : catalog)
    (info : video_info) :
  is_youtube (url inp) = true →
  download_clicked inp = true →
  selected_format_idx inp = None →
  path_exists (App.fs s) (save_dir inp) = true →
  get_available_formats (python (env aenv)) (extract_info (env aenv)) (url inp) = Ok (Some cat) →
  extract_info (env aenv) (url inp) = Ok info →
  file_decision_made (session s) = false →
  (path_exists (App.fs s)
     (path_join (save_dir inp) (sanitized_title info +:+ ".mp4"))
   || path_exists (App.fs s)
        (path_join (save_dir inp) (sanitized_title info +:+ ".mp3")))
  && negb (force_download inp) = false →
  ∃ s' r opts,
    main aenv inp s = (s', r)
    ∧ App.calls s' = App.calls s ++ [(url inp, opts)]
    ∧ opts !! "format" = Some (OVal best_combined)
    ∧ opts !! "postprocessors" = None
    ∧ opts !! "outtmpl"
      = Some (OStr (path_join (save_dir inp)
                      (sanitized_title info +:+ ".%(ext)s")))
    ∧ overwrites opts = force_download inp.
Proof.
  intros Hyt Hclick Hsel Hdir Hcat Hinfo Hmade Hfree.
  unfold main. unfold bind at 1, gets. rewrite Hdir. cbn [negb andb].
  unfold bind at 1. cbn [ret].
  fold (is_youtube (url inp)). rewrite Hyt, (is_youtube_not_empty _ Hyt).
  cbn [negb andb]. unfold bind at 1. cbn [ret].
  erewrite try_except_step by (unfold lift; rewrite Hcat; reflexivity).
  rewrite Hsel, selected_format_id_default.
  erewrite !try_except_step by reflexivity. rewrite Hclick.
  unfold try_except at 1.
  rewrite (download_with_streamlit_free _ _ _ _ _ _ _ _ info Hinfo) by done.
  match goal with
  | |- context [try_except _ _ _ ?s1] =>
      destruct (handled_verify_effect aenv (url inp) (save_dir inp)
                  "best[ext=mp4]" (force_download inp) (concurrent_fragments inp)
                  (audio_quality inp) (sanitized_title info) s1)
        as (s' & r & Hrun & Hc & _)
  end.
  unfold best_combined. rewrite Hrun.
  assert (Hopts :
    browser_opts (save_dir inp) (VStr "best[ext=mp4]") (force_download inp)
      (concurrent_fragments inp) (audio_quality inp) (sanitized_title info)
      (contains "bestaudio" "best[ext=mp4]" && contains "mp3" "best[ext=mp4]")
    !! "format" = Some (OVal (VStr "best[ext=mp4]"))
    ∧ browser_opts (save_dir inp) (VStr "best[ext=mp4]") (force_download inp)
        (concurrent_fragments inp) (audio_quality inp) (sanitized_title info)
        (contains "bestaudio" "best[ext=mp4]" && contains "mp3" "best[ext=mp4]")
      !! "postprocessors" = None) by (split; reflexivity).
  destruct Hopts as [Hformat Hpost].
  assert (Hrest :
    ∀ s2 : app_state, App.calls s2 = App.calls s' →
      App.calls s2
      = App.calls s
        ++ [(url inp,
             browser_opts (save_dir inp) (VStr "best[ext=mp4]")
               (force_download inp) (concurrent_fragments inp) (audio_quality inp)
               (sanitized_title info)
               (contains "bestaudio" "best[ext=mp4]"
                && contains "mp3" "best[ext=mp4]"))]
      ∧ browser_opts (save_dir inp) (VStr "best[ext=mp4]") (force_download inp)
          (concurrent_fragments inp) (audio_quality inp) (sanitized_title info)
          (contains "bestaudio" "best[ext=mp4]" && contains "mp3" "best[ext=mp4]")
        !! "format" = Some (OVal (VStr "best[ext=mp4]"))
      ∧ browser_opts (save_dir inp) (VStr "best[ext=mp4]") (force_download inp)
          (concurrent_fragments inp) (audio_quality inp) (sanitized_title info)
          (contains "bestaudio" "best[ext=mp4]" && contains "mp3" "best[ext=mp4]")
        !! "postprocessors" = None
      ∧ browser_opts (save_dir inp) (VStr "best[ext=mp4]") (force_download inp)
          (concurrent_fragments inp) (audio_quality inp) (sanitized_title info)
          (contains "bestaudio" "best[ext=mp4]" && contains "mp3" "best[ext=mp4]")
        !! "outtmpl"
        = Some (OStr (path_join (save_dir inp)
                        (sanitized_title info +:+ ".%(ext)s")))
      ∧ overwrites
          (browser_opts (save_dir inp) (VStr "best[ext=mp4]") (force_download inp)
             (concurrent_fragments inp) (audio_quality inp) (sanitized_title info)
             (contains "bestaudio" "best[ext=mp4]"
              && contains "mp3" "best[ext=mp4]"))
        = force_download inp).
  { intros s2 ->. rewrite Hc. cbn [App.calls with_ui].
    split; [done|]. split; [done|]. split; [done|].
    unfold overwrites. by rewrite browser_opts_overwrites, browser_opts_outtmpl. }
  destruct r as [[]|e]; [|destruct (is_Exception e)];
    eexists _, _, _; (split; [reflexivity|]); by apply Hrest.
Qed.

Lemma default_download_asks_for_the_best_witness :
  ∃ s' r opts,
    main (sample_browser "/dl/Song A.mp4") (clicking "https://youtu.be/a")
      (fresh_session (<["/dl" := 0]> ∅)) = (s', r)
    ∧ App.calls s' = [] ++ [("https://youtu.be/a", opts)]
    ∧ opts !! "format" = Some (OVal best_combined).
Proof.
  destruct (default_download_asks_for_the_best (sample_browser "/dl/Song A.mp4")
              (clicking "https://youtu.be/a") (fresh_session (<["/dl" := 0]> ∅))
              {| title := "Song A"; formats := [entry avc_mp4; entry plain_mp3] |}
              song_a)
    as (s' & r & opts & Hrun & Hc & Hf & _).
  - reflexivity.
  - reflexivity.
  - reflexivity.
  - vm_compute. reflexivity.
  - vm_compute. reflexivity.
  - reflexivity.
  - reflexivity.
  - vm_compute. reflexivity.
  - exists s', r, opts. done.
Defined.

End BrowserDownloads.

(** ** Further properties of the progress hooks *)

Section ProgressEvents.

Import Downloader App.

Lemma has_status_py_eq name d v :
  d !! "status" = Some v → has_status name d = py_eq v (VStr name).
Proof. intros Hv. unfold has_status. rewrite Hv. by destruct v. Qed.

(** X23: both progress hooks act on two statuses only.  An event whose status
    is neither [downloading] nor [finished] changes nothing and prints
    nothing, on either surface; an event without a status makes both hooks
    raise [KeyError], again with nothing changed. *)
Theorem hooks_act_on_two_statuses
    (d : pydict) (s : app_state) (cs : cli_state) :
  is_downloading d = false →
  is_finished d = false →
  let r := match d !! "status" with
           | Some _ => Ok tt
           | None => Raise (KeyError "status")
           end in
  streamlit_progress_hook d s = (s, r) ∧ yt_dlp_progress_hook d cs = (cs, r).
Proof.
  unfold is_downloading, is_finished. intros Hd Hf.
  unfold streamlit_progress_hook, yt_dlp_progress_hook, bind, lift, dindex.
  destruct (d !! "status") as [v|] eqn:Hstatus; [|done].
  rewrite (has_status_py_eq "downloading" _ _ Hstatus) in Hd.
  rewrite (has_status_py_eq "finished" _ _ Hstatus) in Hf.
  cbv zeta. by rewrite Hd, Hf.
Qed.

Lemma hooks_act_on_two_statuses_witness :
  streamlit_progress_hook (<["status" := VStr "error"]> ∅) (fresh_session ∅)
  = (fresh_session ∅, Ok tt)
  ∧ yt_dlp_progress_hook (∅ : pydict) (sample_state [] ∅)
    = (sample_state [] ∅, Raise (KeyError "status")).
Proof.
  destruct (hooks_act_on_two_statuses (<["status" := VStr "error"]> ∅)
              (fresh_session ∅) (sample_state [] ∅)) as [Hignored _];
    [reflexivity|reflexivity|].
  destruct (hooks_act_on_two_statuses ∅ (fresh_session ∅) (sample_state [] ∅))
    as [_ Hraised]; [reflexivity|reflexivity|].
  split; [exact Hignored|exact Hraised].
Defined.

Lemma run_hooks_app {S} (hook : pydict → M S unit) events events' s :
  run_hooks hook (events ++ events') s
  = bind (run_hooks hook events) (fun _ => run_hooks hook events') s.
Proof.
  revert s. induction events as [|d events IH]; intros s; [done|].
  cbn [app run_hooks]. unfold bind.
  destruct (hook d s) as [s1 [[]|e]]; [|done]. by rewrite IH.
Qed.

(** X24: whatever reportable events came before, the [finished] event leaves
    the page complete: the bar at 1, the percentage at 100%, the status at
    "processing", the size and the remaining time cleared; and nothing else
    of the state has changed since the first event. *)
Theorem finished_event_completes_the_page
    (events : list pydict) (d : pydict) (s : app_state) :
  forallb reportable events = true →
  is_finished d = true →
  run_hooks streamlit_progress_hook (events ++ [d]) s
  = (with_page (fun _ =>
       {| progress_bar := 1; percent_text := Some Percent100;
          status_text := Some StatusProcessing; file_size_text := None;
          eta_text := None |}) s, Ok tt).
Proof.
  intros Hev Hd. rewrite run_hooks_app. unfold bind at 1.
  pose proof (page_only_run_hooks events s) as Hpage.
  pose proof (progress_sequence_never_raises events s Hev) as Hok.
  destruct (run_hooks streamlit_progress_hook events s) as [s1 r1].
  cbn [fst snd] in *. subst r1. cbn [run_hooks]. unfold bind.
  rewrite (hook_finished d s1 (has_status_lookup _ _ Hd)). cbn [ret].
  destruct Hpage as (Hs & Hfs & Hclock & Hui & Hprompt & Hcalls).
  unfold with_page. by rewrite Hs, Hfs, Hclock, Hui, Hprompt, Hcalls.
Qed.

Lemma finished_event_completes_the_page_witness :
  progress_bar
    (page (run_hooks streamlit_progress_hook ([halfway] ++ [finished])
             (fresh_session ∅)).1)
  = 1%Q.
Proof.
  rewrite (finished_event_completes_the_page [halfway] finished (fresh_session ∅)).
  - reflexivity.
  - reflexivity.
  - reflexivity.
Defined.

(** The bar after a downloading event with a positive total. *)
Lemma bar_after_downloading d s a t :
  d !! "status" = Some (VStr "downloading") →
  to_num (downloaded_of d) = Some a → (0 <= a)%Q →
  to_num (total_of d) = Some t → (0 < t)%Q →
  progress_bar (page (streamlit_progress_hook d s).1) = Qmin (a / t) 1.
Proof.
  intros Hstatus Ha Ha0 Ht Ht0.
  unfold streamlit_progress_hook, bind at 1, lift, dindex. rewrite Hstatus.
  cbn [py_eq String.eqb Ascii.eqb Bool.eqb andb].
  fold (downloaded_of d) (total_of d). unfold bind.
  rewrite (report_percentage_positive _ _ a t s Ha Ha0 Ht Ht0).
  match goal with
  | |- context [report_details d ?x ?y ?p ?s0] =>
      destruct (keeps_bar_report_details d x y p s0) as [-> _]
  end.
  apply py_min_Qmin.
Qed.

(** X25: for a fixed positive total, the value given to the bar does not go
    down when the byte count goes up, and it is never below 0: two
    downloading events of the same download move the bar forward or leave
    it. *)
Theorem progress_bar_never_goes_back
    (d d' : pydict) (s s0 : app_state) (a a' t : Q) :
  d !! "status" = Some (VStr "downloading") →
  d' !! "status" = Some (VStr "downloading") →
  to_num (downloaded_of d) = Some a →
  to_num (downloaded_of d') = Some a' →
  to_num (total_of d) = Some t →
  to_num (total_of d') = Some t →
  (0 < t)%Q → (0 <= a)%Q → (a <= a')%Q →
  (0 <= progress_bar (page (streamlit_progress_hook d s).1))%Q
  ∧ (progress_bar (page (streamlit_progress_hook d s).1)
     <= progress_bar (page (streamlit_progress_hook d' s0).1))%Q.
Proof.
  intros Hd Hd' Ha Ha' Ht Ht' Ht0 Ha0 Hle.
  assert (Ha0' : (0 <= a')%Q) by (eapply Qle_trans; eassumption).
  rewrite (bar_after_downloading d s a t), (bar_after_downloading d' s0 a' t)
    by done.
  split.
  - apply Q.min_glb; [by apply quotient_nonneg|discriminate].
  - apply Q.min_le_compat_r. unfold Qdiv. apply Qmult_le_compat_r; [done|].
    apply Qlt_le_weak, Qinv_lt_0_compat, Ht0.
Qed.

Lemma progress_bar_never_goes_back_witness :
  (progress_bar
     (page (streamlit_progress_hook
              (<["status" := VStr "downloading"]>
               (<["downloaded_bytes" := VInt 100]>
               (<["total_bytes" := VInt 200]> ∅)))
              (fresh_session ∅)).1)
   <= progress_bar
        (page (streamlit_progress_hook
                 (<["status" := VStr "downloading"]>
                  (<["downloaded_bytes" := VInt 300]>
                  (<["total_bytes_estimate" := VInt 200]> ∅)))
                 (fresh_session ∅)).1))%Q.
Proof.
  apply (progress_bar_never_goes_back
           (<["status" := VStr "downloading"]>
            (<["downloaded_bytes" := VInt 100]>
            (<["total_bytes" := VInt 200]> ∅)))
           (<["status" := VStr "downloading"]>
            (<["downloaded_bytes" := VInt 300]>
            (<["total_bytes_estimate" := VInt 200]> ∅)))
           (fresh_session ∅) (fresh_session ∅)
           (inject_Z 100) (inject_Z 300) (inject_Z 200)).
  - reflexivity.
  - reflexivity.
  - reflexivity.
  - reflexivity.
  - reflexivity.
  - reflexivity.
  - reflexivity.
  - discriminate.
  - discriminate.
Defined.

(** X26: the estimate shown before the download never stands in its way:
    whatever the collaborator returns or raises, the step returns normally,
    and of the whole state it can change nothing but the text of the file
    size. *)
Theorem estimate_never_blocks_the_download
    (aenv : app_environment) (url : string) (format_id : pyval) (s : app_state) :
  ∃ size,
    estimate_file_size aenv url format_id s
    = (with_page (fun w =>
         {| progress_bar := progress_bar w; percent_text := percent_text w;
            status_text := status_text w; file_size_text := size;
            eta_text := eta_text w |}) s, Ok tt).
Proof.
  assert (Hsame :
    s = with_page (fun w =>
          {| progress_bar := progress_bar w; percent_text := percent_text w;
             status_text := status_text w; file_size_text := file_size_text (page s);
             eta_text := eta_text w |}) s).
  { destruct s as [ss f c u [] p cs]. reflexivity. }
  unfold estimate_file_size, try_except, bind at 1, lift.
  destruct (extract_selected aenv format_id url) as [info|e];
    [|exists (file_size_text (page s)); cbn; by rewrite <- Hsame].
  destruct (List.find _ (info_formats info)) as [fmt|];
    [|exists (file_size_text (page s)); cbn; by rewrite <- Hsame].
  destruct (negb (bool_decide (dom fmt = ∅)) && truthy (dget fmt "filesize" VNone));
    [|exists (file_size_text (page s)); cbn; by rewrite <- Hsame].
  unfold bind, lift.
  destruct (py_truediv (dget fmt "filesize" VNone) MiB) as [q|e];
    [|exists (file_size_text (page s)); cbn; by rewrite <- Hsame].
  by eexists.
Qed.

End ProgressEvents.

(** ** The calls the command line makes *)

Section CommandLineCalls.

Import Downloader.

Lemma quiet_gets {A} (f : cli_state → A) : quiet (gets f).
Proof. by intros s. Qed.

Lemma one_call_quiet {A} url output_dir (m : M cli_state A) :
  quiet m → one_call_at_most url output_dir m.
Proof. intros Hm s. left. by destruct (Hm s) as (_ & _ & ?). Qed.

Lemma one_call_bind {A B} url output_dir (m : M cli_state A)
    (k : A → M cli_state B) :
  quiet m → (∀ a, one_call_at_most url output_dir (k a)) →
  one_call_at_most url output_dir (bind m k).
Proof.
  intros Hm Hk s. unfold bind. destruct (Hm s) as (_ & _ & Hc).
  destruct (m s) as [s1 [a|e]]; cbn [fst] in *; [|by left].
  destruct (Hk a s1) as [Hsame|(opts & Hcall & Hunder)].
  - left. congruence.
  - right. exists opts. split; [congruence|done].
Qed.

Lemma one_call_try_except {A} url output_dir catches (m : M cli_state A) h :
  one_call_at_most url output_dir m → (∀ e, quiet (h e)) →
  one_call_at_most url output_dir (try_except catches m h).
Proof.
  intros Hm Hh s. unfold try_except. specialize (Hm s).
  destruct (m s) as [s1 [a|e]]; cbn [fst] in *; [done|].
  destruct (catches e); [|done].
  destruct (Hh e s1) as (_ & _ & Hc). rewrite Hc. exact Hm.
Qed.

Lemma one_call_report env opts url video_title output_path :
  saves_under output_path opts →
  one_call_at_most url output_path
    (download_and_report env opts url video_title output_path).
Proof.
  intros Hunder s. right. exists opts. split; [|done].
  by destruct (download_and_report_calls env opts url video_title output_path s).
Qed.

Lemma one_call_download_format env url output_path format_id force :
  one_call_at_most url output_path
    (download_format env url output_path format_id force).
Proof.
  unfold download_format.
  apply one_call_bind; [apply quiet_print|intros _].
  apply one_call_bind; [apply quiet_lift|intros info].
  apply one_call_bind; [apply quiet_gets|intros timestamp].
  apply one_call_bind; [apply quiet_lift|intros mp3].
  apply one_call_bind; [apply quiet_print|intros _].
  apply one_call_bind; [apply quiet_gets|intros existing].
  destruct (existing && negb force).
  - apply one_call_bind; [apply quiet_print|intros _].
    apply one_call_bind; [apply quiet_input|intros response].
    destruct (String.eqb (lower response) "y").
    { apply one_call_report. exists "%(title)s.%(ext)s".
      split; [reflexivity|]. by destruct mp3, force. }
    destruct (String.eqb (lower response) "r").
    + apply one_call_bind; [apply quiet_print|intros _].
      apply one_call_report.
      exists ("%(title)s_" +:+ pretty timestamp +:+ ".%(ext)s").
      split; [reflexivity|]. apply lookup_insert_eq.
    + apply one_call_quiet.
      apply quiet_bind; [apply quiet_print|intros _; apply quiet_ret].
  - apply one_call_report. exists "%(title)s.%(ext)s".
    split; [reflexivity|]. apply base_opts_outtmpl.
Qed.

Lemma one_call_download env url output_path format_id auto_best force :
  one_call_at_most url output_path
    (download_with_yt_dlp env url output_path format_id auto_best force).
Proof.
  unfold download_with_yt_dlp. apply one_call_try_except.
  2:{ intros e. apply quiet_bind; [apply quiet_print|intros _; apply quiet_ret]. }
  destruct auto_best; [apply one_call_download_format|].
  destruct (negb (truthy format_id)); [|apply one_call_download_format].
  apply one_call_bind; [apply quiet_lift|intros [cat|]].
  - apply one_call_bind; [apply quiet_display|intros fid].
    apply one_call_download_format.
  - apply one_call_quiet.
    apply quiet_bind; [apply quiet_print|intros _; apply quiet_ret].
Qed.

(** The loop of [main]: the calls made are for URLs of the list, in the
    order of the list, at most one for each. *)
Lemma process_urls_calls env args output_dir urls : ∀ n s,
  ∃ new,
    calls (process_urls env args output_dir urls n s).1 = calls s ++ new
    ∧ Forall (fun c => saves_under output_dir c.2) new
    ∧ sublist (map fst new) urls.
Proof.
  induction urls as [|url urls IH]; intros n s; cbn [process_urls].
  { exists []. cbn. by rewrite app_nil_r. }
  unfold bind at 1. rewrite print_printed. unfold bind at 1.
  pose proof (one_call_download env url output_dir (format args) (best args)
                (force args) (printed [OutProcessingUrl url] s)) as Hone.
  destruct (download_with_yt_dlp env url output_dir (format args) (best args)
              (force args) (printed [OutProcessingUrl url] s)) as [s1 [ok|e]];
    cbn [fst] in Hone.
  - destruct (IH (if ok then S n else n) s1) as (new & Hc & Hunder & Hsub).
    destruct Hone as [Hsame|(opts & Hcall & Hopts)].
    + exists new. rewrite Hc, Hsame. split; [done|]. split; [done|].
      by apply sublist_cons.
    + exists ((url, opts) :: new). rewrite Hc, Hcall, <- app_assoc.
      split; [done|]. split; [by constructor|]. cbn. by apply sublist_skip.
  - cbn [fst]. destruct Hone as [Hsame|(opts & Hcall & Hopts)].
    + exists []. rewrite app_nil_r. split; [done|]. split; [done|].
      apply sublist_nil_l.
    + exists [(url, opts)]. split; [done|]. split; [by repeat constructor|].
      cbn. apply sublist_skip, sublist_nil_l.
Qed.

(** Lines 262-269 of [main]: the directory the files go to. *)
Lemma output_directory_chosen env args s :
  ∃ s1 output_dir,
    (if negb (path_exists (fs s) (output args)) then
       if makedirs_ok env (output args) then
         here <- gets fs ;;
         set_fs (<[output args := 0]> here) ;;
         print (OutCreatedDir (output args)) ;;
         ret (output args)
       else
         print (OutDirError (output args)) ;;
         print (OutUsingDefault (DEFAULT_SAVE_PATH env)) ;;
         ret (DEFAULT_SAVE_PATH env)
     else ret (output args)) s = (s1, Ok output_dir)
    ∧ calls s1 = calls s
    ∧ stdin s1 = stdin s
    ∧ (output_dir = output args
       ∨ (output_dir = DEFAULT_SAVE_PATH env
          ∧ path_exists (fs s) (output args) = false
          ∧ makedirs_ok env (output args) = false)).
Proof.
  destruct (path_exists (fs s) (output args)) eqn:Hexists; cbn [negb].
  - eexists _, _. split; [reflexivity|]. split; [done|]. split; [done|]. by left.
  - destruct (makedirs_ok env (output args)) eqn:Hmk.
    + eexists _, _. split; [reflexivity|]. cbn.
      split; [done|]. split; [done|]. by left.
    + eexists _, _. split; [reflexivity|]. cbn.
      split; [done|]. split; [done|]. by right.
Qed.

(** Lines 284-291 of [main]: the loop and the summary. *)
Lemma summary_keeps_the_calls env args output_dir urls s :
  calls
    (bind (process_urls env args output_dir urls 0%nat)
       (fun success_count =>
          if (1 <? length urls)%nat then
            print (OutSummary success_count (length urls))
          else ret tt) s).1
  = calls (process_urls env args output_dir urls 0%nat s).1.
Proof.
  unfold bind.
  destruct (process_urls env args output_dir urls 0%nat s) as [s1 [c|e]];
    [|done].
  by destruct (1 <? length urls)%nat.
Qed.

(** X27: whatever the collaborators do and whatever is typed, the calls that
    one run of the command line makes to the collaborator's download are for
    the URLs given (or for the one URL typed when none was given), in their
    order and at most one for each; and all of them save under one
    directory, which is the output directory asked for, or the default one
    when the directory asked for did not exist and could not be created. *)
Theorem command_line_calls_stay_in_one_directory
    (env : environment) (args : args) (s : cli_state) :
  ∃ new output_dir,
    calls (main env args s).1 = calls s ++ new
    ∧ (output_dir = output args
       ∨ (output_dir = DEFAULT_SAVE_PATH env
          ∧ path_exists (fs s) (output args) = false
          ∧ makedirs_ok env (output args) = false))
    ∧ Forall (fun c => saves_under output_dir c.2) new
    ∧ sublist (map fst new)
        (match urls args with
         | [] => take 1 (stdin s)
         | urls => urls
         end).
Proof.
  unfold main. cbv zeta. unfold bind at 1. unfold gets at 1. unfold bind at 1.
  destruct (output_directory_chosen env args s)
    as (s1 & output_dir & -> & Hc1 & Hin1 & Hdir).
  unfold bind at 1. rewrite print_printed. unfold bind at 1.
  destruct (urls args) as [|u us] eqn:Hurls.
  - unfold bind at 1, input. cbn [stdin printed]. rewrite Hin1.
    destruct (stdin s) as [|line rest].
    { exists [], output_dir. cbn. by rewrite app_nil_r. }
    cbn [ret]. destruct (String.eqb line "").
    { exists [], output_dir. cbn. rewrite app_nil_r.
      split; [done|]. split; [done|]. split; [done|]. apply sublist_nil_l. }
    rewrite (summary_keeps_the_calls env args output_dir [line]).
    match goal with
    | |- context [process_urls env args output_dir [line] 0%nat ?s0] =>
        destruct (process_urls_calls env args output_dir [line] 0%nat s0)
          as (new & Hc & Hunder & Hsub)
    end.
    exists new, output_dir. rewrite Hc. cbn. by rewrite Hc1.
  - cbn [ret].
    rewrite (summary_keeps_the_calls env args output_dir (u :: us)).
    match goal with
    | |- context [process_urls env args output_dir (u :: us) 0%nat ?s0] =>
        destruct (process_urls_calls env args output_dir (u :: us) 0%nat s0)
          as (new & Hc & Hunder & Hsub)
    end.
    exists new, output_dir. rewrite Hc. cbn. by rewrite Hc1.
Qed.

End CommandLineCalls.
